(** * dol_c_kit: the patch assembler of [devkit_tools.py]

    A shallow embedding of the hook classes and of [Project.build_dol]
    from [src/dol_c_kit/devkit_tools.py], together with the properties of
    the relocation engine that the specification states.

    Python values that may be [None] are kept as [pyval]; exceptions are the
    [Raise] outcome of a small error-and-output monad; the lines a function
    prints are kept as a list of events. *)

From Stdlib Require Import ZArith List Lia Bool.
From Stdlib.Init Require Import Byte.
From Stdlib Require Import Sorted.
From stdpp Require Import base gmap strings list.

Local Open Scope Z_scope.

(** ** Python values, exceptions and printed lines *)

Inductive pyval : Type :=
| PyNone
| PyInt (n : Z)
| PyBytes (b : list byte).

Inductive exn : Type :=
| RuntimeError (msg : string)
| TypeError
| KeyError (key : string)
| LibraryError (what : string).

Inductive result (A : Type) : Type :=
| Ok (a : A)
| Raise (e : exn).
Arguments Ok {A} a.
Arguments Raise {A} e.

(** [if v:] *)
Definition truthy (v : pyval) : bool :=
  match v with
  | PyNone => false
  | PyInt n => negb (n =? 0)
  | PyBytes b => negb (length b =? 0)%nat
  end.

(** [v == None] *)
Definition is_none (v : pyval) : bool :=
  match v with PyNone => true | _ => false end.

(** [a - b], [a | b] and [a << k] raise [TypeError] unless the operands are
    integers. *)
Definition py_sub (a b : pyval) : result pyval :=
  match a, b with
  | PyInt x, PyInt y => Ok (PyInt (x - y))
  | _, _ => Raise TypeError
  end.

Definition py_or (a b : pyval) : result pyval :=
  match a, b with
  | PyInt x, PyInt y => Ok (PyInt (Z.lor x y))
  | _, _ => Raise TypeError
  end.

Definition py_lshift (a : pyval) (k : Z) : result pyval :=
  match a with
  | PyInt x => Ok (PyInt (Z.shiftl x k))
  | _ => Raise TypeError
  end.

(** A slice bound of [seq[start:end]], clamped the way Python does. *)
Definition slice_index (len i : Z) : Z :=
  if i <? 0 then Z.max 0 (len + i) else Z.min i len.

Definition py_slice {A : Type} (l : list A) (start : Z) (stop : option Z) : list A :=
  let len := Z.of_nat (length l) in
  let s := slice_index len start in
  let e := match stop with Some e => slice_index len e | None => len end in
  take (Z.to_nat (e - s)) (drop (Z.to_nat s) l).

(** ** Hooks *)

Inductive hook_kind : Type :=
| KBranch (sym_name : string) (lk_bit : bool)
| KPointer (sym_name : string)
| KString (text : string) (encoding : string) (max_strlen : option Z)
| KFile (filepath : string) (start : Z) (stop : option Z) (max_size : option Z)
| KImmediate16 (sym_name : string) (modifier : string)
| KImmediate12 (w i : Z) (sym_name : string) (modifier : string).

Record Hook : Type := mkHook {
  good : bool;
  addr : Z;
  data : pyval;
  kind : hook_kind
}.

Definition set_data (h : Hook) (d : pyval) : Hook :=
  {| good := good h; addr := addr h; data := d; kind := kind h |}.

Definition set_good (h : Hook) : Hook :=
  {| good := true; addr := addr h; data := data h; kind := kind h |}.

(** The constructors: [Hook.__init__] sets [good = False], [data = None];
    the String and File hooks then start from an empty [bytearray()]. *)
Definition BranchHook (addr : Z) (sym_name : string) (lk_bit : bool) : Hook :=
  mkHook false addr PyNone (KBranch sym_name lk_bit).

Definition PointerHook (addr : Z) (sym_name : string) : Hook :=
  mkHook false addr PyNone (KPointer sym_name).

Definition StringHook (addr : Z) (text encoding : string) (max_strlen : option Z) : Hook :=
  mkHook false addr (PyBytes []) (KString text encoding max_strlen).

Definition FileHook (addr : Z) (filepath : string) (start : Z)
    (stop max_size : option Z) : Hook :=
  mkHook false addr (PyBytes []) (KFile filepath start stop max_size).

Definition Immediate16Hook (addr : Z) (sym_name modifier : string) : Hook :=
  mkHook false addr PyNone (KImmediate16 sym_name modifier).

Definition Immediate12Hook (addr w i : Z) (sym_name modifier : string) : Hook :=
  mkHook false addr PyNone (KImmediate12 w i sym_name modifier).

(** The name a hook looks up in the symbol table, for the variants that
    look one up. *)
Definition referenced_name (h : Hook) : option string :=
  match kind h with
  | KBranch s _ | KPointer s | KImmediate16 s _ | KImmediate12 _ _ s _ => Some s
  | KString _ _ _ | KFile _ _ _ _ => None
  end.

(** An entry of the symbol table; only ['st_value'] is read by the hooks.
    The two small-data-area entries carry [None] until the bases are set. *)
Record Symbol : Type := mkSymbol { st_value : pyval }.

(** ** The injectable code table (decoded by [geckolibs]) *)

Inductive codetype_t : Type :=
| WRITE_8 | WRITE_16 | WRITE_32 | WRITE_STR | WRITE_SERIAL | WRITE_BRANCH
| ASM_INSERT | ASM_INSERT_XOR
| OtherCodetype (code : Z).

#[global] Instance codetype_eq_dec : EqDecision codetype_t.
Proof. solve_decision. Defined.

Record GeckoCommand : Type := mkGeckoCommand {
  codetype : codetype_t;
  _address : Z;
  value : list byte
}.

Record GeckoCode : Type := mkGeckoCode {
  name : string;
  is_enabled : bool;
  commands : list GeckoCommand
}.

Definition SupportedGeckoCodetypes : list codetype_t :=
  [WRITE_8; WRITE_16; WRITE_32; WRITE_STR; WRITE_SERIAL; WRITE_BRANCH;
   ASM_INSERT; ASM_INSERT_XOR].

(** ** Printed lines *)

Inductive event : Type :=
| UnknownModifier (modifier : string)
| WarnExceeds (what : string) (limit : Z)
| WarnCouldNotOpen (filepath : string)
| BaseAutoSet (base : Z)
| WarnAlignment
| GeckoCodeStatus (status name : string)
| UnsupportedCodetypes (cmds : list GeckoCommand)
| HookInfo (h : Hook).

(** ** The monad: printed lines so far, and a value or an exception *)

Definition py (A : Type) : Type := (list event * result A)%type.

Definition ret {A : Type} (a : A) : py A := ([], Ok a).

Definition raise {A : Type} (e : exn) : py A := ([], Raise e).

Definition print (ev : event) : py unit := ([ev], Ok tt).

Definition lift {A : Type} (r : result A) : py A := ([], r).

Definition bind {A B : Type} (m : py A) (k : A -> py B) : py B :=
  match m with
  | (out, Ok a) => let (out', r) := k a in (out ++ out', r)
  | (out, Raise e) => (out, Raise e)
  end.

Notation "'let*' x := m 'in' k" := (bind m (fun x => k))
  (at level 10, x name, m at level 100, k at level 200).
Notation "'let*' ' p := m 'in' k" := (bind m (fun x => match x with p => k end))
  (at level 10, p pattern, m at level 100, k at level 200).


(** ** The collaborators

    [devkit_tools.py] imports the image from [dolreader], the code table
    from [geckolibs], its arithmetic helpers from [dol_c_kit] (module
    [doltools]), and runs an external tool chain.  Each of them is an
    interface here, and the general properties below hold for all of their
    implementations. *)

Record Section : Type := mkSection { address : Z; size : Z }.

(** What [build_dol] hands to [append_section]. *)
Inductive NewSection : Type :=
| TextSection (address : Z) (data : list byte)
| DataSection (address : Z) (data : list byte).

(** The image of [dolreader.dol.DolFile], as far as [devkit_tools.py] uses it. *)
Class DolFile (dol : Type) : Type := {
  sections : dol -> list Section;
  textSections : dol -> list Section;
  dataSections : dol -> list Section;
  MaxTextSections : Z;
  MaxDataSections : Z;
  is_mapped : dol -> Z -> bool;
  seek : dol -> Z -> result dol;
  write : dol -> pyval -> result dol;
  write_uint16 : dol -> Z -> pyval -> result dol;
  write_uint32 : dol -> Z -> pyval -> result dol;
  append_section : dol -> NewSection -> result dol
}.

(** The helpers imported from [dol_c_kit] (module [doltools]). *)
Class DolTools (dol : Type) : Type := {
  mask_field : pyval -> Z -> bool -> result pyval;
  hi : pyval -> bool -> result pyval;
  lo : pyval -> bool -> result pyval;
  hia : pyval -> bool -> result pyval;
  assemble_branch : Z -> pyval -> bool -> result (list byte);
  write_branch : dol -> Z -> result dol
}.

(** [str.encode] and [open(path, "rb").read()]; [None] stands for [OSError]. *)
Class Runtime : Type := {
  str_encode : string -> string -> result (list byte);
  read_file : string -> option (list byte)
}.

(** ** [resolve] *)

Definition symbols_t : Type := gmap string Symbol.

Definition sda_error : string :=
  "You must set this project's sda_base member before using the @sda modifier!  Check out the set_sda_bases method.".

Definition sda2_error : string :=
  "You must set this project's sda2_base member before using the @sda2 modifier!  Check out the set_sda_bases method.".

(** [symbols[name]]: a missing key raises [KeyError]. *)
Definition subscript (symbols : symbols_t) (name : string) : py Symbol :=
  match symbols !! name with
  | Some e => ret e
  | None => raise (KeyError name)
  end.

(** Zero padding: [while len(data) < n: data += b'\x00']. *)
Definition zero_pad (d : list byte) (n : Z) : list byte :=
  d ++ replicate (Z.to_nat (n - Z.of_nat (length d))) x00.

(** The tail shared by [StringHook.resolve] and [FileHook.resolve]. *)
Definition limit_payload (what : string) (d : list byte) (limit : option Z)
    : py (list byte) :=
  match limit with
  | None => ret d
  | Some n =>
      if n <? Z.of_nat (length d)
      then let* _ := print (WarnExceeds what n) in ret d
      else ret (zero_pad d n)
  end.

Section Hooks.
Context {dol : Type} {DF : DolFile dol} {DT : DolTools dol} {RT : Runtime}.

(** The chain of [if self.modifier == ...] that [Immediate16Hook.resolve]
    and [Immediate12Hook.resolve] both contain, word for word; [e] is
    [symbols[self.sym_name]] and [current] the value of [self.data] on
    entry, which the final [else] leaves in place. *)
Definition modifier_value (current : pyval) (symbols : symbols_t)
    (e : Symbol) (modifier : string) : py pyval :=
  if String.eqb modifier "@h" then lift (hi (st_value e) true)
  else if String.eqb modifier "@l" then lift (lo (st_value e) true)
  else if String.eqb modifier "@ha" then lift (hia (st_value e) true)
  else if String.eqb modifier "@sda" then
    let* b := subscript symbols "_SDA_BASE_" in
    if is_none (st_value b) then raise (RuntimeError sda_error)
    else
      let* diff := lift (py_sub (st_value e) (st_value b)) in
      lift (mask_field diff 16 true)
  else if String.eqb modifier "@sda2" then
    let* b := subscript symbols "_SDA2_BASE_" in
    if is_none (st_value b) then raise (RuntimeError sda2_error)
    else
      let* diff := lift (py_sub (st_value e) (st_value b)) in
      lift (mask_field diff 16 true)
  else
    let* _ := print (UnknownModifier modifier) in
    ret current.

Definition resolve (h : Hook) (symbols : symbols_t) : py Hook :=
  match kind h with
  | KBranch sym_name _ | KPointer sym_name =>
      match symbols !! sym_name with
      | Some e => ret (set_data h (st_value e))
      | None => ret h
      end
  | KString text encoding max_strlen =>
      let* b := lift (str_encode text encoding) in
      let* d := limit_payload text (b ++ [x00]) max_strlen in
      ret (set_data h (PyBytes d))
  | KFile filepath start stop max_size =>
      match read_file filepath with
      | Some content =>
          let* d := limit_payload filepath (py_slice content start stop) max_size in
          ret (set_data h (PyBytes d))
      | None =>
          let* _ := print (WarnCouldNotOpen filepath) in
          ret h
      end
  | KImmediate16 sym_name modifier =>
      match symbols !! sym_name with
      | Some e =>
          let* v := modifier_value (data h) symbols e modifier in
          let* d := lift (mask_field v 16 true) in
          ret (set_data h d)
      | None => ret h
      end
  | KImmediate12 w i sym_name modifier =>
      match symbols !! sym_name with
      | Some e =>
          let* v := modifier_value (data h) symbols e modifier in
          let* d := lift (mask_field v 12 true) in
          let* mi := lift (mask_field (PyInt i) 1 false) in
          let* si := lift (py_lshift mi 12) in
          let* d := lift (py_or d si) in
          let* mw := lift (mask_field (PyInt w) 3 false) in
          let* sw := lift (py_lshift mw 13) in
          let* d := lift (py_or d sw) in
          ret (set_data h d)
      | None => ret h
      end
  end.

(** ** [apply_dol] *)

Definition apply_dol (h : Hook) (d : dol) : py (Hook * dol) :=
  match kind h with
  | KBranch _ lk_bit =>
      if truthy (data h) && is_mapped d (addr h) then
        let* d := lift (seek d (addr h)) in
        let* br := lift (assemble_branch (addr h) (data h) lk_bit) in
        let* d := lift (write d (PyBytes br)) in
        ret (set_good h, d)
      else ret (h, d)
  | KPointer _ =>
      if truthy (data h) && is_mapped d (addr h) then
        let* d := lift (write_uint32 d (addr h) (data h)) in
        ret (set_good h, d)
      else ret (h, d)
  | KString _ _ _ | KFile _ _ _ _ =>
      if is_mapped d (addr h) then
        let* d := lift (seek d (addr h)) in
        let* d := lift (write d (data h)) in
        ret (set_good h, d)
      else ret (h, d)
  | KImmediate16 _ _ | KImmediate12 _ _ _ _ =>
      if truthy (data h) && is_mapped d (addr h) then
        let* d := lift (write_uint16 d (addr h) (data h)) in
        ret (set_good h, d)
      else ret (h, d)
  end.

(** A Python [x and y] evaluates [y] only when [x] is truthy, and
    [is_mapped] has no effect, so [&&] above is the same test. *)

End Hooks.

(** ** [write_geckocommand]

    The script file is kept as the list of commands written to it, each
    standing for the line [command.as_text() + newline]. *)

Inductive script_line : Type :=
| WriteBranch (value : pyval) (address : Z) (isLink : bool)
| Write32 (value : pyval) (address : Z)
| Write16 (value : pyval) (address : Z)
| WriteString (value : pyval) (address : Z).

Definition write_geckocommand (h : Hook) (f : list script_line)
    : Hook * list script_line :=
  match kind h with
  | KBranch _ lk_bit =>
      if truthy (data h)
      then (set_good h, f ++ [WriteBranch (data h) (addr h) lk_bit])
      else (h, f)
  | KPointer _ =>
      if truthy (data h)
      then (set_good h, f ++ [Write32 (data h) (addr h)])
      else (h, f)
  | KString _ _ _ | KFile _ _ _ _ =>
      (set_good h, f ++ [WriteString (data h) (addr h)])
  | KImmediate16 _ _ | KImmediate12 _ _ _ _ =>
      if truthy (data h)
      then (set_good h, f ++ [Write16 (data h) (addr h)])
      else (h, f)
  end.

(** ** [Project] and [build_dol] *)

(** The tuples appended to [gecko_command_metadata] and to
    [self.gecko_code_metadata]; the field names are those under which
    [save_map] unpacks them. *)
Record command_metadata : Type := mkCommandMetadata {
  cmd_vaddr : Z;
  cmd_size : Z;
  cmd_status : string;
  gecko_command : GeckoCommand
}.

Record code_metadata : Type := mkCodeMetadata {
  code_vaddr : Z;
  code_size : Z;
  code_status : string;
  gecko_code : GeckoCode;
  gecko_command_metadata : list command_metadata
}.

Record Project (dol : Type) : Type := mkProject {
  base_addr : option Z;
  verbose : bool;
  sda_base : pyval;
  sda2_base : pyval;
  symbols : symbols_t;
  hooks : list Hook;
  gecko_codetable : list GeckoCode;
  gecko_code_metadata : list code_metadata;
  osarena_patcher : option (dol -> Z -> result dol)
}.
Arguments mkProject {dol}.
Arguments base_addr {dol}.
Arguments verbose {dol}.
Arguments sda_base {dol}.
Arguments sda2_base {dol}.
Arguments symbols {dol}.
Arguments hooks {dol}.
Arguments gecko_codetable {dol}.
Arguments gecko_code_metadata {dol}.
Arguments osarena_patcher {dol}.

(** [GeckoCodeTable.apply(dol)] of [geckolibs]. *)
Class GeckoLib (dol : Type) : Type := {
  codetable_apply : list GeckoCode -> dol -> result dol
}.

(** [self.__build_project()] drives the compiler, assembler and linker and
    reads the linked object: it leaves a symbol table in [self.symbols], and
    when it returns [True] the file [obj_dir + project_name + ".bin"] holds
    the linked code and data, given here as [Some] of its bytes. *)
Class Toolchain (dol : Type) : Type := {
  build_project : Project dol -> result (symbols_t * option (list byte))
}.

Definition len {A : Type} (l : list A) : Z := Z.of_nat (length l).

Fixpoint foldM {A S : Type} (f : S -> A -> py S) (s : S) (l : list A) : py S :=
  match l with
  | [] => ret s
  | a :: l' => let* s' := f s a in foldM f s' l'
  end.

(** The body of the loop of [find_rom_end]. *)
Definition rom_step (rom_end : Z) (section : Section) : Z :=
  if rom_end <? address section + size section
  then address section + size section else rom_end.

Definition find_rom_end {dol : Type} {DF : DolFile dol} (d : dol) : Z :=
  fold_left rom_step (sections d) 0x80000000.

(** [while (len(datablob) % 4) != 0: datablob += b'\x00'] *)
Definition pad4 (b : list byte) : list byte :=
  b ++ replicate (Z.to_nat ((4 - len b mod 4) mod 4)) x00.

Definition supported (t : codetype_t) : bool :=
  bool_decide (t ∈ SupportedGeckoCodetypes).

Definition is_asm_insert (t : codetype_t) : bool :=
  match t with ASM_INSERT | ASM_INSERT_XOR => true | _ => false end.

(** Lines 430-434: the status string of a code entry. *)
Definition status_of (c : GeckoCode) : string :=
  let status := if is_enabled c then "ENABLED"%string else "DISABLED"%string in
  if is_enabled c
  then fold_left
         (fun status cmd =>
            if negb (supported (codetype cmd)) then "OMITTED"%string else status)
         (commands c) status
  else status.

Definition full_error : string :=
  "DOL is full!  Cannot allocate any new sections.".

Section Build.
Context {dol : Type} {DF : DolFile dol} {DT : DolTools dol} {RT : Runtime}
        {GL : GeckoLib dol} {TC : Toolchain dol}.

(** Lines 413-419. *)
Definition choose_base_addr (configured : option Z) (d : dol) : py Z :=
  let* base :=
    match configured with
    | None =>
        let base := Z.land (find_rom_end d + 31) 0xFFFFFFE0 in
        let* _ := print (BaseAutoSet base) in
        ret base
    | Some base => ret base
    end in
  let* _ := if negb (base mod 32 =? 0) then print WarnAlignment else ret tt in
  ret base.

(** Lines 421-427. *)
Definition initial_blob (built : option (list byte)) : list byte :=
  match built with
  | Some bin => pad4 bin
  | None => []
  end.

(** Lines 447-458: one command of a code entry. *)
Definition relocate_command (status : string) (vaddress : Z)
    (st : dol * list byte * list command_metadata) (c : GeckoCommand)
    : py (dol * list byte * list command_metadata) :=
  let '(d, geckoblob, metadata) := st in
  if is_asm_insert (codetype c) then
    if String.eqb status "UNUSED" || String.eqb status "OMITTED" then
      ret (d, geckoblob,
           metadata ++ [mkCommandMetadata 0 (len (value c)) status c])
    else
      let* d := lift (seek d (Z.lor (_address c) 0x80000000)) in
      let* d := lift (write_branch d (vaddress + len geckoblob)) in
      let metadata :=
        metadata ++ [mkCommandMetadata (vaddress + len geckoblob)
                                       (len (value c)) status c] in
      let geckoblob := geckoblob ++ py_slice (value c) 0 (Some (-4)) in
      let* br := lift (assemble_branch (vaddress + len geckoblob)
                         (PyInt (Z.lor (_address c + 4) 0x80000000)) false) in
      ret (d, geckoblob ++ br, metadata)
  else ret st.

(** Lines 429-461: one entry of the code table. *)
Definition relocate_code (base : Z)
    (st : dol * list byte * list code_metadata) (c : GeckoCode)
    : py (dol * list byte * list code_metadata) :=
  let '(d, datablob, code_md) := st in
  let status := status_of c in
  let* _ := print (GeckoCodeStatus status (name c)) in
  let* _ :=
    if String.eqb status "OMITTED"
    then print (UnsupportedCodetypes
                  (filter (fun cmd => negb (supported (codetype cmd))) (commands c)))
    else ret tt in
  let vaddress := base + len datablob in
  let* '(d, geckoblob, metadata) :=
    foldM (relocate_command status vaddress) (d, [], []) (commands c) in
  let datablob := datablob ++ geckoblob in
  let code_md :=
    match metadata with
    | [] => code_md
    | _ => code_md ++ [mkCodeMetadata vaddress (len geckoblob) status c metadata]
    end in
  ret (d, datablob, code_md).

Definition relocate_codetable (base : Z) (datablob : list byte)
    (code_md : list code_metadata) (codes : list GeckoCode) (d : dol)
    : py (dol * list byte * list code_metadata) :=
  foldM (relocate_code base) (d, datablob, code_md) codes.

(** Lines 464-468. *)
Definition apply_hook (verbose : bool) (symbols : symbols_t)
    (st : list Hook * dol) (h : Hook) : py (list Hook * dol) :=
  let '(done, d) := st in
  let* h := resolve h symbols in
  let* '(h, d) := apply_dol h d in
  let* _ := if verbose then print (HookInfo h) else ret tt in
  ret (done ++ [h], d).

(** Lines 472-477. *)
Definition new_section (d : dol) (base : Z) (datablob : list byte)
    : py NewSection :=
  if len (textSections d) <=? MaxTextSections
  then ret (TextSection base datablob)
  else if len (dataSections d) <=? MaxDataSections
  then ret (DataSection base datablob)
  else raise (RuntimeError full_error).

(** Lines 470-481. *)
Definition append_blob (patcher : option (dol -> Z -> result dol))
    (d : dol) (base : Z) (datablob : list byte) : py dol :=
  if 0 <? len datablob then
    let* s := new_section d base datablob in
    let* d := lift (append_section d s) in
    match patcher with
    | Some f => lift (f d (base + len datablob))
    | None => ret d
    end
  else ret d.

(** [build_dol]: the image read from [in_dol_path] comes in, the project
    as left by the call and the image saved to [out_dol_path] come out. *)
Definition build_dol (p : Project dol) (d : dol) : py (Project dol * dol) :=
  let* base := choose_base_addr (base_addr p) d in
  let p := mkProject (Some base) (verbose p) (sda_base p) (sda2_base p)
             (symbols p) (hooks p) (gecko_codetable p)
             (gecko_code_metadata p) (osarena_patcher p) in
  let* '(symbols', built) := lift (build_project p) in
  let p := mkProject (base_addr p) (verbose p) (sda_base p) (sda2_base p)
             symbols' (hooks p) (gecko_codetable p)
             (gecko_code_metadata p) (osarena_patcher p) in
  let datablob := initial_blob built in
  let* '(d, datablob, code_md) :=
    relocate_codetable base datablob (gecko_code_metadata p)
      (gecko_codetable p) d in
  let* d := lift (codetable_apply (gecko_codetable p) d) in
  let* '(hooks', d) :=
    foldM (apply_hook (verbose p) (symbols p)) ([], d) (hooks p) in
  let* d := append_blob (osarena_patcher p) d base datablob in
  ret (mkProject (base_addr p) (verbose p) (sda_base p) (sda2_base p)
         (symbols p) hooks' (gecko_codetable p) code_md (osarena_patcher p),
       d).

End Build.

(** ** A reference implementation of the collaborators

    Small executable stand-ins on which the definitions above can be run. *)

Definition byte_of_Z (z : Z) : byte :=
  match Byte.of_N (Z.to_N (z mod 256)) with
  | Some b => b
  | None => x00
  end.

(** Big-endian bytes of the low [8 * n] bits of [z]. *)
Fixpoint be_bytes (n : nat) (z : Z) : list byte :=
  match n with
  | O => []
  | S n' => byte_of_Z (Z.shiftr z (8 * Z.of_nat n')) :: be_bytes n' z
  end.

Module Ref.

Record section : Type := mkSec {
  is_text : bool;
  start : Z;
  content : list byte
}.

Record image : Type := mkImage {
  secs : list section;
  pos : Z
}.

Definition holds (a : Z) (s : section) : bool :=
  (start s <=? a) && (a <? start s + len (content s)).

Definition as_section (s : section) : Section :=
  mkSection (start s) (len (content s)).

Definition mapped (d : image) (a : Z) : bool := existsb (holds a) (secs d).

Definition do_seek (d : image) (a : Z) : result image :=
  if mapped d a then Ok (mkImage (secs d) a)
  else Raise (LibraryError "UnmappedAddressError").

(** Overwrite the bytes of [s] from address [a] on with [b], within the
    section. *)
Definition poke (a : Z) (b : list byte) (s : section) : section :=
  if holds a s then
    let off := Z.to_nat (a - start s) in
    mkSec (is_text s) (start s)
      (take (length (content s))
         (take off (content s) ++ b ++ drop (off + length b) (content s)))
  else s.

(** The bytes [b] written at [a] end within the section that holds [a]. *)
Definition fits (a : Z) (b : list byte) (s : section) : bool :=
  negb (holds a s) || (a + len b <=? start s + len (content s)).

(** A write that starts outside every section, or runs over the end of
    its section, raises [UnmappedAddressError]. *)
Definition do_write (d : image) (v : pyval) : result image :=
  match v with
  | PyBytes b =>
      if mapped d (pos d) && forallb (fits (pos d) b) (secs d)
      then Ok (mkImage (map (poke (pos d) b) (secs d)) (pos d + len b))
      else Raise (LibraryError "UnmappedAddressError")
  | _ => Raise TypeError
  end.

(** A value that does not fit [n] unsigned bytes makes [struct.pack]
    raise. *)
Definition do_write_uint (n : nat) (d : image) (a : Z) (v : pyval) : result image :=
  match v with
  | PyInt z =>
      match do_seek d a with
      | Ok d' =>
          if (0 <=? z) && (z <? 2 ^ (8 * Z.of_nat n))
          then do_write d' (PyBytes (be_bytes n z))
          else Raise (LibraryError "struct.error")
      | Raise e => Raise e
      end
  | _ => Raise TypeError
  end.

Definition texts (d : image) : list Section :=
  map as_section (filter (fun s => is_text s = true) (secs d)).

Definition datas (d : image) : list Section :=
  map as_section (filter (fun s => is_text s = false) (secs d)).

(** The addresses at which a section may be appended. *)
Definition in_range (a : Z) : bool := (0x80000000 <=? a) && (a <? 0x81200000).

Definition do_append (d : image) (s : NewSection) : result image :=
  match s with
  | TextSection a b =>
      if negb (in_range a) then Raise (LibraryError "AddressOutOfRangeError")
      else if len (texts d) <? 7
      then Ok (mkImage (secs d ++ [mkSec true a b]) (pos d))
      else Raise (LibraryError "SectionCountFullError")
  | DataSection a b =>
      if negb (in_range a) then Raise (LibraryError "AddressOutOfRangeError")
      else if len (datas d) <? 11
      then Ok (mkImage (secs d ++ [mkSec false a b]) (pos d))
      else Raise (LibraryError "SectionCountFullError")
  end.

Definition dolfile : DolFile image := {|
  sections d := map as_section (secs d);
  textSections := texts;
  dataSections := datas;
  MaxTextSections := 7;
  MaxDataSections := 11;
  is_mapped := mapped;
  seek := do_seek;
  write := do_write;
  write_uint16 := do_write_uint 2;
  write_uint32 := do_write_uint 4;
  append_section := do_append
|}.

(** Modelled from the spec: [mask_field] of [dol_c_kit.doltools], which
    the hooks call to confine a value to a field of [bits] bits
    ("masked to 12 bits", "masking off any sign extension"). *)
Definition mask (v : pyval) (bits : Z) (signed : bool) : result pyval :=
  match v with
  | PyInt n => Ok (PyInt (Z.land n (Z.ones bits)))
  | _ => Raise TypeError
  end.

(** Modelled from the spec: [hi] of [dol_c_kit.doltools], the "high half:
    bits 16-31 of the address, plus 1 if bit 15 is set ... only when the
    signed/adjusted form is requested". *)
Definition high (v : pyval) (signed : bool) : result pyval :=
  match v with
  | PyInt n =>
      Ok (PyInt (Z.land (Z.shiftr n 16 + (if signed && Z.testbit n 15 then 1 else 0))
                   0xFFFF))
  | _ => Raise TypeError
  end.

(** Modelled from the spec: [lo] of [dol_c_kit.doltools], the "low half:
    bits 0-15" of the address. *)
Definition low (v : pyval) (signed : bool) : result pyval :=
  match v with
  | PyInt n => Ok (PyInt (Z.land n 0xFFFF))
  | _ => Raise TypeError
  end.

(** Modelled from the spec: [hia] of [dol_c_kit.doltools], the
    "high-half-with-rounding: as high half but independent of the
    sign-compensation flag". *)
Definition high_adjusted (v : pyval) (signed : bool) : result pyval :=
  match v with
  | PyInt n =>
      Ok (PyInt (Z.land (Z.shiftr n 16 + (if Z.testbit n 15 then 1 else 0)) 0xFFFF))
  | _ => Raise TypeError
  end.

(** Modelled from the spec: [assemble_branch] of [dol_c_kit.doltools],
    a "displacement-encoded branch/branch-and-link instruction": primary
    opcode 18, the displacement in bits 2-25, the link bit last. *)
Definition branch (a : Z) (target : pyval) (lk : bool) : result (list byte) :=
  match target with
  | PyInt t =>
      Ok (be_bytes 4 (Z.lor (Z.lor 0x48000000 (Z.land (t - a) 0x03FFFFFC))
                        (if lk then 1 else 0)))
  | _ => Raise TypeError
  end.

(** Modelled from the spec: [write_branch] of [dol_c_kit.doltools], which
    overwrites "the 4 bytes at" the image's current position "with a
    branch instruction targeting" the given address "(unconditional, no
    link)". *)
Definition put_branch (d : image) (target : Z) : result image :=
  match branch (pos d) (PyInt target) false with
  | Ok b => do_write d (PyBytes b)
  | Raise e => Raise e
  end.

Definition doltools : DolTools image := {|
  mask_field := mask;
  hi := high;
  lo := low;
  hia := high_adjusted;
  assemble_branch := branch;
  write_branch := put_branch
|}.

Definition ascii_bytes (s : string) : list byte :=
  map Ascii.byte_of_ascii (String.list_ascii_of_string s).

(** ASCII text only, and no file can be opened. *)
Definition runtime : Runtime := {|
  str_encode text encoding :=
    if forallb (fun c => (Ascii.N_of_ascii c <? 128)%N) (String.list_ascii_of_string text)
    then Ok (ascii_bytes text)
    else Raise (LibraryError "UnicodeEncodeError");
  read_file _ := None
|}.

End Ref.

(** The entries that [build_dol] adds to [gecko_code_metadata] lie one
    after the other from [start] on. *)
Fixpoint laid_out (start : Z) (l : list code_metadata) : Prop :=
  match l with
  | [] => True
  | m :: l' => code_vaddr m = start /\ laid_out (start + code_size m) l'
  end.

Definition total_size (l : list code_metadata) : Z :=
  fold_right (fun m acc => code_size m + acc) 0 l.

(** ** Sample inputs *)

Module Sample.

(** An image with one text section, sixteen zero bytes at [0x80003000]. *)
Definition image : Ref.image :=
  Ref.mkImage [Ref.mkSec true 0x80003000 (replicate 16 x00)] 0.

(** An image whose only section occupies [0x80003000, 0x80004000). *)
Definition image_4k : Ref.image :=
  Ref.mkImage [Ref.mkSec true 0x80003000 (replicate 4096 x00)] 0.

(** An image whose only section occupies [0x1000, 0x2000). *)
Definition image_low : Ref.image :=
  Ref.mkImage [Ref.mkSec true 0x1000 (replicate 4096 x00)] 0.

(** An image with seven text sections and no data section. *)
Definition image_7_text : Ref.image :=
  Ref.mkImage
    (map (fun k => Ref.mkSec true (0x80003000 + 32 * Z.of_nat k) (replicate 32 x00))
         (seq 0 7)) 0.

Definition symbols : symbols_t :=
  {[ "Foo"%string := mkSymbol (PyInt 0x80005010);
     "Zero"%string := mkSymbol (PyInt 0);
     "_SDA_BASE_"%string := mkSymbol (PyInt 0x80005020);
     "_SDA2_BASE_"%string := mkSymbol (PyInt 0x80005000) ]}.

(** An inline-assembly command at origin [0x80003004]: a [nop] and the
    four placeholder bytes. *)
Definition insert : GeckoCommand :=
  mkGeckoCommand ASM_INSERT 0x3004 [x60; x00; x00; x00; x00; x00; x00; x00].

Definition enabled_code : GeckoCode := mkGeckoCode "on" true [insert].

Definition disabled_code : GeckoCode := mkGeckoCode "off" false [insert].

(** [image] sought to the origin of [insert]. *)
Definition image_sought : Ref.image := Ref.mkImage (Ref.secs image) 0x80003004.

(** [image] with the branch [48 00 0F FC], from [0x80003004] to
    [0x80004000], written at the origin of [insert]. *)
Definition image_patched : Ref.image :=
  Ref.mkImage
    [Ref.mkSec true 0x80003000
       ([x00; x00; x00; x00; x48; x00; x0f; xfc] ++ replicate 8 x00)]
    0x80003008.


(** The branch from [0x80004004] back to [0x80003008]: [4B FF F0 04]. *)
Definition branch_back : list byte := [x4b; xff; xf0; x04].

(** The relocated fragment of [insert], placed at [0x80004000]. *)
Definition fragment : list byte := [x60; x00; x00; x00] ++ branch_back.


End Sample.

(** The modifier strings that the chain of tests recognises. *)
Definition recognised (modifier : string) : bool :=
  String.eqb modifier "@h" || String.eqb modifier "@l" ||
  String.eqb modifier "@ha" || String.eqb modifier "@sda" ||
  String.eqb modifier "@sda2".

(** ** Further definitions used to state properties *)

(** The address and the value that a command of the script carries. *)
Definition line_address (l : script_line) : Z :=
  match l with
  | WriteBranch _ a _ | Write32 _ a | Write16 _ a | WriteString _ a => a
  end.

Definition line_value (l : script_line) : pyval :=
  match l with
  | WriteBranch v _ _ | Write32 v _ | Write16 v _ | WriteString v _ => v
  end.

(** A hook whose [resolve] does not read the payload it already holds:
    every hook but an immediate hook with a modifier outside the five
    recognised ones. *)
Definition modifier_known (h : Hook) : bool :=
  match kind h with
  | KImmediate16 _ modifier | KImmediate12 _ _ _ modifier => recognised modifier
  | _ => true
  end.

(** ** Further sample inputs *)

Module Demo.

(** A runtime that encodes ASCII text and holds one file of five bytes. *)
Definition runtime : Runtime := {|
  str_encode := str_encode (Runtime := Ref.runtime);
  read_file path :=
    if String.eqb path "data.bin" then Some [x01; x02; x03; x04; x05] else None
|}.

(** An image whose section tables are over-full: eight text sections and
    twelve data sections. *)
Definition image_overfull : Ref.image :=
  Ref.mkImage
    (map (fun k => Ref.mkSec true (0x80003000 + 32 * Z.of_nat k) (replicate 32 x00))
         (seq 0 8) ++
     map (fun k => Ref.mkSec false (0x80004000 + 32 * Z.of_nat k) (replicate 32 x00))
         (seq 0 12)) 0.

(** A code entry with one 32-bit write and no inline assembly. *)
Definition write_code : GeckoCode :=
  mkGeckoCode "poke" true [mkGeckoCommand WRITE_32 0x3000 [x00; x00; x00; x01]].

(** An enabled entry with an inline-assembly command and a command of an
    unsupported kind. *)
Definition mixed_code : GeckoCode :=
  mkGeckoCode "mixed" true
    [Sample.insert; mkGeckoCommand (OtherCodetype 0x20) 0x3000 []].

(** The same entry, not enabled. *)
Definition write_code_off : GeckoCode :=
  mkGeckoCode "poke" false [mkGeckoCommand WRITE_32 0x3000 [x00; x00; x00; x01]].

End Demo.

(** ** The compile-side members of a [Project] and the tool chain *)

Module Compiler.
Inductive t : Type := DevkitPPC | CodeWarrior.
End Compiler.

Module Assembler.
Inductive t : Type := DevkitPPC | CodeWarrior.
End Assembler.

Module Linker.
Inductive t : Type := DevkitPPC | CodeWarrior.
End Linker.

(** A source file as the [add_*_file] methods store it:
    [(filepath, flags, use_global_flags)]. *)
Definition source_file : Type := (string * list string * bool)%type.

(** The members of [Project] that the compile, assemble and link steps
    read and write (the others are in [Project] above). *)
Record BuildSettings : Type := mkBuildSettings {
  compiler : Compiler.t;
  assembler : Assembler.t;
  linker : Linker.t;
  devkitppc_path : string;
  codewarrior_path : string;
  src_dir : string;
  obj_dir : string;
  project_name : string;
  c_files : list source_file;
  cpp_files : list source_file;
  asm_files : list source_file;
  obj_files : list (string * bool);
  linker_script_files : list string;
  c_flags : list string;
  cpp_flags : list string;
  asm_flags : list string;
  linker_flags : list string
}.

(** Lines 285-335 of [Project.__init__]; [windows] is
    [platform.system() == "Windows"]. *)
Definition new_settings (windows : bool) (compiler : Compiler.t)
    (assembler : Assembler.t) (linker : Linker.t) : BuildSettings :=
  {| compiler := compiler;
     assembler := assembler;
     linker := linker;
     devkitppc_path :=
       if windows then "C:/devkitPro/devkitPPC/bin/" else "/opt/devkitpro/devkitPPC/bin/";
     codewarrior_path :=
       if windows
       then "C:/Program Files (x86)/Metrowerks/CodeWarrior/PowerPC_EABI_Tools/Command_Line_Tools/"
       else "/";
     src_dir := EmptyString;
     obj_dir := EmptyString;
     project_name := "project";
     c_files := [];
     cpp_files := [];
     asm_files := [];
     obj_files := [];
     linker_script_files := [];
     c_flags :=
       match compiler with
       | Compiler.DevkitPPC =>
           ["-w"; "-std=c99"; "-O1"; "-fno-asynchronous-unwind-tables"]
       | Compiler.CodeWarrior =>
           ["-proc"; "gekko"; "-Cpp_exceptions"; "off"; "-use_lmw_stmw"; "on";
            "-fp"; "fmadd"; "-schedule"; "on"]
       end%string;
     cpp_flags :=
       match compiler with
       | Compiler.DevkitPPC =>
           ["-w"; "-std=c++98"; "-O1"; "-fno-asynchronous-unwind-tables"; "-fno-rtti"]
       | Compiler.CodeWarrior =>
           ["-proc"; "gekko"; "-Cpp_exceptions"; "off"; "-fp_contract"; "on";
            "-inline"; "auto"; "-rostr"; "-use_lmw_stmw"; "on"; "-nodefaults";
            "-msgstyle"; "gcc"; "-gccinc"; "-fp"; "hard"; "-schedule"; "on"]
       end%string;
     (* line 323 tests [Assembler.DevkitPPC] a second time, so the CodeWarrior
        assembler falls through to the final [else] *)
     asm_flags :=
       match assembler with
       | Assembler.DevkitPPC => ["-w"%string]
       | Assembler.CodeWarrior => []
       end;
     linker_flags :=
       match linker with
       | Linker.DevkitPPC => []
       | Linker.CodeWarrior => ["-fp"; "fmadd"; "-nodefaults"]%string
       end |}.

Definition set_obj_files (s : BuildSettings) (l : list (string * bool)) : BuildSettings :=
  {| compiler := compiler s; assembler := assembler s; linker := linker s;
     devkitppc_path := devkitppc_path s; codewarrior_path := codewarrior_path s;
     src_dir := src_dir s; obj_dir := obj_dir s; project_name := project_name s;
     c_files := c_files s; cpp_files := cpp_files s; asm_files := asm_files s;
     obj_files := l; linker_script_files := linker_script_files s;
     c_flags := c_flags s; cpp_flags := cpp_flags s; asm_flags := asm_flags s;
     linker_flags := linker_flags s |}.

(** [add_c_file], [add_cpp_file], [add_asm_file], [add_obj_file]. *)
Definition add_c_file (s : BuildSettings) (f : source_file) : BuildSettings :=
  {| compiler := compiler s; assembler := assembler s; linker := linker s;
     devkitppc_path := devkitppc_path s; codewarrior_path := codewarrior_path s;
     src_dir := src_dir s; obj_dir := obj_dir s; project_name := project_name s;
     c_files := c_files s ++ [f]; cpp_files := cpp_files s; asm_files := asm_files s;
     obj_files := obj_files s; linker_script_files := linker_script_files s;
     c_flags := c_flags s; cpp_flags := cpp_flags s; asm_flags := asm_flags s;
     linker_flags := linker_flags s |}.

Definition add_cpp_file (s : BuildSettings) (f : source_file) : BuildSettings :=
  {| compiler := compiler s; assembler := assembler s; linker := linker s;
     devkitppc_path := devkitppc_path s; codewarrior_path := codewarrior_path s;
     src_dir := src_dir s; obj_dir := obj_dir s; project_name := project_name s;
     c_files := c_files s; cpp_files := cpp_files s ++ [f]; asm_files := asm_files s;
     obj_files := obj_files s; linker_script_files := linker_script_files s;
     c_flags := c_flags s; cpp_flags := cpp_flags s; asm_flags := asm_flags s;
     linker_flags := linker_flags s |}.

Definition add_asm_file (s : BuildSettings) (f : source_file) : BuildSettings :=
  {| compiler := compiler s; assembler := assembler s; linker := linker s;
     devkitppc_path := devkitppc_path s; codewarrior_path := codewarrior_path s;
     src_dir := src_dir s; obj_dir := obj_dir s; project_name := project_name s;
     c_files := c_files s; cpp_files := cpp_files s; asm_files := asm_files s ++ [f];
     obj_files := obj_files s; linker_script_files := linker_script_files s;
     c_flags := c_flags s; cpp_flags := cpp_flags s; asm_flags := asm_flags s;
     linker_flags := linker_flags s |}.

Definition add_obj_file (s : BuildSettings) (filepath : string) (do_cleanup : bool)
    : BuildSettings :=
  set_obj_files s (obj_files s ++ [(filepath, do_cleanup)]).

(** What the build does to the outside world, in order. *)
Inductive action : Type :=
| MakeDirs (path : string)
| PrintArgs (args : list string)
| Call (args : list string).

(** The linked object as [elftools] decodes it. *)
Module Elf.

(** [st_shndx] is a section index or one of the names ['SHN_ABS'],
    ['SHN_UNDEF'], ... *)
Inductive shndx : Type :=
| ShnName (s : string)
| ShnIndex (n : nat).

Record symbol : Type := mkSymbol {
  name : string;
  bind : string;
  st_shndx : shndx;
  st_value : Z;
  st_size : Z
}.

Record section : Type := mkSection {
  sec_name : string;
  sh_flags : Z;
  sh_addr : Z;
  data : list byte
}.

(** [symtab] is [None] when the object has no [.symtab] section. *)
Record file : Type := mkFile {
  sections : list section;
  symtab : option (list symbol)
}.

End Elf.

(** The host: [os.makedirs], [subprocess.call] (whose exit status the code
    does not look at) and the opening of the linked object with [ELFFile]. *)
Class Host : Type := {
  makedirs : string -> result unit;
  subprocess_call : list string -> result unit;
  open_elf : string -> result Elf.file
}.

(** The monad of the build: the actions so far, and a value or an
    exception. *)
Definition sh (A : Type) : Type := (list action * result A)%type.

Definition sh_ret {A : Type} (a : A) : sh A := ([], Ok a).

Definition sh_bind {A B : Type} (m : sh A) (k : A -> sh B) : sh B :=
  match m with
  | (tr, Ok a) => let (tr', r) := k a in (tr ++ tr', r)
  | (tr, Raise e) => (tr, Raise e)
  end.

Notation "'let+' x := m 'in' k" := (sh_bind m (fun x => k))
  (at level 10, x name, m at level 100, k at level 200).
Notation "'let+' ' p := m 'in' k" := (sh_bind m (fun x => match x with p => k end))
  (at level 10, p pattern, m at level 100, k at level 200).

Fixpoint sh_fold {A S : Type} (f : S -> A -> sh S) (s : S) (l : list A) : sh S :=
  match l with
  | [] => sh_ret s
  | a :: l' => let+ s' := f s a in sh_fold f s' l'
  end.

(** The calls among the actions. *)
Definition calls (tr : list action) : list (list string) :=
  flat_map (fun a => match a with Call args => [args] | _ => [] end) tr.

Definition base_error : string :=
  "Base address not set!  New code cannot be linked.".

(** [seek(pos)] followed by [write(data)] on a file opened for writing: a
    gap between the end of the file and [pos] is filled with zero bytes,
    and writing no byte leaves the file as it is. *)
Definition write_at (content : list byte) (pos : Z) (data : list byte) : list byte :=
  match data with
  | [] => content
  | _ =>
      take (Z.to_nat pos) content
      ++ replicate (Z.to_nat (pos - len content)) x00
      ++ data
      ++ drop (Z.to_nat (pos + len data)) content
  end.

(** Lines 682-686 of [__process_project]: the sections with [SHF_ALLOC]
    go into the [.bin] file at their offset from the base address.  A
    negative offset makes [seek] raise [OSError]. *)
Definition write_section (base_addr : option Z) (bin : list byte) (s : Elf.section)
    : result (list byte) :=
  if negb (Z.land (Elf.sh_flags s) 2 =? 0) then
    match base_addr with
    | None => Raise TypeError
    | Some base =>
        if Elf.sh_addr s - base <? 0 then Raise (LibraryError "OSError")
        else Ok (write_at bin (Elf.sh_addr s - base) (Elf.data s))
    end
  else Ok bin.

Fixpoint write_sections (base_addr : option Z) (bin : list byte)
    (l : list Elf.section) : result (list byte) :=
  match l with
  | [] => Ok bin
  | s :: l' =>
      match write_section base_addr bin s with
      | Ok bin' => write_sections base_addr bin' l'
      | Raise e => Raise e
      end
  end.

(** Lines 689-695: every symbol not bound locally goes into [self.symbols]
    under its name. *)
Definition add_symbol (symbols : symbols_t) (sym : Elf.symbol) : symbols_t :=
  if String.eqb (Elf.bind sym) "STB_LOCAL" then symbols
  else <[Elf.name sym := mkSymbol (PyInt (Elf.st_value sym))]> symbols.

(** Lines 689-698: the symbols of the object, then the two small-data-area
    entries with whatever the project holds as bases. *)
Definition process_symbols (sda_base sda2_base : pyval) (symbols : symbols_t)
    (symtab : list Elf.symbol) : symbols_t :=
  <["_SDA2_BASE_"%string := mkSymbol sda2_base]>
    (<["_SDA_BASE_"%string := mkSymbol sda_base]>
       (fold_left add_symbol symtab symbols)).

Section ToolChain.
Context {HO : Host}.

(** [print(args)] when verbose, then [subprocess.call(args)]. *)
Definition run_tool (verbose : bool) (args : list string) : sh unit :=
  ((if verbose then [PrintArgs args] else []) ++ [Call args], subprocess_call args).

Definition with_flags (args : list string) (global : list string)
    (f : source_file) : list string :=
  let '(_, flags, use_global_flags) := f in
  args ++ (if use_global_flags then global else []) ++ flags.

(** The command line of [__compile]. *)
Definition compile_args (s : BuildSettings) (f : source_file) : list string :=
  let infile := fst (fst f) in
  with_flags
    match compiler s with
    | Compiler.DevkitPPC =>
        [devkitppc_path s +:+ "powerpc-eabi-gcc"; "-c"; src_dir s +:+ infile;
         "-o"; obj_dir s +:+ infile +:+ ".o"; "-I"; src_dir s]
    | Compiler.CodeWarrior =>
        [codewarrior_path s +:+ "mwcceppc"; "-lang"; "c"; "-c";
         src_dir s +:+ infile; "-o"; obj_dir s +:+ infile +:+ ".o"; "-i";
         src_dir s]
    end%string (c_flags s) f.

(** [__compile]. *)
Definition compile (verbose : bool) (s : BuildSettings) (f : source_file)
    : sh (BuildSettings * bool) :=
  let+ _ := run_tool verbose (compile_args s f) in
  sh_ret (set_obj_files s (obj_files s ++ [(fst (fst f) +:+ ".o", true)]), true).

(** The command line of [__compileplusplus]. *)
Definition compileplusplus_args (s : BuildSettings) (f : source_file) : list string :=
  let infile := fst (fst f) in
  with_flags
    match compiler s with
    | Compiler.DevkitPPC =>
        [devkitppc_path s +:+ "powerpc-eabi-g++"; "-c"; src_dir s +:+ infile;
         "-o"; obj_dir s +:+ infile +:+ ".o"; "-I"; src_dir s]
    | Compiler.CodeWarrior =>
        [codewarrior_path s +:+ "mwcceppc"; "-lang"; "c++"; "-c";
         src_dir s +:+ infile; "-o"; obj_dir s +:+ infile +:+ ".o"; "-i";
         src_dir s]
    end%string (cpp_flags s) f.

(** [__compileplusplus]. *)
Definition compileplusplus (verbose : bool) (s : BuildSettings) (f : source_file)
    : sh (BuildSettings * bool) :=
  let+ _ := run_tool verbose (compileplusplus_args s f) in
  sh_ret (set_obj_files s (obj_files s ++ [(fst (fst f) +:+ ".o", true)]), true).

(** The command line of [__assemble]. *)
Definition assemble_args (s : BuildSettings) (f : source_file) : list string :=
  let infile := fst (fst f) in
  with_flags
    match assembler s with
    | Assembler.DevkitPPC =>
        [devkitppc_path s +:+ "powerpc-eabi-as"; src_dir s +:+ infile;
         "-o"; obj_dir s +:+ infile +:+ ".o"; "-I"; src_dir s]
    | Assembler.CodeWarrior =>
        [codewarrior_path s +:+ "mwasmeppc"; "-c"; src_dir s +:+ infile;
         "-o"; obj_dir s +:+ infile +:+ ".o"; "-i"; src_dir s]
    end%string (asm_flags s) f.

(** [__assemble]. *)
Definition assemble (verbose : bool) (s : BuildSettings) (f : source_file)
    : sh (BuildSettings * bool) :=
  let+ _ := run_tool verbose (assemble_args s f) in
  sh_ret (set_obj_files s (obj_files s ++ [(fst (fst f) +:+ ".o", true)]), true).

(** The arguments of the link command.  The loop over [self.obj_files] and
    the [-Map] option stand in the [elif] branch of the CodeWarrior linker
    (lines 649-670). *)
Definition link_args (s : BuildSettings) : list string :=
  match linker s with
  | Linker.DevkitPPC =>
      [devkitppc_path s +:+ "powerpc-eabi-ld"; "-o";
       obj_dir s +:+ project_name s +:+ ".o"]%string
  | Linker.CodeWarrior =>
      [codewarrior_path s +:+ "mwldeppc"; "-o";
       obj_dir s +:+ project_name s +:+ ".o"]%string
      ++ map (fun o => obj_dir s +:+ fst o) (obj_files s)
      ++ ["-Map"; obj_dir s +:+ project_name s +:+ ".map"]%string
  end ++ linker_flags s.

(** [__link_project]. *)
Definition link_project (verbose : bool) (base_addr : option Z) (s : BuildSettings)
    : sh bool :=
  match base_addr with
  | None => ([], Raise (RuntimeError base_error))
  | Some _ =>
      let+ _ := run_tool verbose (link_args s) in
      sh_ret true
  end.

(** [__process_project]: the bytes written to the [.bin] file, the symbol
    table it leaves in [self.symbols], and the [True] it returns. *)
Definition process_project (base_addr : option Z) (sda_base sda2_base : pyval)
    (s : BuildSettings) (symbols : symbols_t)
    : sh (list byte * symbols_t * bool) :=
  ([],
   match open_elf (obj_dir s +:+ project_name s +:+ ".o") with
   | Raise e => Raise e
   | Ok elf =>
       match write_sections base_addr [] (Elf.sections elf) with
       | Raise e => Raise e
       | Ok bin =>
           match Elf.symtab elf with
           | None => Raise (LibraryError "AttributeError")
           | Some symtab =>
               Ok (bin, process_symbols sda_base sda2_base symbols symtab, true)
           end
       end
   end).

(** One round of [is_built |= step(filepath, flags, use_global_flags)]. *)
Definition built_step (step : BuildSettings -> source_file -> sh (BuildSettings * bool))
    (st : BuildSettings * bool) (f : source_file) : sh (BuildSettings * bool) :=
  let+ '(s', r) := step (fst st) f in
  sh_ret (s', snd st || r).

(** [__build_project].  It returns [is_processed]; the result here also
    carries the compile-side members and the symbol table it leaves behind
    and, when [is_processed] is true, the bytes of the [.bin] file that
    [__process_project] wrote. *)
Definition build_project_model (verbose : bool) (base_addr : option Z)
    (sda_base sda2_base : pyval) (s : BuildSettings) (symbols : symbols_t)
    : sh (BuildSettings * symbols_t * bool * option (list byte)) :=
  let+ _ := ([MakeDirs ("./" +:+ src_dir s)], makedirs ("./" +:+ src_dir s)) in
  let+ _ := ([MakeDirs ("./" +:+ obj_dir s)], makedirs ("./" +:+ obj_dir s)) in
  let+ st := sh_fold (built_step (compile verbose)) (s, false) (c_files s) in
  let+ st := sh_fold (built_step (compileplusplus verbose)) st (cpp_files s) in
  let+ '(s, is_built) := sh_fold (built_step (assemble verbose)) st (asm_files s) in
  let+ is_linked :=
    if is_built
    then let+ r := link_project verbose base_addr s in sh_ret (false || r)
    else sh_ret false in
  if is_linked
  then
    let+ '(bin, symbols', r) :=
      process_project base_addr sda_base sda2_base s symbols in
    sh_ret (s, symbols', false || r, Some bin)
  else sh_ret (s, symbols, false, None).

(** The tool chain of [build_dol] for a project with compile-side members
    [s]. *)
Definition toolchain_of {dol : Type} (s : BuildSettings) : Toolchain dol := {|
  build_project p :=
    match snd (build_project_model (verbose p) (base_addr p) (sda_base p)
                 (sda2_base p) s (symbols p)) with
    | Ok (_, symbols', _, built) => Ok (symbols', built)
    | Raise e => Raise e
    end
|}.

End ToolChain.

(** The entry that a compile step appends to [self.obj_files]. *)
Definition object_of (f : source_file) : string * bool :=
  (fst (fst f) +:+ ".o", true).

(** The last symbol of the table with the given name that is not bound
    locally. *)
Definition last_global (n : string) (symtab : list Elf.symbol) : option Elf.symbol :=
  find (fun sym => String.eqb (Elf.name sym) n
                   && negb (String.eqb (Elf.bind sym) "STB_LOCAL"))
       (rev symtab).

Module DemoBuild.

(** A linked object with one allocated section at [0x80004010], one
    section that is not allocated, a local symbol, two global symbols named
    [Foo] and a global [_SDA_BASE_]. *)
Definition elf : Elf.file :=
  Elf.mkFile
    [Elf.mkSection ".text" 6 0x80004010 [x60; x00; x00; x00];
     Elf.mkSection ".comment" 0 0 [x47; x43; x43]]
    (Some [Elf.mkSymbol "tmp" "STB_LOCAL" (Elf.ShnIndex 0) 0x80004010 4;
           Elf.mkSymbol "Foo" "STB_GLOBAL" (Elf.ShnIndex 0) 0x80004010 4;
           Elf.mkSymbol "_SDA_BASE_" "STB_GLOBAL" (Elf.ShnName "SHN_ABS") 0x1234 0;
           Elf.mkSymbol "Foo" "STB_WEAK" (Elf.ShnIndex 0) 0x80004012 2]).

(** A host on which every tool runs and the linked object is [elf]. *)
Definition host : Host := {|
  makedirs _ := Ok tt;
  subprocess_call _ := Ok tt;
  open_elf _ := Ok elf
|}.

(** A fresh project on a non-Windows host with one C file. *)
Definition settings : BuildSettings :=
  add_c_file
    (new_settings false Compiler.DevkitPPC Assembler.DevkitPPC Linker.DevkitPPC)
    ("main.c"%string, ["-g"%string], true).

(** The same without any source file. *)
Definition no_sources : BuildSettings :=
  new_settings false Compiler.DevkitPPC Assembler.DevkitPPC Linker.CodeWarrior.

End DemoBuild.

Module DemoProject.

(** A stand-in for [GeckoCodeTable.apply] on tables without an enabled
    entry, which it leaves the image alone for; what it writes for an
    enabled entry is not modelled. *)
Definition geckolib : GeckoLib Ref.image := {|
  codetable_apply codes d :=
    if forallb (fun c => negb (is_enabled c)) codes then Ok d
    else Raise (LibraryError "NotModelled")
|}.

(** A project without source files: one Pointer hook on [Foo], one code
    entry without inline assembly, no base address configured. *)
Definition patch_only : Project Ref.image :=
  mkProject None false PyNone PyNone Sample.symbols
    [PointerHook 0x80003008 "Foo"] [Demo.write_code] [] None.

(** The same project with its code entry not enabled. *)
Definition patch_off : Project Ref.image :=
  mkProject None false PyNone PyNone Sample.symbols
    [PointerHook 0x80003008 "Foo"] [Demo.write_code_off] [] None.

(** [Sample.image] with [80 00 50 10], the address of [Foo], written at
    [0x80003008]. *)
Definition image_hooked : Ref.image :=
  Ref.mkImage
    [Ref.mkSec true 0x80003000
       (replicate 8 x00 ++ [x80; x00; x50; x10] ++ replicate 4 x00)]
    0x8000300c.

End DemoProject.

(** ** [build_gecko] *)

(** The script file, line by line: the header ["[Gecko]"], the title line
    of the project, the title and the text form of a code entry, the
    program data with its title, the title of the hooks, and the command
    of a hook. *)
Inductive gecko_line : Type :=
| GeckoHeader
| ProjectTitle (project_name : string)
| CodeTitle (name : string)
| CodeText (code : GeckoCode)
| ProgramDataTitle
| ProgramData (datablob : list byte) (base_addr : option Z)
| HooksTitle
| HookCommand (c : script_line).

(** Lines 498-502: an enabled entry is copied into the script; the status
    of every entry is printed. *)
Definition script_code (f : list gecko_line) (c : GeckoCode) : py (list gecko_line) :=
  let f := if is_enabled c then f ++ [CodeTitle (name c); CodeText c] else f in
  let* _ := print (GeckoCodeStatus
                     (if is_enabled c then "ENABLED" else "DISABLED") (name c)) in
  ret f.

Section BuildGecko.
Context {dol : Type} {DT : DolTools dol} {RT : Runtime} {TC : Toolchain dol}.

(** Lines 510-514: one hook. *)
Definition script_hook (verbose : bool) (symbols : symbols_t)
    (st : list Hook * list gecko_line) (h : Hook) : py (list Hook * list gecko_line) :=
  let '(done, f) := st in
  let* h := resolve h symbols in
  let '(h, written) := write_geckocommand h [] in
  let* _ := if verbose then print (HookInfo h) else ret tt in
  ret (done ++ [h], f ++ map HookCommand written).

(** [build_gecko]: the project as left by the call, and the lines written
    to [gecko_path]. *)
Definition build_gecko (project_name : string) (p : Project dol)
    : py (Project dol * list gecko_line) :=
  let* '(symbols', built) := lift (build_project p) in
  let datablob := match built with Some bin => bin | None => [] end in
  let f := [GeckoHeader; ProjectTitle project_name] in
  let* f := foldM script_code f (gecko_codetable p) in
  let f :=
    match datablob with
    | [] => f
    | _ => f ++ [ProgramDataTitle; ProgramData datablob (base_addr p)]
    end in
  let f := f ++ [HooksTitle] in
  let* '(hooks', f) := foldM (script_hook (verbose p) symbols') ([], f) (hooks p) in
  ret (mkProject (base_addr p) (verbose p) (sda_base p) (sda2_base p) symbols'
         hooks' (gecko_codetable p) (gecko_code_metadata p) (osarena_patcher p),
       f).

End BuildGecko.

(** ** [save_map] *)

(** The map file, line by line: the header of a section layout, the row of
    a symbol (offset, size, address, name), the row of a relocated
    fragment, named after its code entry and its index, and the row of a
    fragment that was not relocated. *)
Inductive map_line : Type :=
| LayoutHeader (section_name : string)
| SymbolRow (offset size vaddr : Z) (name : string)
| GeckoRow (offset size vaddr : Z) (code_name : string) (i : Z)
| UnusedRow (size : Z) (code_name : string) (i : Z).

(** The fixed last group of lines 573-579. *)
Definition dummy_layout : list map_line :=
  [LayoutHeader ".dummy";
   SymbolRow 0 0 0x81200000 "Workaround for Dolphin's bad symbol map loader"].

(** [except OSError]. *)
Definition is_os_error (e : exn) : bool :=
  match e with
  | LibraryError what => String.eqb what "OSError"
  | _ => false
  end.

(** Lines 524-532: the symbols that go into the map. *)
Definition listed (sym : Elf.symbol) : bool :=
  negb (String.eqb (Elf.bind sym) "STB_LOCAL")
  && negb (match Elf.st_shndx sym with
           | Elf.ShnName s => String.eqb s "SHN_ABS" || String.eqb s "SHN_UNDEF"
           | Elf.ShnIndex _ => false
           end).

(** [list.sort(key = st_value)]: a stable sort, as an insertion sort that
    puts a symbol before the first one with a key not below its own. *)
Fixpoint insert_by_value (x : Elf.symbol) (l : list Elf.symbol) : list Elf.symbol :=
  match l with
  | [] => [x]
  | y :: l' =>
      if Elf.st_value x <=? Elf.st_value y then x :: y :: l'
      else y :: insert_by_value x l'
  end.

Definition sort_by_value (l : list Elf.symbol) : list Elf.symbol :=
  fold_right insert_by_value [] l.

(** [elf.get_section(st_shndx).name]. *)
Definition parent_section_name (elf : Elf.file) (sym : Elf.symbol) : result string :=
  match Elf.st_shndx sym with
  | Elf.ShnIndex n =>
      match Elf.sections elf !! n with
      | Some s => Ok (Elf.sec_name s)
      | None => Raise (LibraryError "IndexError")
      end
  | Elf.ShnName _ => Raise TypeError
  end.

(** Lines 536-547: one symbol of the sorted list. *)
Definition symbol_rows_step (base_addr : option Z) (elf : Elf.file)
    (st : string * list map_line) (sym : Elf.symbol)
    : result (string * list map_line) :=
  let '(curr_section_name, rows) := st in
  match parent_section_name elf sym with
  | Raise e => Raise e
  | Ok parent =>
      let st' :=
        if String.eqb curr_section_name parent then (curr_section_name, rows)
        else (parent, rows ++ [LayoutHeader parent]) in
      match base_addr with
      | None => Raise TypeError
      | Some base =>
          Ok (fst st',
              snd st' ++ [SymbolRow (Elf.st_value sym - base) (Elf.st_size sym)
                                    (Elf.st_value sym) (Elf.name sym)])
      end
  end.

Fixpoint symbol_rows_loop (base_addr : option Z) (elf : Elf.file)
    (st : string * list map_line) (l : list Elf.symbol)
    : result (string * list map_line) :=
  match l with
  | [] => Ok st
  | sym :: l' =>
      match symbol_rows_step base_addr elf st sym with
      | Ok st' => symbol_rows_loop base_addr elf st' l'
      | Raise e => Raise e
      end
  end.

(** Lines 518-547, once the object is open. *)
Definition symbol_rows (base_addr : option Z) (elf : Elf.file) : result (list map_line) :=
  match Elf.symtab elf with
  | None => Raise (LibraryError "AttributeError")
  | Some symtab =>
      match symbol_rows_loop base_addr elf (EmptyString, [])
              (sort_by_value (filter (fun sym => listed sym = true) symtab)) with
      | Ok (_, rows) => Ok rows
      | Raise e => Raise e
      end
  end.

(** Lines 559-570: the rows of one code entry; [i] counts its recorded
    commands. *)
Fixpoint gecko_rows_of (base_addr : option Z) (code_name : string) (i : Z)
    (l : list command_metadata) : result (list map_line) :=
  match l with
  | [] => Ok []
  | cm :: l' =>
      match
        (if is_asm_insert (codetype (gecko_command cm)) then
           if String.eqb (cmd_status cm) "OMITTED"
           then Ok [UnusedRow (cmd_size cm) code_name i]
           else
             match base_addr with
             | None => Raise TypeError
             | Some base =>
                 Ok [GeckoRow (cmd_vaddr cm - base) (cmd_size cm) (cmd_vaddr cm)
                              code_name i]
             end
         else Ok [])
      with
      | Raise e => Raise e
      | Ok rows =>
          match gecko_rows_of base_addr code_name (i + 1) l' with
          | Ok rest => Ok (rows ++ rest)
          | Raise e => Raise e
          end
      end
  end.

Fixpoint gecko_rows_loop (base_addr : option Z) (l : list code_metadata)
    : result (list map_line) :=
  match l with
  | [] => Ok []
  | m :: l' =>
      match gecko_rows_of base_addr (name (gecko_code m)) 0
              (gecko_command_metadata m) with
      | Raise e => Raise e
      | Ok rows =>
          match gecko_rows_loop base_addr l' with
          | Ok rest => Ok (rows ++ rest)
          | Raise e => Raise e
          end
      end
  end.

(** Lines 552-570. *)
Definition gecko_rows (base_addr : option Z) (l : list code_metadata)
    : result (list map_line) :=
  match l with
  | [] => Ok []
  | _ =>
      match gecko_rows_loop base_addr l with
      | Ok rows => Ok (LayoutHeader ".text" :: rows)
      | Raise e => Raise e
      end
  end.

Section SaveMap.
Context {HO : Host}.

(** [save_map]: the lines written to [map_path].  An [OSError] on opening
    the linked object is swallowed; any other exception escapes. *)
Definition save_map (base_addr : option Z) (obj_dir project_name : string)
    (md : list code_metadata) : result (list map_line) :=
  match
    (match open_elf (obj_dir +:+ project_name +:+ ".o") with
     | Raise e => if is_os_error e then Ok [] else Raise e
     | Ok elf => symbol_rows base_addr elf
     end)
  with
  | Raise e => Raise e
  | Ok rows =>
      match gecko_rows base_addr md with
      | Raise e => Raise e
      | Ok grows => Ok (rows ++ grows ++ dummy_layout)
      end
  end.

End SaveMap.

(** ** [try_remove] and [cleanup]

    The file system is the set of the paths of the files that exist;
    [os.remove] of a path outside the set raises [FileNotFoundError]. *)

Definition try_remove (fs : gset string) (filepath : string) : bool * gset string :=
  if decide (filepath ∈ fs) then (true, fs ∖ {[filepath]}) else (false, fs).

(** Lines 582-584 of [cleanup]. *)
Definition remove_objects (dir : string) (fs : gset string)
    (l : list (string * bool)) : gset string :=
  fold_left
    (fun (fs : gset string) (o : string * bool) =>
       if snd o then snd (try_remove fs (dir +:+ fst o)) else fs)
    l fs.

Definition cleanup {dol : Type} (s : BuildSettings) (p : Project dol) (fs : gset string)
    : BuildSettings * Project dol * gset string :=
  let fs := remove_objects (obj_dir s) fs (obj_files s) in
  let fs := snd (try_remove fs (obj_dir s +:+ project_name s +:+ ".o")) in
  let fs := snd (try_remove fs (obj_dir s +:+ project_name s +:+ ".bin")) in
  let fs := snd (try_remove fs (obj_dir s +:+ project_name s +:+ ".map")) in
  (set_obj_files s [],
   mkProject (base_addr p) (verbose p) (sda_base p) (sda2_base p) ∅ (hooks p)
     (gecko_codetable p) [] (osarena_patcher p),
   fs).

(** The paths that [cleanup] tries to remove. *)
Definition cleanup_targets (s : BuildSettings) : gset string :=
  list_to_set (map (fun o => obj_dir s +:+ fst o)
                   (filter (fun o => snd o = true) (obj_files s)))
  ∪ {[obj_dir s +:+ project_name s +:+ ".o";
      obj_dir s +:+ project_name s +:+ ".bin";
      obj_dir s +:+ project_name s +:+ ".map"]}.

(** ** The hook methods and their deprecated aliases *)

(** [hook_string] (its defaults are [encoding = "ascii"] and
    [max_strlen = None]). *)
Definition hook_string (hooks : list Hook) (addr : Z) (text encoding : string)
    (max_strlen : option Z) : list Hook :=
  hooks ++ [StringHook addr text encoding max_strlen].

(** [hook_branch] and [hook_branchlink]. *)
Definition hook_branch (hooks : list Hook) (addr : Z) (sym_name : string) (LK : bool)
    : list Hook :=
  hooks ++ [BranchHook addr sym_name LK].

Definition hook_branchlink (hooks : list Hook) (addr : Z) (sym_name : string)
    : list Hook :=
  hook_branch hooks addr sym_name true.

(** The one-time message of a deprecated method: printed when entry [i] of
    [self.message_flags] is still falsy, which is then set. *)
Inductive notice : Type :=
| Deprecated (old_name new_name : string).

Definition notify (flags : list bool) (i : nat) (n : notice)
    : list notice * list bool :=
  match flags !! i with
  | Some false => ([n], <[i := true]> flags)
  | _ => ([], flags)
  end.

(** The deprecated [add_string], whose default for [max_strlen] is [-1]. *)
Definition add_string (flags : list bool) (hooks : list Hook) (addr : Z)
    (text encoding : string) (max_strlen : option Z)
    : list notice * list bool * list Hook :=
  let '(printed, flags) := notify flags 9 (Deprecated "add_string" "hook_string") in
  (printed, flags, hook_string hooks addr text encoding max_strlen).

(** The deprecated [branchlink]. *)
Definition branchlink (flags : list bool) (hooks : list Hook) (addr : Z)
    (funcname : string) : list notice * list bool * list Hook :=
  let '(printed, flags) := notify flags 2 (Deprecated "branchlink" "hook_branchlink") in
  (printed, flags, hook_branchlink hooks addr funcname).

(** What a row of a symbol shows. *)
Definition symbol_row_data (r : map_line) : list (Z * Z * Z * string) :=
  match r with
  | SymbolRow offset size vaddr name => [(offset, size, vaddr, name)]
  | _ => []
  end.

(** The row that [save_map] writes for a recorded command. *)
Definition gecko_row (base : Z) (code_name : string) (i : nat) (cm : command_metadata)
    : map_line :=
  if String.eqb (cmd_status cm) "OMITTED"
  then UnusedRow (cmd_size cm) code_name (Z.of_nat i)
  else GeckoRow (cmd_vaddr cm - base) (cmd_size cm) (cmd_vaddr cm) code_name
         (Z.of_nat i).

(** ** Sample inputs for [save_map], [cleanup] and the end of [build_dol] *)

Module DemoMap.

(** The symbol table of [DemoBuild.elf]. *)
Definition symtab : list Elf.symbol := default [] (Elf.symtab DemoBuild.elf).

(** A host on which the linked object cannot be opened. *)
Definition host_without_object : Host := {|
  makedirs _ := Ok tt;
  subprocess_call _ := Ok tt;
  open_elf _ := Raise (LibraryError "OSError")
|}.

(** The records of two entries: one relocated to [0x80004000], one left
    out. *)
Definition metadata : list code_metadata :=
  [mkCodeMetadata 0x80004000 8 "ENABLED" Sample.enabled_code
     [mkCommandMetadata 0x80004000 8 "ENABLED" Sample.insert];
   mkCodeMetadata 0x80004008 0 "OMITTED" Demo.mixed_code
     [mkCommandMetadata 0 8 "OMITTED" Sample.insert]].

(** A patcher that notes the address it is given in the position of the
    image. *)
Definition patcher (d : Ref.image) (a : Z) : result Ref.image :=
  Ok (Ref.mkImage (Ref.secs d) a).

(** [DemoProject.patch_off] as [build_dol] on [Sample.image] leaves it,
    and [DemoProject.patch_only] as [build_gecko] leaves it. *)
Definition after_build_dol : Project Ref.image :=
  mkProject (Some 0x80003020) false PyNone PyNone Sample.symbols
    [set_good (set_data (PointerHook 0x80003008 "Foo") (PyInt 0x80005010))]
    [Demo.write_code_off] [] None.

Definition after_build_gecko : Project Ref.image :=
  mkProject None false PyNone PyNone Sample.symbols
    [set_good (set_data (PointerHook 0x80003008 "Foo") (PyInt 0x80005010))]
    [Demo.write_code] [] None.

(** A built project: its hook holds the payload of the build. *)
Definition built : Project Ref.image :=
  mkProject (Some 0x80004000) false PyNone PyNone Sample.symbols
    [set_good (set_data (PointerHook 0x80003008 "Foo") (PyInt 0x80005010))]
    [] metadata None.

End DemoMap.

(** ** Definitions used to state the layout of the blob and of the script *)

Section Fragments.
Context {dol : Type} {DT : DolTools dol}.




(** Modelled from the spec: what is known of [mask_field] of
    [dol_c_kit.doltools], which "masks" a value to a field of [bits] bits:
    whenever it returns, it returns the low [bits] bits of its argument. *)
Definition masks_low_bits : Prop :=
  forall (n bits : Z) (signed : bool) (r : pyval),
    0 <= bits ->
    mask_field (PyInt n) bits signed = Ok r -> r = PyInt (n mod 2 ^ bits).

End Fragments.

(** Modelled from the spec: a 16-bit field "reinterpreted as a signed
    16-bit quantity". *)
Definition signed16 (x : Z) : Z := if x <? 2 ^ 15 then x else x - 2 ^ 16.

(** The hooks for which [write_geckocommand] writes a command: a String
    or File hook always, the others with a truthy payload. *)
Definition writes_command (h : Hook) : bool :=
  match referenced_name h with
  | None => true
  | Some _ => truthy (data h)
  end.

(** * Properties *)

(** ** The monad *)

Lemma bind_ret_l {A B : Type} (a : A) (k : A -> py B) : bind (ret a) k = k a.
Proof. unfold bind, ret. destruct (k a) as [out r]. reflexivity. Qed.

Lemma bind_lift_ok {A B : Type} (a : A) (k : A -> py B) :
  bind (lift (Ok a)) k = k a.
Proof. apply bind_ret_l. Qed.

Lemma bind_lift_raise {A B : Type} (e : exn) (k : A -> py B) :
  bind (lift (Raise e)) k = ([], Raise e).
Proof. reflexivity. Qed.

(** A bind that returns came through a first part that returned. *)
Lemma bind_ok_inv {A B : Type} (m : py A) (k : A -> py B) out b :
  bind m k = (out, Ok b) ->
  exists out1 a out2, m = (out1, Ok a) /\ k a = (out2, Ok b) /\ out = out1 ++ out2.
Proof.
  unfold bind. destruct m as [out1 [a | e]]; [| discriminate].
  destruct (k a) as [out2 r] eqn:Hk. intros [= <- ->].
  exists out1, a, out2. auto.
Qed.

Lemma bind_ok {A B : Type} (m : py A) (k : A -> py B) out1 a :
  m = (out1, Ok a) ->
  bind m k = (out1 ++ fst (k a), snd (k a)).
Proof. intros ->. unfold bind. destruct (k a). reflexivity. Qed.

(** Invert one [bind] of a returning computation [H], leaving the equation
    of its first part in the context. *)
Ltac bind_inv H :=
  let o1 := fresh "o" in
  let a := fresh "a" in
  let o2 := fresh "o" in
  let E := fresh "E" in
  apply bind_ok_inv in H as (o1 & a & o2 & E & H & ->);
  try (unfold lift, print, ret in E; injection E as <- E).

(** ** Hooks that name a symbol the table lacks, or resolve to zero *)

Section HookProperties.
Context {dol : Type} {DF : DolFile dol} {DT : DolTools dol} {RT : Runtime}.


(** C10.  A Branch, Pointer, Immediate16 or Immediate12 hook whose
    payload is the integer zero is treated as one whose payload is
    absent: [apply_dol] returns the image and the hook unchanged, and
    [write_geckocommand] writes nothing and leaves the hook unchanged. *)
Theorem zero_payload_not_applied (h : Hook) (s : string) (d : dol)
    (f : list script_line) :
  referenced_name h = Some s ->
  data h = PyInt 0 ->
  apply_dol h d = ret (h, d) /\ write_geckocommand h f = (h, f).
Proof.
  intros Hname Hdata. unfold referenced_name in Hname.
  unfold apply_dol, write_geckocommand.
  destruct (kind h); inversion Hname; subst; rewrite Hdata; auto.
Qed.

(** The String and File hooks name no symbol: their [resolve] does not
    read the symbol table. *)
Lemma resolve_ignores_symbols (h : Hook) (symbols symbols' : symbols_t) :
  referenced_name h = None ->
  resolve h symbols = resolve h symbols'.
Proof.
  unfold referenced_name, resolve. destruct (kind h); intros [=]; reflexivity.
Qed.

End HookProperties.

(** ** Bit fields *)

Lemma land_shiftl_disjoint (m k n : Z) :
  0 <= n -> 0 <= m < 2 ^ n -> Z.land m (Z.shiftl k n) = 0.
Proof.
  intros Hn Hm. apply Z.bits_inj'. intros j Hj.
  rewrite Z.land_spec, Z.bits_0.
  destruct (Z.lt_ge_cases j n) as [Hlt | Hge].
  - rewrite (Z.shiftl_spec_low k n j Hlt). apply andb_false_r.
  - rewrite <- (Z.mod_small m (2 ^ n)) by assumption.
    rewrite Z.mod_pow2_bits_high by lia. reflexivity.
Qed.

Lemma lor_shiftl_add (m k n : Z) :
  0 <= n -> 0 <= m < 2 ^ n -> Z.lor m (Z.shiftl k n) = m + k * 2 ^ n.
Proof.
  intros Hn Hm.
  rewrite <- Z.lxor_lor by (apply land_shiftl_disjoint; assumption).
  rewrite <- Z.add_nocarry_lxor by (apply land_shiftl_disjoint; assumption).
  rewrite Z.shiftl_mul_pow2 by assumption. reflexivity.
Qed.

(** The halfword that [Immediate12Hook.resolve] packs from three fields
    that fit their widths. *)
Lemma pack12 (m mi mw : Z) :
  0 <= m < 2 ^ 12 -> 0 <= mi < 2 -> 0 <= mw < 8 ->
  Z.lor (Z.lor m (Z.shiftl mi 12)) (Z.shiftl mw 13) = m + mi * 2 ^ 12 + mw * 2 ^ 13.
Proof.
  intros Hm Hi Hw.
  rewrite (lor_shiftl_add m mi 12) by lia.
  rewrite lor_shiftl_add by lia. reflexivity.
Qed.

Lemma unpack12 (m mi mw : Z) :
  0 <= m < 2 ^ 12 -> 0 <= mi < 2 -> 0 <= mw < 8 ->
  let p := m + mi * 2 ^ 12 + mw * 2 ^ 13 in
  0 <= p < 2 ^ 16 /\
  Z.land p 0xFFF = m /\
  Z.land (Z.shiftr p 12) 1 = mi /\
  Z.land (Z.shiftr p 13) 7 = mw.
Proof.
  intros Hm Hi Hw p. subst p.
  change 0xFFF with (Z.ones 12). change 1 with (Z.ones 1).
  change 7 with (Z.ones 3).
  rewrite !Z.land_ones, !Z.shiftr_div_pow2 by lia.
  change (2 ^ 12) with 4096 in *. change (2 ^ 13) with 8192.
  change (2 ^ 16) with 65536. change (2 ^ 1) with 2. change (2 ^ 3) with 8.
  repeat split; try lia.
  - Z.div_mod_to_equations. lia.
  - Z.div_mod_to_equations. lia.
  - Z.div_mod_to_equations. lia.
Qed.

(** ** The immediate hooks *)

Section ImmediateHooks.
Context {dol : Type} {DF : DolFile dol} {DT : DolTools dol} {RT : Runtime}.

(** What [Immediate12Hook.resolve] returns once the value [v] selected by
    the modifier and the three calls of [mask_field] are known. *)
Lemma immediate12_resolve (h : Hook) (w i : Z) (s modifier : string)
    (symbols : symbols_t) (e : Symbol) (out : list event) (v : pyval)
    (m mi mw : Z) :
  kind h = KImmediate12 w i s modifier ->
  symbols !! s = Some e ->
  modifier_value (data h) symbols e modifier = (out, Ok v) ->
  mask_field v 12 true = Ok (PyInt m) ->
  mask_field (PyInt i) 1 false = Ok (PyInt mi) ->
  mask_field (PyInt w) 3 false = Ok (PyInt mw) ->
  resolve h symbols =
    (out, Ok (set_data h (PyInt (Z.lor (Z.lor m (Z.shiftl mi 12)) (Z.shiftl mw 13))))).
Proof.
  intros Hk Hs Hv Hm Hi Hw. unfold resolve. rewrite Hk, Hs, Hv.
  unfold bind at 1. rewrite Hm, Hi, Hw. simpl.
  rewrite app_nil_r. reflexivity.
Qed.

(** C6.  When the symbol of an Immediate12 hook is in the table, the
    modifier selects a value [v], and [mask_field] confines [v] to 12
    bits as [m], the flag [i] to 1 bit as [mi] and the field [w] to 3
    bits as [mw], then [resolve] returns with a 16-bit payload whose bits
    0-11 are [m], whose bit 12 is [mi] and whose bits 13-15 are [mw]; the
    halfword is the sum of the three fields at their positions, so they
    are read back from it unchanged. *)
Theorem immediate12_fields (h : Hook) (w i : Z) (s modifier : string)
    (symbols : symbols_t) (e : Symbol) (out : list event) (v : pyval)
    (m mi mw : Z) :
  kind h = KImmediate12 w i s modifier ->
  symbols !! s = Some e ->
  modifier_value (data h) symbols e modifier = (out, Ok v) ->
  mask_field v 12 true = Ok (PyInt m) -> 0 <= m < 2 ^ 12 ->
  mask_field (PyInt i) 1 false = Ok (PyInt mi) -> 0 <= mi < 2 ->
  mask_field (PyInt w) 3 false = Ok (PyInt mw) -> 0 <= mw < 8 ->
  exists p : Z,
    resolve h symbols = (out, Ok (set_data h (PyInt p))) /\
    0 <= p < 2 ^ 16 /\
    Z.land p 0xFFF = m /\
    Z.land (Z.shiftr p 12) 1 = mi /\
    Z.land (Z.shiftr p 13) 7 = mw /\
    p = m + mi * 2 ^ 12 + mw * 2 ^ 13.
Proof.
  intros Hk Hs Hv Hm Rm Hi Ri Hw Rw.
  exists (m + mi * 2 ^ 12 + mw * 2 ^ 13).
  destruct (unpack12 m mi mw Rm Ri Rw) as (Hp & H0 & H1 & H2).
  rewrite (immediate12_resolve h w i s modifier symbols e out v m mi mw)
    by assumption.
  rewrite pack12 by assumption. auto 10.
Qed.

End ImmediateHooks.

Section SmallDataArea.
Context {dol : Type} {DF : DolFile dol} {DT : DolTools dol} {RT : Runtime}.

(** The two small-data-area branches of the modifier chain, with the
    base entry present. *)
Lemma modifier_value_sda (current : pyval) (symbols : symbols_t) (e b : Symbol)
    (modifier base_name : string) :
  (modifier = "@sda"%string /\ base_name = "_SDA_BASE_"%string) \/
  (modifier = "@sda2"%string /\ base_name = "_SDA2_BASE_"%string) ->
  symbols !! base_name = Some b ->
  modifier_value current symbols e modifier =
    if is_none (st_value b)
    then raise (RuntimeError (if String.eqb modifier "@sda" then sda_error else sda2_error))
    else let* diff := lift (py_sub (st_value e) (st_value b)) in
         lift (mask_field diff 16 true).
Proof.
  intros [[-> ->] | [-> ->]] Hb; unfold modifier_value, subscript; simpl;
    rewrite Hb, bind_ret_l; destruct (is_none (st_value b)); reflexivity.
Qed.

Lemma modifier_value_sda_missing (current : pyval) (symbols : symbols_t) (e : Symbol)
    (modifier base_name : string) :
  (modifier = "@sda"%string /\ base_name = "_SDA_BASE_"%string) \/
  (modifier = "@sda2"%string /\ base_name = "_SDA2_BASE_"%string) ->
  symbols !! base_name = None ->
  modifier_value current symbols e modifier = raise (KeyError base_name).
Proof.
  intros [[-> ->] | [-> ->]] Hb; unfold modifier_value, subscript; simpl;
    rewrite Hb; reflexivity.
Qed.

Lemma signed16_mod (x : Z) :
  - 2 ^ 15 <= x < 2 ^ 15 -> signed16 (x mod 2 ^ 16) = x.
Proof.
  unfold signed16. change (2 ^ 15) with 32768. change (2 ^ 16) with 65536.
  intros Hx. destruct (Z.ltb_spec (x mod 65536) 32768);
    Z.div_mod_to_equations; lia.
Qed.

Lemma mod16_mod12 (x : Z) : (x mod 2 ^ 16) mod 2 ^ 12 = x mod 2 ^ 12.
Proof.
  change (2 ^ 16) with 65536. change (2 ^ 12) with 4096.
  Z.div_mod_to_equations. lia.
Qed.

(** C7 (as amended).  Take an Immediate16 or Immediate12 hook with the
    [@sda] (or [@sda2]) modifier whose symbol is in the table at address
    [A].  With the base entry [_SDA_BASE_] (or [_SDA2_BASE_]) holding
    [B], the modifier selects [mask_field(A - B, 16, True)].  An
    Immediate16 hook passes that value through [mask_field(., 16, True)]
    a second time, and the result is its payload; an Immediate12 hook
    passes it through [mask_field(., 12, True)] and ors in
    [mask_field(i, 1, False) << 12] and [mask_field(w, 3, False) << 13];
    what any of these calls raises escapes [resolve].  With a
    [mask_field] that, whenever it returns, returns the low bits of its
    argument, a [resolve] that returns leaves the payload
    [(A - B) mod 2^16] in an Immediate16 hook, which read as a signed
    16-bit quantity is [A - B] when [A - B] fits one, and
    [(A - B) mod 2^12 + (i mod 2) * 2^12 + (w mod 8) * 2^13] in an
    Immediate12 hook.  With the base entry holding [None], [resolve]
    raises [RuntimeError]; with no base entry in the table it raises
    [KeyError]. *)
Theorem sda_relative_field (h : Hook) (s modifier base_name : string)
    (symbols : symbols_t) (A : Z) :
  (modifier = "@sda"%string /\ base_name = "_SDA_BASE_"%string) \/
  (modifier = "@sda2"%string /\ base_name = "_SDA2_BASE_"%string) ->
  symbols !! s = Some (mkSymbol (PyInt A)) ->
  (kind h = KImmediate16 s modifier \/
   exists w i, kind h = KImmediate12 w i s modifier) ->
  (forall B : Z,
      symbols !! base_name = Some (mkSymbol (PyInt B)) ->
      modifier_value (data h) symbols (mkSymbol (PyInt A)) modifier
        = lift (mask_field (PyInt (A - B)) 16 true) /\
      (kind h = KImmediate16 s modifier ->
       resolve h symbols =
         let* f := lift (mask_field (PyInt (A - B)) 16 true) in
         let* p := lift (mask_field f 16 true) in
         ret (set_data h p)) /\
      (forall w i : Z,
          kind h = KImmediate12 w i s modifier ->
          resolve h symbols =
            let* f := lift (mask_field (PyInt (A - B)) 16 true) in
            let* m := lift (mask_field f 12 true) in
            let* mi := lift (mask_field (PyInt i) 1 false) in
            let* si := lift (py_lshift mi 12) in
            let* d := lift (py_or m si) in
            let* mw := lift (mask_field (PyInt w) 3 false) in
            let* sw := lift (py_lshift mw 13) in
            let* d := lift (py_or d sw) in
            ret (set_data h d)) /\
      (masks_low_bits ->
       forall (out : list event) (h' : Hook),
         resolve h symbols = (out, Ok h') ->
         out = [] /\
         (kind h = KImmediate16 s modifier ->
          h' = set_data h (PyInt ((A - B) mod 2 ^ 16)) /\
          (- 2 ^ 15 <= A - B < 2 ^ 15 ->
           signed16 ((A - B) mod 2 ^ 16) = A - B)) /\
         (forall w i : Z,
             kind h = KImmediate12 w i s modifier ->
             h' = set_data h
                    (PyInt ((A - B) mod 2 ^ 12 + (i mod 2) * 2 ^ 12
                            + (w mod 8) * 2 ^ 13))))) /\
  (symbols !! base_name = Some (mkSymbol PyNone) ->
   exists msg, resolve h symbols = raise (RuntimeError msg)) /\
  (symbols !! base_name = None ->
   resolve h symbols = raise (KeyError base_name)).
Proof.
  intros Hmod Hs Hkind. split; [| split].
  - intros B Hb.
    assert (Hv : modifier_value (data h) symbols (mkSymbol (PyInt A)) modifier
                 = lift (mask_field (PyInt (A - B)) 16 true)).
    { rewrite (modifier_value_sda _ _ _ (mkSymbol (PyInt B)) _ base_name)
        by assumption.
      cbn [st_value is_none py_sub]. rewrite bind_lift_ok. reflexivity. }
    assert (H16 : kind h = KImmediate16 s modifier ->
                  resolve h symbols =
                    let* f := lift (mask_field (PyInt (A - B)) 16 true) in
                    let* p := lift (mask_field f 16 true) in
                    ret (set_data h p)).
    { intros Hk. unfold resolve. rewrite Hk, Hs, Hv. reflexivity. }
    assert (H12 : forall w i : Z,
               kind h = KImmediate12 w i s modifier ->
               resolve h symbols =
                 let* f := lift (mask_field (PyInt (A - B)) 16 true) in
                 let* m := lift (mask_field f 12 true) in
                 let* mi := lift (mask_field (PyInt i) 1 false) in
                 let* si := lift (py_lshift mi 12) in
                 let* d := lift (py_or m si) in
                 let* mw := lift (mask_field (PyInt w) 3 false) in
                 let* sw := lift (py_lshift mw 13) in
                 let* d := lift (py_or d sw) in
                 ret (set_data h d)).
    { intros w i Hk. unfold resolve. rewrite Hk, Hs, Hv. reflexivity. }
    split; [exact Hv | split; [exact H16 | split; [exact H12 |]]].
    intros Hmask out h' Hres.
    destruct Hkind as [Hk | (w & i & Hk)].
    + rewrite (H16 Hk) in Hres.
      destruct (mask_field (PyInt (A - B)) 16 true) as [f |] eqn:E1;
        [| rewrite bind_lift_raise in Hres; discriminate Hres].
      pose proof (Hmask _ 16 _ _ ltac:(lia) E1) as ->.
      rewrite bind_lift_ok in Hres.
      destruct (mask_field (PyInt ((A - B) mod 2 ^ 16)) 16 true) as [p |] eqn:E2;
        [| rewrite bind_lift_raise in Hres; discriminate Hres].
      pose proof (Hmask _ 16 _ _ ltac:(lia) E2) as ->.
      rewrite bind_lift_ok, Z.mod_mod in Hres by lia.
      injection Hres as <- <-.
      split; [reflexivity | split].
      * intros _. split; [reflexivity | apply signed16_mod].
      * intros w i Hk'. congruence.
    + rewrite (H12 w i Hk) in Hres.
      destruct (mask_field (PyInt (A - B)) 16 true) as [f |] eqn:E1;
        [| rewrite bind_lift_raise in Hres; discriminate Hres].
      pose proof (Hmask _ 16 _ _ ltac:(lia) E1) as ->.
      rewrite bind_lift_ok in Hres.
      destruct (mask_field (PyInt ((A - B) mod 2 ^ 16)) 12 true) as [m |] eqn:E2;
        [| rewrite bind_lift_raise in Hres; discriminate Hres].
      pose proof (Hmask _ 12 _ _ ltac:(lia) E2) as ->.
      rewrite bind_lift_ok in Hres.
      destruct (mask_field (PyInt i) 1 false) as [mi |] eqn:E3;
        [| rewrite bind_lift_raise in Hres; discriminate Hres].
      pose proof (Hmask _ 1 _ _ ltac:(lia) E3) as ->.
      rewrite bind_lift_ok in Hres. cbn [py_lshift py_or] in Hres.
      rewrite !bind_lift_ok in Hres.
      destruct (mask_field (PyInt w) 3 false) as [mw |] eqn:E4;
        [| rewrite bind_lift_raise in Hres; discriminate Hres].
      pose proof (Hmask _ 3 _ _ ltac:(lia) E4) as ->.
      rewrite bind_lift_ok in Hres. cbn [py_lshift py_or] in Hres.
      rewrite !bind_lift_ok in Hres.
      injection Hres as <- <-.
      split; [reflexivity | split].
      * intros Hk'. congruence.
      * intros w' i' Hk'. rewrite Hk in Hk'. injection Hk' as <- <-.
        rewrite pack12, mod16_mod12.
        -- reflexivity.
        -- apply Z.mod_pos_bound. lia.
        -- change (2 ^ 1) with 2. apply Z.mod_pos_bound. lia.
        -- change (2 ^ 3) with 8. apply Z.mod_pos_bound. lia.
  - intros Hb.
    exists (if String.eqb modifier "@sda" then sda_error else sda2_error).
    pose proof (modifier_value_sda (data h) symbols (mkSymbol (PyInt A))
                  (mkSymbol PyNone) modifier base_name Hmod Hb) as Hv.
    simpl in Hv.
    unfold resolve.
    destruct Hkind as [Hk | (w & i & Hk)]; rewrite Hk, Hs, Hv; reflexivity.
  - intros Hb.
    pose proof (modifier_value_sda_missing (data h) symbols (mkSymbol (PyInt A))
                  modifier base_name Hmod Hb) as Hv.
    unfold resolve.
    destruct Hkind as [Hk | (w & i & Hk)]; rewrite Hk, Hs, Hv; reflexivity.
Qed.

(** The final [else] of the modifier chain. *)
Lemma modifier_value_unknown (current : pyval) (symbols : symbols_t) (e : Symbol)
    (modifier : string) :
  recognised modifier = false ->
  modifier_value current symbols e modifier = ([UnknownModifier modifier], Ok current).
Proof.
  unfold recognised, modifier_value. intros Hrec.
  repeat match goal with
         | E : (_ || _) = false |- _ => apply orb_false_elim in E; destruct E
         end.
  repeat match goal with E : String.eqb _ _ = false |- _ => rewrite E; clear E end.
  reflexivity.
Qed.

(** C8 (what the code does).  With the symbol in the table and a
    modifier outside the five recognised ones, a fresh Immediate16 hook
    reports the modifier and then hands [None] to [mask_field]: the
    outcome of [resolve] is the outcome of [mask_field(None, 16, True)].
    A fresh Immediate12 hook never returns with its payload unset: either
    an exception escapes, or the payload is a packed value. *)
Theorem unknown_modifier_reaches_mask_field (a w i : Z) (s modifier : string)
    (symbols : symbols_t) (e : Symbol) :
  symbols !! s = Some e ->
  recognised modifier = false ->
  resolve (Immediate16Hook a s modifier) symbols =
    ([UnknownModifier modifier],
     match mask_field PyNone 16 true with
     | Ok d => Ok (set_data (Immediate16Hook a s modifier) d)
     | Raise x => Raise x
     end) /\
  (forall out h',
      resolve (Immediate12Hook a w i s modifier) symbols = (out, Ok h') ->
      data h' <> PyNone).
Proof.
  intros Hs Hmod. split.
  - unfold resolve. simpl. rewrite Hs, modifier_value_unknown by assumption.
    unfold bind, lift. destruct (mask_field PyNone 16 true); reflexivity.
  - intros out h' Hres. unfold resolve in Hres. cbn [kind data Immediate12Hook] in Hres.
    rewrite Hs, modifier_value_unknown in Hres by assumption.
    repeat bind_inv Hres.
    injection Hres as _ <-. simpl.
    match goal with
    | E : py_or _ _ = Ok ?d |- ?d <> PyNone =>
        revert E; unfold py_or;
        repeat match goal with |- context [match ?x with _ => _ end] => destruct x end;
        intros [= <-] || discriminate
    end.
    discriminate.
Qed.

End SmallDataArea.

(** ** The base address *)

Lemma land_align32 (x : Z) :
  Z.land x 0xFFFFFFE0 = 32 * ((x / 32) mod 2 ^ 27).
Proof.
  change 0xFFFFFFE0 with (Z.shiftl (Z.ones 27) 5).
  transitivity (Z.shiftl (Z.land (Z.shiftr x 5) (Z.ones 27)) 5).
  - apply Z.bits_inj'. intros j Hj.
    rewrite Z.land_spec.
    destruct (Z.lt_ge_cases j 5) as [Hlt | Hge].
    + rewrite !Z.shiftl_spec_low by assumption. apply andb_false_r.
    + rewrite !Z.shiftl_spec by assumption.
      rewrite Z.land_spec, Z.shiftr_spec by lia.
      replace (j - 5 + 5) with j by lia. reflexivity.
  - rewrite Z.land_ones, Z.shiftr_div_pow2, Z.shiftl_mul_pow2 by lia.
    change (2 ^ 5) with 32. lia.
Qed.

Lemma align32_bounds (e : Z) :
  0 <= e <= 0xFFFFFFE0 ->
  let base := Z.land (e + 31) 0xFFFFFFE0 in
  base mod 32 = 0 /\ e <= base < e + 32.
Proof.
  intros He base. subst base. rewrite land_align32.
  rewrite (Z.mod_small ((e + 31) / 32)).
  - split.
    + rewrite Z.mul_comm. apply Z.mod_mul. lia.
    + Z.div_mod_to_equations. lia.
  - change (2 ^ 27) with 134217728. Z.div_mod_to_equations. lia.
Qed.

Lemma align32_mod (x : Z) : Z.land x 0xFFFFFFE0 mod 32 = 0.
Proof. rewrite land_align32, Z.mul_comm. apply Z.mod_mul. lia. Qed.

Section BaseAddress.
Context {dol : Type} {DF : DolFile dol}.

Lemma rom_fold_bounds (l : list Section) (start : Z) :
  let e := fold_left rom_step l start in
  start <= e /\
  (forall s, s ∈ l -> address s + size s <= e) /\
  (e = start \/ exists s, s ∈ l /\ e = address s + size s).
Proof.
  revert start. induction l as [| x l IH]; intros start; simpl.
  - split; [lia | split; [| auto]]. intros s Hs. inversion Hs.
  - destruct (IH (rom_step start x)) as (Hlow & Hup & Hwho).
    assert (Hstep : start <= rom_step start x /\
                    address x + size x <= rom_step start x /\
                    (rom_step start x = start \/
                     rom_step start x = address x + size x)).
    { unfold rom_step. destruct (Z.ltb_spec start (address x + size x)); lia. }
    destruct Hstep as (H1 & H2 & H3).
    split; [lia | split].
    + intros s Hs. apply elem_of_cons in Hs as [-> | Hs]; [lia | auto].
    + destruct Hwho as [-> | (s & Hs & ->)].
      * destruct H3 as [-> | ->]; [auto |].
        right. exists x. split; [apply elem_of_cons; auto | reflexivity].
      * right. exists s. split; [apply elem_of_cons; auto | reflexivity].
Qed.

(** [find_rom_end] is the greatest of [0x80000000] and the ends of the
    sections. *)
Lemma find_rom_end_spec (d : dol) :
  let e := find_rom_end d in
  0x80000000 <= e /\
  (forall s, s ∈ sections d -> address s + size s <= e) /\
  (e = 0x80000000 \/ exists s, s ∈ sections d /\ e = address s + size s).
Proof. apply (rom_fold_bounds (sections d) 0x80000000). Qed.

Lemma choose_base_addr_auto (d : dol) :
  choose_base_addr None d =
    ([BaseAutoSet (Z.land (find_rom_end d + 31) 0xFFFFFFE0)],
     Ok (Z.land (find_rom_end d + 31) 0xFFFFFFE0)).
Proof.
  unfold choose_base_addr.
  rewrite (bind_ok _ _ [BaseAutoSet (Z.land (find_rom_end d + 31) 0xFFFFFFE0)]
             (Z.land (find_rom_end d + 31) 0xFFFFFFE0)) by reflexivity.
  rewrite align32_mod. reflexivity.
Qed.

(** C9 (as amended).  With no base address configured, and every section
    ending at or below [0xFFFFFFE0], [build_dol] takes as base address
    the smallest multiple of 32 at or above [e], the greatest of
    [0x80000000] and the section ends, and prints no alignment warning;
    for an image whose only section occupies [0x80003000, 0x80004000)
    that base address is [0x80004000]. *)
Theorem auto_base_addr (d : dol) :
  find_rom_end d <= 0xFFFFFFE0 ->
  let e := find_rom_end d in
  (0x80000000 <= e /\
   (forall s, s ∈ sections d -> address s + size s <= e) /\
   (e = 0x80000000 \/ exists s, s ∈ sections d /\ e = address s + size s)) /\
  (exists base,
      choose_base_addr None d = ([BaseAutoSet base], Ok base) /\
      base mod 32 = 0 /\ e <= base < e + 32 /\
      (sections d = [mkSection 0x80003000 0x1000] -> base = 0x80004000)).
Proof.
  intros Hmax e. split; [apply find_rom_end_spec |].
  exists (Z.land (e + 31) 0xFFFFFFE0).
  split; [apply choose_base_addr_auto |].
  pose proof (find_rom_end_spec d) as (Hlow & _ & _).
  destruct (align32_bounds e) as [Hmod Hrange]; [subst e; lia |].
  split; [exact Hmod | split; [exact Hrange |]].
  intros Hsec. subst e. unfold find_rom_end. rewrite Hsec. reflexivity.
Qed.

End BaseAddress.

(** ** The appended section *)

Section AppendedSection.
Context {dol : Type} {DF : DolFile dol}.

(** C4 (what the code does).  When the image already holds
    [MaxTextSections] text sections, [build_dol] still makes the new
    section a [TextSection], whatever the number of data sections: the
    tests of lines 472 and 474 are [<=]. *)
Theorem text_section_chosen_when_full (d : dol) (base : Z) (datablob : list byte) :
  len (textSections d) = MaxTextSections ->
  new_section d base datablob = ret (TextSection base datablob).
Proof.
  intros Hfull. unfold new_section. rewrite Hfull, Z.leb_refl. reflexivity.
Qed.

(** With room for a text section, a [TextSection] is made. *)
Lemma text_section_when_room (d : dol) (base : Z) (datablob : list byte) :
  len (textSections d) < MaxTextSections ->
  new_section d base datablob = ret (TextSection base datablob).
Proof.
  intros Hroom. unfold new_section.
  destruct (Z.leb_spec (len (textSections d)) MaxTextSections); [reflexivity | lia].
Qed.

(** The error of line 477 is raised before [append_section] is called. *)
Lemma full_error_leaves_image (patcher : option (dol -> Z -> result dol))
    (d : dol) (base : Z) (datablob : list byte) :
  0 < len datablob ->
  MaxTextSections < len (textSections d) ->
  MaxDataSections < len (dataSections d) ->
  append_blob patcher d base datablob = raise (RuntimeError full_error).
Proof.
  intros Hlen Ht Hd. unfold append_blob, new_section.
  destruct (Z.ltb_spec 0 (len datablob)); [| lia].
  destruct (Z.leb_spec (len (textSections d)) MaxTextSections); [lia |].
  destruct (Z.leb_spec (len (dataSections d)) MaxDataSections); [lia |].
  reflexivity.
Qed.

End AppendedSection.

(** ** Relocation of the code table *)

Lemma bind_assoc {A B C : Type} (m : py A) (f : A -> py B) (g : B -> py C) :
  bind (bind m f) g = bind m (fun a => bind (f a) g).
Proof.
  unfold bind. destruct m as [out [a | e]]; [| reflexivity].
  destruct (f a) as [out1 [b | e1]]; [| reflexivity].
  destruct (g b) as [out2 r]. rewrite app_assoc. reflexivity.
Qed.

Lemma bind_ext {A B : Type} (m : py A) (k k' : A -> py B) :
  (forall a, k a = k' a) -> bind m k = bind m k'.
Proof.
  intros Hk. unfold bind. destruct m as [out [a | e]]; [| reflexivity].
  rewrite Hk. reflexivity.
Qed.

Lemma foldM_app {A S : Type} (f : S -> A -> py S) (s : S) (l1 l2 : list A) :
  foldM f s (l1 ++ l2) = bind (foldM f s l1) (fun s' => foldM f s' l2).
Proof.
  revert s. induction l1 as [| a l1 IH]; intros s; cbn [foldM app].
  - rewrite bind_ret_l. reflexivity.
  - rewrite bind_assoc. apply bind_ext. intros s'. apply IH.
Qed.

Lemma status_of_disabled (c : GeckoCode) :
  is_enabled c = false -> status_of c = "DISABLED"%string.
Proof. unfold status_of. intros ->. reflexivity. Qed.

Lemma status_fold_supported (l : list GeckoCommand) (status : string) :
  forallb (fun cmd => supported (codetype cmd)) l = true ->
  fold_left
    (fun status cmd =>
       if negb (supported (codetype cmd)) then "OMITTED"%string else status)
    l status = status.
Proof.
  revert status. induction l as [| c l IH]; intros status; simpl; [reflexivity |].
  intros Hall. apply andb_prop in Hall as [Hc Hl]. rewrite Hc. simpl. auto.
Qed.

Lemma status_of_enabled (c : GeckoCode) :
  is_enabled c = true ->
  forallb (fun cmd => supported (codetype cmd)) (commands c) = true ->
  status_of c = "ENABLED"%string.
Proof.
  unfold status_of. intros -> Hall. apply status_fold_supported, Hall.
Qed.

Lemma status_fold_omitted (l : list GeckoCommand) :
  fold_left
    (fun status cmd =>
       if negb (supported (codetype cmd)) then "OMITTED"%string else status)
    l "OMITTED"%string = "OMITTED"%string.
Proof.
  induction l as [| c l IH]; simpl; [reflexivity |].
  destruct (negb (supported (codetype c))); exact IH.
Qed.

Lemma status_of_omitted (c : GeckoCode) :
  is_enabled c = true ->
  forallb (fun cmd => supported (codetype cmd)) (commands c) = false ->
  status_of c = "OMITTED"%string.
Proof.
  unfold status_of. intros ->. generalize "ENABLED"%string.
  induction (commands c) as [| x l IH]; intros status; simpl; [discriminate |].
  destruct (supported (codetype x)); simpl.
  - apply IH.
  - intros _. apply status_fold_omitted.
Qed.

Lemma bind_eval {A B : Type} (m : py A) (k : A -> py B) out1 a out2 r :
  m = (out1, Ok a) -> k a = (out2, r) -> bind m k = (out1 ++ out2, r).
Proof. intros -> Hk. unfold bind. rewrite Hk. reflexivity. Qed.

(** An origin in the lower half of the address space: setting bit 31 adds
    [0x80000000]. *)
Lemma lor_origin (a : Z) :
  0 <= a < 0x80000000 -> Z.lor a 0x80000000 = a + 0x80000000.
Proof.
  intros Ha. change 0x80000000 with (Z.shiftl 1 31) at 1.
  rewrite lor_shiftl_add by (change (2 ^ 31) with 0x80000000; lia).
  reflexivity.
Qed.

(** [value[:-4]] of a payload of at least four bytes. *)
Lemma py_slice_drop_last4 {A : Type} (l : list A) :
  4 <= len l ->
  py_slice l 0 (Some (-4)) = take (Z.to_nat (len l - 4)) l.
Proof.
  intros Hl. unfold py_slice, slice_index. fold (len l). simpl.
  rewrite Z.min_l, Z.max_r, Z.sub_0_r by lia. reflexivity.
Qed.

Lemma len_app {A : Type} (l1 l2 : list A) : len (l1 ++ l2) = len l1 + len l2.
Proof. unfold len. rewrite length_app. lia. Qed.

Lemma pad4_aligned (b : list byte) : len (pad4 b) mod 4 = 0.
Proof.
  unfold pad4. rewrite len_app. unfold len.
  rewrite length_replicate, Z2Nat.id by (apply Z.mod_pos_bound; lia).
  Z.div_mod_to_equations. lia.
Qed.

Lemma total_size_app (l1 l2 : list code_metadata) :
  total_size (l1 ++ l2) = total_size l1 + total_size l2.
Proof. induction l1 as [| m l1 IH]; simpl; lia. Qed.

Lemma laid_out_app (start : Z) (l1 l2 : list code_metadata) :
  laid_out start l1 ->
  laid_out (start + total_size l1) l2 ->
  laid_out start (l1 ++ l2).
Proof.
  revert start. induction l1 as [| m l1 IH]; intros start; simpl.
  - intros _. rewrite Z.add_0_r. auto.
  - intros [Hm Hrest] Hl2. split; [exact Hm |].
    apply IH; [exact Hrest |]. rewrite <- Z.add_assoc. exact Hl2.
Qed.

Section Relocation.
Context {dol : Type} {DF : DolFile dol} {DT : DolTools dol}.

(** A relocated command only appends to the fragment of its code entry
    and to the metadata; when it leaves the metadata empty it leaves the
    fragment empty. *)
Lemma relocate_command_extends (status : string) (vaddress : Z) (d d' : dol)
    (blob blob' : list byte) (md md' : list command_metadata)
    (c : GeckoCommand) (out : list event) :
  relocate_command status vaddress (d, blob, md) c = (out, Ok (d', blob', md')) ->
  exists bs ms, blob' = blob ++ bs /\ md' = md ++ ms /\
                (ms = [] -> bs = []).
Proof.
  unfold relocate_command.
  destruct (is_asm_insert (codetype c)).
  - destruct (String.eqb status "UNUSED" || String.eqb status "OMITTED").
    + intros [= <- <- <- <-].
      exists [], [mkCommandMetadata 0 (len (value c)) status c].
      rewrite app_nil_r.
      split; [reflexivity | split; [reflexivity | discriminate]].
    + intros Hrun. repeat bind_inv Hrun. injection Hrun as _ <- <- <-.
      exists (py_slice (value c) 0 (Some (-4)) ++ a1),
             [mkCommandMetadata (vaddress + len blob) (len (value c)) status c].
      rewrite <- app_assoc.
      split; [reflexivity | split; [reflexivity | discriminate]].
  - intros [= <- <- <- <-]. exists [], []. rewrite !app_nil_r. auto.
Qed.

Lemma relocate_commands_extend (status : string) (vaddress : Z)
    (l : list GeckoCommand) (d d' : dol) (blob blob' : list byte)
    (md md' : list command_metadata) (out : list event) :
  foldM (relocate_command status vaddress) (d, blob, md) l
    = (out, Ok (d', blob', md')) ->
  exists bs ms, blob' = blob ++ bs /\ md' = md ++ ms /\
                (ms = [] -> bs = []).
Proof.
  revert d blob md out. induction l as [| c l IH]; intros d blob md out; simpl.
  - intros [= <- <- <- <-]. exists [], []. rewrite !app_nil_r. auto.
  - intros Hrun. bind_inv Hrun. destruct a as [[d1 blob1] md1].
    apply relocate_command_extends in E as (bs1 & ms1 & -> & -> & He1).
    apply IH in Hrun as (bs2 & ms2 & -> & -> & He2).
    exists (bs1 ++ bs2), (ms1 ++ ms2). rewrite <- !app_assoc.
    split; [reflexivity | split; [reflexivity |]].
    intros Hnil. apply app_eq_nil in Hnil as [-> ->].
    rewrite He1, He2; reflexivity.
Qed.

(** One code entry appends its fragment to the blob, and records it at
    the address where the fragment starts. *)
Lemma relocate_code_extends (base : Z) (c : GeckoCode) (d d' : dol)
    (blob blob' : list byte) (md md' : list code_metadata) (out : list event) :
  relocate_code base (d, blob, md) c = (out, Ok (d', blob', md')) ->
  exists frag new,
    blob' = blob ++ frag /\ md' = md ++ new /\
    laid_out (base + len blob) new /\ len frag = total_size new.
Proof.
  unfold relocate_code. intros Hrun.
  bind_inv Hrun. bind_inv Hrun. clear E0. bind_inv Hrun.
  destruct a1 as [[d1 frag] cmd_md].
  apply relocate_commands_extend in E0 as (bs & ms & -> & -> & Hempty).
  injection Hrun as _ <- <- <-. simpl in *.
  exists bs. destruct ms as [| m ms].
  - exists []. rewrite Hempty by reflexivity. rewrite !app_nil_r.
    simpl. auto.
  - eexists [_]. simpl.
    split; [reflexivity | split; [reflexivity | split; [auto | simpl; lia]]].
Qed.

(** The relocating branch of lines 454-458. *)
Lemma relocate_command_asm (status : string) (vaddress : Z) (d d1 d2 : dol)
    (blob br : list byte) (md : list command_metadata) (c : GeckoCommand) :
  is_asm_insert (codetype c) = true ->
  String.eqb status "UNUSED" || String.eqb status "OMITTED" = false ->
  seek d (Z.lor (_address c) 0x80000000) = Ok d1 ->
  write_branch d1 (vaddress + len blob) = Ok d2 ->
  assemble_branch (vaddress + len (blob ++ py_slice (value c) 0 (Some (-4))))
    (PyInt (Z.lor (_address c + 4) 0x80000000)) false = Ok br ->
  relocate_command status vaddress (d, blob, md) c =
    ret (d2, (blob ++ py_slice (value c) 0 (Some (-4))) ++ br,
         md ++ [mkCommandMetadata (vaddress + len blob) (len (value c)) status c]).
Proof.
  intros Hasm Hst Hseek Hwb Hbr. unfold relocate_command.
  rewrite Hasm, Hst, Hseek, bind_lift_ok, Hwb, bind_lift_ok, Hbr, bind_lift_ok.
  reflexivity.
Qed.

(** An inline-assembly command of a code entry whose status is neither
    ["UNUSED"] nor ["OMITTED"] is relocated. *)
Lemma relocate_code_asm (status : string) (base : Z) (code : GeckoCode)
    (pre post : list GeckoCommand) (c : GeckoCommand) (d d0 d1 d2 d' : dol)
    (datablob before final br : list byte) (code_md : list code_metadata)
    (md_before md_final : list command_metadata) (out1 out2 : list event) :
  status_of code = status ->
  String.eqb status "UNUSED" || String.eqb status "OMITTED" = false ->
  commands code = pre ++ c :: post ->
  is_asm_insert (codetype c) = true ->
  4 <= len (value c) ->
  0 <= _address c < 0x7FFFFFFC ->
  let O := _address c + 0x80000000 in
  let L := len (value c) in
  let vaddress := base + len datablob in
  let placement := vaddress + len before in
  let fragment := take (Z.to_nat (L - 4)) (value c) ++ br in
  let entry := mkCommandMetadata placement L status c in
  foldM (relocate_command status vaddress) (d, [], []) pre
    = (out1, Ok (d0, before, md_before)) ->
  seek d0 O = Ok d1 ->
  write_branch d1 placement = Ok d2 ->
  assemble_branch (placement + (L - 4)) (PyInt (O + 4)) false = Ok br ->
  foldM (relocate_command status vaddress)
    (d2, before ++ fragment, md_before ++ [entry]) post
    = (out2, Ok (d', final, md_final)) ->
  relocate_code base (d, datablob, code_md) code =
    (GeckoCodeStatus status (name code) :: out1 ++ out2,
     Ok (d', datablob ++ final,
         code_md ++ [mkCodeMetadata vaddress (len final) status code md_final]))
  /\ exists after md_after,
       final = before ++ fragment ++ after /\
       md_final = md_before ++ entry :: md_after.
Proof.
  intros Hstatus Hreloc Hcmds Hasm HL Ha O L vaddress placement fragment entry
         Hpre Hseek Hwb Hbr Hpost.
  assert (Hstep : relocate_command status vaddress (d0, before, md_before) c
                  = ret (d2, before ++ fragment, md_before ++ [entry])).
  { rewrite (relocate_command_asm status vaddress d0 d1 d2 before br md_before c).
    - rewrite py_slice_drop_last4, <- app_assoc by exact HL. reflexivity.
    - exact Hasm.
    - exact Hreloc.
    - rewrite lor_origin by lia. exact Hseek.
    - exact Hwb.
    - rewrite py_slice_drop_last4, len_app by exact HL.
      rewrite lor_origin by lia.
      replace (len (take (Z.to_nat (len (value c) - 4)) (value c))) with (L - 4).
      + replace (vaddress + (len before + (L - 4))) with (placement + (L - 4))
          by (subst placement; lia).
        replace (_address c + 4 + 0x80000000) with (O + 4) by (subst O; lia).
        exact Hbr.
      + subst L. unfold len in *. rewrite length_take. lia. }
  assert (Hall : foldM (relocate_command status vaddress) (d, [], [])
                   (commands code)
                 = (out1 ++ out2, Ok (d', final, md_final))).
  { rewrite Hcmds, foldM_app.
    apply (bind_eval _ _ out1 (d0, before, md_before)); [exact Hpre |].
    cbn [foldM]. rewrite Hstep, bind_ret_l. exact Hpost. }
  split.
  - unfold relocate_code. rewrite Hstatus.
    apply orb_false_elim in Hreloc as [_ Homitted]. rewrite Homitted.
    fold vaddress.
    apply (bind_eval _ _ [GeckoCodeStatus status (name code)] tt);
      [reflexivity |].
    rewrite bind_ret_l.
    rewrite <- (app_nil_r (out1 ++ out2)).
    apply (bind_eval _ _ (out1 ++ out2) (d', final, md_final)); [exact Hall |].
    apply relocate_commands_extend in Hpost as (bs & ms & -> & -> & _).
    remember ((md_before ++ [entry]) ++ ms) as recorded eqn:Hmd.
    destruct recorded as [| m recorded]; [| reflexivity].
    symmetry in Hmd. apply app_eq_nil in Hmd as [Hmd _].
    apply app_eq_nil in Hmd as [_ Hmd]. discriminate.
  - apply relocate_commands_extend in Hpost as (bs & ms & -> & -> & _).
    exists bs, ms. rewrite <- !app_assoc. split; reflexivity.
Qed.


(** C1 (what the code does).  A code entry whose enabled flag is false
    has the status ["DISABLED"], which line 450 does not test for (it
    tests for ["UNUSED"]): each inline-assembly command of the entry is
    relocated exactly as in an enabled entry.  The image is sought to the
    origin and a branch is written there, the payload without its last
    four bytes and a branch back are appended to the blob, and the
    metadata holds the placement address, not zero. *)
Theorem disabled_entry_is_relocated (base : Z) (code : GeckoCode)
    (pre post : list GeckoCommand) (c : GeckoCommand) (d d0 d1 d2 d' : dol)
    (datablob before final br : list byte) (code_md : list code_metadata)
    (md_before md_final : list command_metadata) (out1 out2 : list event) :
  is_enabled code = false ->
  commands code = pre ++ c :: post ->
  is_asm_insert (codetype c) = true ->
  4 <= len (value c) ->
  0 <= _address c < 0x7FFFFFFC ->
  let O := _address c + 0x80000000 in
  let L := len (value c) in
  let vaddress := base + len datablob in
  let placement := vaddress + len before in
  let fragment := take (Z.to_nat (L - 4)) (value c) ++ br in
  let entry := mkCommandMetadata placement L "DISABLED" c in
  foldM (relocate_command "DISABLED" vaddress) (d, [], []) pre
    = (out1, Ok (d0, before, md_before)) ->
  seek d0 O = Ok d1 ->
  write_branch d1 placement = Ok d2 ->
  assemble_branch (placement + (L - 4)) (PyInt (O + 4)) false = Ok br ->
  foldM (relocate_command "DISABLED" vaddress)
    (d2, before ++ fragment, md_before ++ [entry]) post
    = (out2, Ok (d', final, md_final)) ->
  relocate_code base (d, datablob, code_md) code =
    (GeckoCodeStatus "DISABLED" (name code) :: out1 ++ out2,
     Ok (d', datablob ++ final,
         code_md ++ [mkCodeMetadata vaddress (len final) "DISABLED" code md_final]))
  /\ exists after md_after,
       final = before ++ fragment ++ after /\
       md_final = md_before ++ entry :: md_after.
Proof.
  intros Hdis. apply relocate_code_asm; [| reflexivity].
  apply status_of_disabled; assumption.
Qed.

(** The commands of an omitted entry: nothing is written, nothing is
    appended, and each inline-assembly command is recorded at address
    zero. *)
Lemma relocate_commands_omitted (vaddress : Z) (l : list GeckoCommand) (d : dol)
    (blob : list byte) (md : list command_metadata) :
  foldM (relocate_command "OMITTED" vaddress) (d, blob, md) l =
    ret (d, blob,
         md ++ map (fun c => mkCommandMetadata 0 (len (value c)) "OMITTED" c)
                   (filter (fun c => is_asm_insert (codetype c) = true) l)).
Proof.
  revert md. induction l as [| c l IH]; intros md; cbn [foldM].
  - simpl. rewrite app_nil_r. reflexivity.
  - unfold relocate_command at 1. rewrite filter_cons.
    destruct (is_asm_insert (codetype c)) eqn:Hasm.
    + rewrite decide_True by reflexivity.
      change (String.eqb "OMITTED" "UNUSED" || String.eqb "OMITTED" "OMITTED")
        with true. cbv iota.
      rewrite bind_ret_l, IH, <- app_assoc. reflexivity.
    + rewrite decide_False by discriminate.
      rewrite bind_ret_l. apply IH.
Qed.

(** The part of C1 that holds: an enabled entry with a command of an
    unsupported kind leaves the image and the blob as they were, and its
    inline-assembly commands are recorded with placement address zero. *)
Lemma omitted_entry_not_relocated (base : Z) (code : GeckoCode) (d : dol)
    (datablob : list byte) (code_md : list code_metadata) :
  is_enabled code = true ->
  forallb (fun cmd => supported (codetype cmd)) (commands code) = false ->
  exists out new,
    relocate_code base (d, datablob, code_md) code
      = (out, Ok (d, datablob, code_md ++ new)) /\
    Forall (fun m => Forall (fun cm => cmd_vaddr cm = 0) (gecko_command_metadata m))
           new.
Proof.
  intros Hen Hsup. unfold relocate_code.
  rewrite (status_of_omitted code Hen Hsup).
  change (String.eqb "OMITTED" "OMITTED") with true. cbv iota.
  rewrite relocate_commands_omitted.
  set (recorded := map _ (filter _ (commands code))).
  assert (Hzero : Forall (fun cm => cmd_vaddr cm = 0) recorded).
  { subst recorded. apply Forall_map. apply Forall_forall. reflexivity. }
  unfold bind, print, ret. simpl app.
  destruct recorded as [| m recorded]; simpl; rewrite app_nil_r.
  - eexists _, []. rewrite app_nil_r. split; [reflexivity | constructor].
  - eexists _, [_]. split; [reflexivity |].
    constructor; [exact Hzero | constructor].
Qed.

Lemma relocate_codes_extend (base : Z) (codes : list GeckoCode) (d d' : dol)
    (blob blob' : list byte) (md md' : list code_metadata) (out : list event) :
  foldM (relocate_code base) (d, blob, md) codes = (out, Ok (d', blob', md')) ->
  exists frags new,
    blob' = blob ++ frags /\ md' = md ++ new /\
    laid_out (base + len blob) new /\ len frags = total_size new.
Proof.
  revert d blob md out. induction codes as [| c codes IH];
    intros d blob md out; cbn [foldM].
  - intros [= <- <- <- <-]. exists [], []. rewrite !app_nil_r. simpl. auto.
  - intros Hrun. bind_inv Hrun. destruct a as [[d1 blob1] md1].
    apply relocate_code_extends in E as (f1 & n1 & -> & -> & Hl1 & Hs1).
    apply IH in Hrun as (f2 & n2 & -> & -> & Hl2 & Hs2).
    exists (f1 ++ f2), (n1 ++ n2). rewrite <- !app_assoc.
    split; [reflexivity | split; [reflexivity | split]].
    + apply laid_out_app; [exact Hl1 |].
      rewrite len_app, Hs1, Z.add_assoc in Hl2. exact Hl2.
    + rewrite len_app, total_size_app. lia.
Qed.





End Relocation.

(** ** The stages of [build_dol] *)

Section Stages.
Context {dol : Type} {DF : DolFile dol} {DT : DolTools dol} {RT : Runtime}
        {GL : GeckoLib dol} {TC : Toolchain dol}.

(** A call of [build_dol] that returns went through its stages in order:
    the base address, the tool chain, the relocation of the code table from
    the blob of the linked project on, [GeckoCodeTable.apply], the hooks,
    and the new section made of the blob at the base address. *)
Lemma build_dol_stages (p p' : Project dol) (d d' : dol) (out : list event) :
  build_dol p d = (out, Ok (p', d')) ->
  exists base symbols' built d1 blob md d2 hooks' d3 o1 o2 o3 o4,
    choose_base_addr (base_addr p) d = (o1, Ok base) /\
    build_project
      (mkProject (Some base) (verbose p) (sda_base p) (sda2_base p) (symbols p)
         (hooks p) (gecko_codetable p) (gecko_code_metadata p) (osarena_patcher p))
      = Ok (symbols', built) /\
    relocate_codetable base (initial_blob built) (gecko_code_metadata p)
      (gecko_codetable p) d = (o2, Ok (d1, blob, md)) /\
    codetable_apply (gecko_codetable p) d1 = Ok d2 /\
    foldM (apply_hook (verbose p) symbols') ([], d2) (hooks p)
      = (o3, Ok (hooks', d3)) /\
    append_blob (osarena_patcher p) d3 base blob = (o4, Ok d') /\
    p' = mkProject (Some base) (verbose p) (sda_base p) (sda2_base p) symbols'
           hooks' (gecko_codetable p) md (osarena_patcher p) /\
    out = o1 ++ o2 ++ o3 ++ o4.
Proof.
  unfold build_dol. intros Hrun.
  apply bind_ok_inv in Hrun as (o1 & base & r1 & Hbase & Hrun & ->).
  apply bind_ok_inv in Hrun as (ob & [symbols' built] & r2 & Hbuild & Hrun & ->).
  injection Hbuild as <- Hbuild.
  cbn [base_addr verbose sda_base sda2_base symbols hooks gecko_codetable
       gecko_code_metadata osarena_patcher] in Hrun.
  apply bind_ok_inv in Hrun as (o2 & [[d1 blob] md] & r3 & Hreloc & Hrun & ->).
  apply bind_ok_inv in Hrun as (oa & d2 & r4 & Happly & Hrun & ->).
  injection Happly as <- Happly.
  apply bind_ok_inv in Hrun as (o3 & [hooks' d3] & r5 & Hhooks & Hrun & ->).
  apply bind_ok_inv in Hrun as (o4 & d3' & r6 & Happend & Hrun & ->).
  injection Hrun as <- <- <-.
  exists base, symbols', built, d1, blob, md, d2, hooks', d3, o1, o2, o3, o4.
  rewrite !app_nil_r. simpl. auto 10.
Qed.

(** The blob of a build that returns: the linked project first, then the
    fragments of the code table, and the section handed to
    [append_section] holds exactly that blob at the base address. *)
Lemma build_dol_blob (p p' : Project dol) (d d' : dol) (out : list event) :
  build_dol p d = (out, Ok (p', d')) ->
  exists base built frags new d3 o4,
    base_addr p' = Some base /\
    gecko_code_metadata p' = gecko_code_metadata p ++ new /\
    laid_out (base + len (initial_blob built)) new /\
    len frags = total_size new /\
    append_blob (osarena_patcher p) d3 base (initial_blob built ++ frags)
      = (o4, Ok d').
Proof.
  intros Hrun.
  apply build_dol_stages in Hrun
    as (base & symbols' & built & d1 & blob & md & d2 & hooks' & d3
        & o1 & o2 & o3 & o4 & _ & _ & Hreloc & _ & _ & Happend & -> & _).
  apply relocate_codes_extend in Hreloc as (frags & new & -> & -> & Hl & Hs).
  exists base, built, frags, new, d3, o4. auto.
Qed.

End Stages.

(** The reference [mask_field] returns the low bits of its argument. *)
Lemma ref_mask_low_bits : masks_low_bits (DT := Ref.doltools).
Proof.
  intros n bits signed r Hbits Hr. cbn in Hr. unfold Ref.mask in Hr.
  injection Hr as <-. rewrite Z.land_ones by exact Hbits. reflexivity.
Qed.

(** * The properties at the sample inputs *)



Lemma zero_payload_not_applied_witness :
  let h := set_data (PointerHook 0x80003000 "Zero") (PyInt 0) in
  resolve (DT := Ref.doltools) (RT := Ref.runtime)
    (PointerHook 0x80003000 "Zero") Sample.symbols = ret h /\
  apply_dol (DF := Ref.dolfile) (DT := Ref.doltools) h Sample.image
    = ret (h, Sample.image) /\
  write_geckocommand h [] = (h, []).
Proof.
  split; [reflexivity |].
  apply (zero_payload_not_applied (DF := Ref.dolfile) (DT := Ref.doltools)
           (set_data (PointerHook 0x80003000 "Zero") (PyInt 0)) "Zero");
    reflexivity.
Defined.

Lemma immediate12_fields_witness :
  exists p : Z,
    resolve (DT := Ref.doltools) (RT := Ref.runtime)
      (Immediate12Hook 0x80003000 5 1 "Foo" "@l") Sample.symbols
      = ([], Ok (set_data (Immediate12Hook 0x80003000 5 1 "Foo" "@l") (PyInt p))) /\
    0 <= p < 2 ^ 16 /\
    Z.land p 0xFFF = 0x010 /\
    Z.land (Z.shiftr p 12) 1 = 1 /\
    Z.land (Z.shiftr p 13) 7 = 5 /\
    p = 0x010 + 1 * 2 ^ 12 + 5 * 2 ^ 13.
Proof.
  apply (immediate12_fields (DT := Ref.doltools) (RT := Ref.runtime)
           (Immediate12Hook 0x80003000 5 1 "Foo" "@l") 5 1 "Foo" "@l"
           Sample.symbols (mkSymbol (PyInt 0x80005010)) [] (PyInt 0x5010));
    try reflexivity; lia.
Defined.

Lemma sda_relative_field_witness :
  resolve (DT := Ref.doltools) (RT := Ref.runtime)
    (Immediate16Hook 0x80003000 "Foo" "@sda") Sample.symbols
    = ret (set_data (Immediate16Hook 0x80003000 "Foo" "@sda")
             (PyInt ((0x80005010 - 0x80005020) mod 2 ^ 16))) /\
  signed16 ((0x80005010 - 0x80005020) mod 2 ^ 16) = 0x80005010 - 0x80005020.
Proof.
  destruct (sda_relative_field (DT := Ref.doltools) (RT := Ref.runtime)
              (Immediate16Hook 0x80003000 "Foo" "@sda") "Foo" "@sda" "_SDA_BASE_"
              Sample.symbols 0x80005010) as [Hconfigured _].
  - left. split; reflexivity.
  - reflexivity.
  - left. reflexivity.
  - destruct (Hconfigured 0x80005020 eq_refl) as (_ & _ & _ & Hlow).
    destruct (Hlow ref_mask_low_bits []
                (set_data (Immediate16Hook 0x80003000 "Foo" "@sda") (PyInt 0xFFF0))
                eq_refl) as (_ & H16 & _).
    destruct (H16 eq_refl) as [Hpayload Hsigned].
    split.
    + rewrite <- Hpayload. reflexivity.
    + apply Hsigned. lia.
Defined.

(** C7 fails for the Immediate12 variant: with the symbol sixteen bytes
    above the base the payload is [0x1010], the offset in the low twelve
    bits and the flag [i] at bit 12, not the 16-bit offset [0x0010]. *)
Lemma immediate12_sda_payload_is_packed :
  resolve (DT := Ref.doltools) (RT := Ref.runtime)
    (Immediate12Hook 0x80003000 0 1 "Foo" "@sda2") Sample.symbols
    = ret (set_data (Immediate12Hook 0x80003000 0 1 "Foo" "@sda2") (PyInt 0x1010)) /\
  Sample.symbols !! "Foo"%string = Some (mkSymbol (PyInt 0x80005010)) /\
  Sample.symbols !! "_SDA2_BASE_"%string = Some (mkSymbol (PyInt 0x80005000)) /\
  0x1010 <> 0x80005010 - 0x80005000.
Proof.
  split; [reflexivity |]. split; [reflexivity |]. split; [reflexivity |].
  discriminate.
Defined.

Lemma unknown_modifier_reaches_mask_field_witness :
  resolve (DT := Ref.doltools) (RT := Ref.runtime)
    (Immediate16Hook 0x80003000 "Foo" "@bogus") Sample.symbols
    = ([UnknownModifier "@bogus"], Raise TypeError) /\
  forall out h',
    resolve (DT := Ref.doltools) (RT := Ref.runtime)
      (Immediate12Hook 0x80003000 0 0 "Foo" "@bogus") Sample.symbols
      = (out, Ok h') ->
    data h' <> PyNone.
Proof.
  apply (unknown_modifier_reaches_mask_field (DT := Ref.doltools)
           (RT := Ref.runtime) 0x80003000 0 0 "Foo" "@bogus" Sample.symbols
           (mkSymbol (PyInt 0x80005010)));
    reflexivity.
Defined.

Lemma auto_base_addr_witness :
  choose_base_addr (DF := Ref.dolfile) None Sample.image_4k
    = ([BaseAutoSet 0x80004000], Ok 0x80004000).
Proof.
  destruct (auto_base_addr (DF := Ref.dolfile) Sample.image_4k)
    as (_ & base & Hrun & _ & _ & Hbase).
  - vm_compute. discriminate.
  - rewrite Hrun, (Hbase eq_refl). reflexivity.
Defined.

(** C9 fails for an image whose sections end below [0x80000000]: the
    only section ends at [0x2000], itself a multiple of 32, and the base
    address is [0x80000000]. *)
Lemma auto_base_addr_has_floor :
  sections (DolFile := Ref.dolfile) Sample.image_low = [mkSection 0x1000 0x1000] /\
  choose_base_addr (DF := Ref.dolfile) None Sample.image_low
    = ([BaseAutoSet 0x80000000], Ok 0x80000000) /\
  0x2000 mod 32 = 0 /\ 0x1000 + 0x1000 <= 0x2000 < 0x80000000.
Proof.
  split; [reflexivity |]. split; [reflexivity |]. split; [reflexivity | lia].
Defined.

Lemma text_section_chosen_when_full_witness :
  len (dataSections (DolFile := Ref.dolfile) Sample.image_7_text)
    < MaxDataSections (DolFile := Ref.dolfile) /\
  new_section (DF := Ref.dolfile) Sample.image_7_text 0x80004000 [x00]
    = ret (TextSection 0x80004000 [x00]).
Proof.
  split; [reflexivity |].
  apply (text_section_chosen_when_full (DF := Ref.dolfile)). reflexivity.
Defined.


Lemma disabled_entry_is_relocated_witness :
  relocate_code (DF := Ref.dolfile) (DT := Ref.doltools) 0x80004000
    (Sample.image, [], []) Sample.disabled_code
  = ([GeckoCodeStatus "DISABLED" "off"],
     Ok (Sample.image_patched, Sample.fragment,
         [mkCodeMetadata 0x80004000 8 "DISABLED" Sample.disabled_code
            [mkCommandMetadata 0x80004000 8 "DISABLED" Sample.insert]])).
Proof.
  apply (disabled_entry_is_relocated (DF := Ref.dolfile) (DT := Ref.doltools)
           0x80004000 Sample.disabled_code [] [] Sample.insert
           Sample.image Sample.image Sample.image_sought Sample.image_patched
           Sample.image_patched [] [] Sample.fragment Sample.branch_back []
           [] [mkCommandMetadata 0x80004000 8 "DISABLED" Sample.insert] [] []);
    try reflexivity; vm_compute; intuition discriminate.
Defined.



(** * Further properties of the hooks *)

Section HookFrame.
Context {dol : Type} {DF : DolFile dol} {DT : DolTools dol} {RT : Runtime}.

(** X1.  Whatever the variant and the payload, [apply_dol] on a hook whose
    address the image does not map returns the hook and the image as they
    were, prints nothing and raises nothing. *)
Theorem apply_dol_unmapped (h : Hook) (d : dol) :
  is_mapped d (addr h) = false ->
  apply_dol h d = ret (h, d).
Proof.
  intros Hmap. unfold apply_dol.
  destruct (kind h); rewrite Hmap, ?andb_false_r; reflexivity.
Qed.

(** X2.  When [apply_dol] returns, it either left hook and image as they
    were, or it marked the hook as applied; the second only happens at a
    mapped address and, for the variants that name a symbol, with a truthy
    payload.  It prints nothing, and address, payload and variant of the
    hook are never changed. *)
Theorem apply_dol_marks_only_mapped (h h' : Hook) (d d' : dol) (out : list event) :
  apply_dol h d = (out, Ok (h', d')) ->
  out = [] /\
  ((h' = h /\ d' = d) \/
   (h' = set_good h /\ is_mapped d (addr h) = true /\
    (referenced_name h <> None -> truthy (data h) = true))).
Proof.
  unfold apply_dol, referenced_name.
  destruct (kind h);
    (destruct (truthy (data h)) eqn:Htruthy; cbn [andb]);
    (destruct (is_mapped d (addr h)) eqn:Hmap; cbn [andb]);
    intros Hrun;
    try (injection Hrun as <- <- <-; split; [reflexivity | left; auto]);
    repeat bind_inv Hrun;
    injection Hrun as <- <- <-;
    (split; [reflexivity | right; auto]).
Qed.

(** [resolve] only ever replaces the payload. *)
Lemma resolve_sets_data (h h' : Hook) (symbols : symbols_t) (out : list event) :
  resolve h symbols = (out, Ok h') ->
  h' = set_data h (data h').
Proof.
  assert (Hid : h = set_data h (data h)) by (destruct h; reflexivity).
  unfold resolve.
  destruct (kind h);
    try (destruct (symbols !! sym_name));
    try (destruct (read_file filepath));
    intros Hrun;
    repeat bind_inv Hrun;
    injection Hrun as _ <-; solve [exact Hid | reflexivity].
Qed.

(** X3.  When [resolve] returns, the hook it returns has the address, the
    variant and the applied flag of the one it was given: resolving never
    marks a hook as applied and never retargets it. *)
Theorem resolve_keeps_identity (h h' : Hook) (symbols : symbols_t) (out : list event) :
  resolve h symbols = (out, Ok h') ->
  addr h' = addr h /\ kind h' = kind h /\ good h' = good h.
Proof.
  intros Hrun. apply resolve_sets_data in Hrun. rewrite Hrun. auto.
Qed.

End HookFrame.

(** X4.  [write_geckocommand] appends at most one command to the script.
    A Branch, Pointer or immediate hook with a falsy payload writes nothing
    and stays as it was; otherwise, and always for a String or File hook
    (even with an empty payload), exactly one command is appended, which
    carries the hook's address and payload, and the hook is marked as
    applied. *)
Theorem write_geckocommand_appends (h : Hook) (f : list script_line) :
  (write_geckocommand h f = (h, f) /\
   referenced_name h <> None /\ truthy (data h) = false) \/
  (exists line,
      write_geckocommand h f = (set_good h, f ++ [line]) /\
      line_address line = addr h /\ line_value line = data h /\
      (referenced_name h = None \/ truthy (data h) = true)).
Proof.
  unfold write_geckocommand, referenced_name.
  destruct (kind h); destruct (truthy (data h));
    solve [ left; split; [reflexivity | split; [discriminate | reflexivity]]
          | right; eexists; split; [reflexivity |];
            split; [reflexivity | split; [reflexivity | auto]] ].
Qed.

Section HookResolution.
Context {dol : Type} {DF : DolFile dol} {DT : DolTools dol} {RT : Runtime}.

(** With a recognised modifier the chain of tests never reads the payload
    the hook holds. *)
Lemma modifier_value_recognised (current current' : pyval) (symbols : symbols_t)
    (e : Symbol) (modifier : string) :
  recognised modifier = true ->
  modifier_value current symbols e modifier
    = modifier_value current' symbols e modifier.
Proof.
  unfold recognised, modifier_value. intros Hrec.
  destruct (String.eqb modifier "@h"); [reflexivity |].
  destruct (String.eqb modifier "@l"); [reflexivity |].
  destruct (String.eqb modifier "@ha"); [reflexivity |].
  destruct (String.eqb modifier "@sda"); [reflexivity |].
  destruct (String.eqb modifier "@sda2"); [reflexivity | discriminate].
Qed.

(** X5.  Resolution is idempotent: when [resolve] returns a hook, resolving
    that hook again against the same symbol table returns the same hook and
    prints the same lines.  This holds for every hook except an immediate
    hook with a modifier outside the recognised ones, the one case where
    [resolve] reads back the payload it stored. *)
Theorem resolve_idempotent (h h' : Hook) (symbols : symbols_t) (out : list event) :
  modifier_known h = true ->
  resolve h symbols = (out, Ok h') ->
  resolve h' symbols = (out, Ok h').
Proof.
  intros Hknown Hrun.
  pose proof (resolve_sets_data h h' symbols out Hrun) as Hshape.
  remember (data h') as x eqn:Hx. clear Hx. subst h'.
  revert Hrun. unfold resolve, modifier_known in *. cbn [kind set_data data].
  destruct (kind h) as [s lk | s | text enc limit | path start stop limit
                        | s modifier | w i s modifier].
  - destruct (symbols !! s); intros [= <- Hh]; [| reflexivity].
    try (unfold set_data in Hh; injection Hh as Hh); subst x. reflexivity.
  - destruct (symbols !! s); intros [= <- Hh]; [| reflexivity].
    try (unfold set_data in Hh; injection Hh as Hh); subst x. reflexivity.
  - intros Hrun. repeat bind_inv Hrun. injection Hrun as <- Hh.
    try (unfold set_data in Hh; injection Hh as Hh); subst x.
    rewrite E, bind_lift_ok.
    apply (bind_eval _ _ _ _ [] _ E0). reflexivity.
  - destruct (read_file path).
    + intros Hrun. repeat bind_inv Hrun. injection Hrun as <- Hh.
      try (unfold set_data in Hh; injection Hh as Hh); subst x.
      apply (bind_eval _ _ _ _ [] _ E). reflexivity.
    + intros Hrun. repeat bind_inv Hrun. injection Hrun as <- Hh.
      reflexivity.
  - destruct (symbols !! s) as [e |]; [| intros [= <- Hh]; reflexivity].
    rewrite (modifier_value_recognised x (data h)) by exact Hknown.
    intros Hrun. repeat bind_inv Hrun. injection Hrun as <- Hh.
    try (unfold set_data in Hh; injection Hh as Hh); subst x.
    apply (bind_eval _ _ _ _ [] _ E).
    rewrite E0, bind_lift_ok. reflexivity.
  - destruct (symbols !! s) as [e |]; [| intros [= <- Hh]; reflexivity].
    rewrite (modifier_value_recognised x (data h)) by exact Hknown.
    intros Hrun. repeat bind_inv Hrun. injection Hrun as <- Hh.
    try (unfold set_data in Hh; injection Hh as Hh); subst x.
    apply (bind_eval _ _ _ _ [] _ E).
    repeat match goal with
           | Eq : ?c = Ok _ |- context [lift ?c] => rewrite Eq, bind_lift_ok
           end.
    reflexivity.
Qed.

End HookResolution.

(** * Further properties: payloads of the String and File hooks *)

Lemma py_slice_is_part {A : Type} (l : list A) (start : Z) (stop : option Z) :
  exists skipped rest, l = skipped ++ py_slice l start stop ++ rest.
Proof.
  unfold py_slice.
  set (s := Z.to_nat (slice_index (Z.of_nat (length l)) start)).
  set (k := Z.to_nat _).
  exists (take s l), (drop k (drop s l)).
  rewrite (take_drop k (drop s l)), take_drop. reflexivity.
Qed.

Lemma py_slice_whole {A : Type} (l : list A) : py_slice l 0 None = l.
Proof.
  unfold py_slice, slice_index. simpl.
  rewrite Z.min_l, Z.sub_0_r, Nat2Z.id by lia.
  simpl. apply firstn_all.
Qed.

Lemma limit_payload_cases (what : string) (d : list byte) (limit : option Z) :
  exists pad,
    limit_payload what d limit =
      (match limit with
       | Some n => if n <? len d then [WarnExceeds what n] else []
       | None => []
       end, Ok (d ++ replicate pad x00)) /\
    len (d ++ replicate pad x00) =
      match limit with
      | Some n => Z.max (len d) n
      | None => len d
      end.
Proof.
  unfold limit_payload, zero_pad. fold (len d).
  destruct limit as [n |].
  - destruct (Z.ltb_spec n (len d)).
    + exists 0%nat. simpl. rewrite app_nil_r. split; [reflexivity | lia].
    + exists (Z.to_nat (n - len d)). split; [reflexivity |].
      rewrite len_app. unfold len at 2. rewrite length_replicate. lia.
  - exists 0%nat. simpl. rewrite app_nil_r. split; reflexivity.
Qed.

Section Payloads.
Context {dol : Type} {DT : DolTools dol} {RT : Runtime}.

(** X6.  A String hook whose text encodes to [b] resolves, whatever the
    symbol table, to [b], one zero byte and then zero bytes up to the
    maximum length, if one is given.  The payload is never cut short: when
    [b] and its terminator exceed the maximum, a warning is printed and the
    payload keeps its full length, so its length is the larger of
    [len(b) + 1] and the maximum. *)
Theorem string_payload_never_truncated (h : Hook) (text enc : string)
    (limit : option Z) (symbols : symbols_t) (b : list byte) :
  kind h = KString text enc limit ->
  str_encode text enc = Ok b ->
  exists pad,
    resolve h symbols =
      (match limit with
       | Some n => if n <? len b + 1 then [WarnExceeds text n] else []
       | None => []
       end,
       Ok (set_data h (PyBytes (b ++ [x00] ++ replicate pad x00)))) /\
    len (b ++ [x00] ++ replicate pad x00) =
      match limit with
      | Some n => Z.max (len b + 1) n
      | None => len b + 1
      end.
Proof.
  intros Hk Henc.
  destruct (limit_payload_cases text (b ++ [x00]) limit) as (pad & Hrun & Hlen).
  assert (Hb : len (b ++ [x00]) = len b + 1) by (rewrite len_app; reflexivity).
  rewrite Hb in Hrun, Hlen. rewrite <- app_assoc in Hrun, Hlen.
  exists pad. split; [| exact Hlen].
  unfold resolve. rewrite Hk, Henc, bind_lift_ok.
  rewrite <- (app_nil_r (match limit with Some _ => _ | None => _ end)).
  apply (bind_eval _ _ _ _ _ _ Hrun). reflexivity.
Qed.

(** X7.  A File hook whose file cannot be opened resolves without an
    exception: a warning is printed and the hook is returned as it was.
    Otherwise the payload is one contiguous part of the file (the whole
    file for [start = 0] and no [end]) followed by zero bytes up to the
    maximum size, if one is given; it is never cut short, a part longer
    than the maximum only gives a warning. *)
Theorem file_payload (h : Hook) (path : string) (start : Z) (stop limit : option Z)
    (symbols : symbols_t) :
  kind h = KFile path start stop limit ->
  match read_file path with
  | None => resolve h symbols = ([WarnCouldNotOpen path], Ok h)
  | Some content =>
      exists skipped part rest pad,
        content = skipped ++ part ++ rest /\
        part = py_slice content start stop /\
        (start = 0 -> stop = None -> part = content) /\
        resolve h symbols =
          (match limit with
           | Some n => if n <? len part then [WarnExceeds path n] else []
           | None => []
           end,
           Ok (set_data h (PyBytes (part ++ replicate pad x00)))) /\
        len (part ++ replicate pad x00) =
          match limit with
          | Some n => Z.max (len part) n
          | None => len part
          end
  end.
Proof.
  intros Hk. unfold resolve. rewrite Hk.
  destruct (read_file path) as [content |]; [| reflexivity].
  destruct (py_slice_is_part content start stop) as (skipped & rest & Hpart).
  destruct (limit_payload_cases path (py_slice content start stop) limit)
    as (pad & Hrun & Hlen).
  exists skipped, (py_slice content start stop), rest, pad.
  split; [exact Hpart | split; [reflexivity | split; [| split; [| exact Hlen]]]].
  - intros -> ->. apply py_slice_whole.
  - rewrite <- (app_nil_r (match limit with Some _ => _ | None => _ end)).
    apply (bind_eval _ _ _ _ _ _ Hrun). reflexivity.
Qed.

End Payloads.

(** * Further properties of the relocation *)

(** X8.  The padding loop of lines 426-427 appends fewer than four zero
    bytes after the bytes of the linked project, none when their number is
    already a multiple of four, and the padded length is a multiple of
    four. *)
Theorem pad4_minimal (b : list byte) :
  exists k : nat,
    pad4 b = b ++ replicate k x00 /\
    (k < 4)%nat /\
    len (pad4 b) mod 4 = 0 /\
    (len b mod 4 = 0 -> pad4 b = b).
Proof.
  exists (Z.to_nat ((4 - len b mod 4) mod 4)).
  split; [reflexivity |].
  assert (Hk : 0 <= (4 - len b mod 4) mod 4 < 4) by (apply Z.mod_pos_bound; lia).
  split; [lia |]. split; [apply pad4_aligned |].
  intros Hal. unfold pad4. rewrite Hal. simpl. apply app_nil_r.
Qed.

(** X9.  The status of a code entry is ["DISABLED"] when its enabled flag
    is false, ["OMITTED"] when it is enabled and holds a command of an
    unsupported kind, and ["ENABLED"] otherwise.  It is never ["UNUSED"],
    the value that line 450 compares it with. *)
Theorem status_of_cases (c : GeckoCode) :
  status_of c =
    (if is_enabled c
     then if forallb (fun cmd => supported (codetype cmd)) (commands c)
          then "ENABLED"%string else "OMITTED"%string
     else "DISABLED"%string) /\
  String.eqb (status_of c) "UNUSED" = false.
Proof.
  destruct (is_enabled c) eqn:Hen.
  - destruct (forallb _ (commands c)) eqn:Hsup.
    + rewrite (status_of_enabled c Hen Hsup). split; reflexivity.
    + rewrite (status_of_omitted c Hen Hsup). split; reflexivity.
  - rewrite (status_of_disabled c Hen). split; reflexivity.
Qed.

Section RelocationFrame.
Context {dol : Type} {DF : DolFile dol} {DT : DolTools dol}.

Lemma relocate_commands_skip (status : string) (vaddress : Z)
    (l : list GeckoCommand) (st : dol * list byte * list command_metadata) :
  forallb (fun cmd => negb (is_asm_insert (codetype cmd))) l = true ->
  foldM (relocate_command status vaddress) st l = ret st.
Proof.
  revert st. induction l as [| c l IH]; intros st; cbn [foldM forallb].
  - reflexivity.
  - intros Hall. apply andb_prop in Hall as [Hc Hl].
    apply negb_true_iff in Hc.
    unfold relocate_command at 1. destruct st as [[d blob] md].
    rewrite Hc, bind_ret_l. apply IH, Hl.
Qed.

(** X10.  A code entry without any inline-assembly command, whatever its
    status, goes through the relocation without touching the image, the
    blob or the recorded metadata: only its status line is printed. *)
Theorem entry_without_inserts_untouched (base : Z) (c : GeckoCode) (d : dol)
    (blob : list byte) (md : list code_metadata) :
  forallb (fun cmd => negb (is_asm_insert (codetype cmd))) (commands c) = true ->
  exists out, relocate_code base (d, blob, md) c = (out, Ok (d, blob, md)).
Proof.
  intros Hnone. unfold relocate_code.
  rewrite relocate_commands_skip by exact Hnone.
  rewrite bind_ret_l, app_nil_r.
  unfold bind, print, ret.
  destruct (String.eqb (status_of c) "OMITTED"); eexists; reflexivity.
Qed.

(** What one command adds to the metadata of its entry. *)
Lemma relocate_command_records (status : string) (vaddress : Z) (d d' : dol)
    (blob blob' : list byte) (md md' : list command_metadata)
    (c : GeckoCommand) (out : list event) :
  relocate_command status vaddress (d, blob, md) c = (out, Ok (d', blob', md')) ->
  exists ms,
    md' = md ++ ms /\
    map gecko_command ms = (if is_asm_insert (codetype c) then [c] else []) /\
    Forall (fun cm => cmd_size cm = len (value (gecko_command cm)) /\
                      cmd_status cm = status) ms.
Proof.
  unfold relocate_command.
  destruct (is_asm_insert (codetype c)).
  - destruct (String.eqb status "UNUSED" || String.eqb status "OMITTED").
    + intros [= <- <- <- <-]. eexists [_].
      split; [reflexivity | split; [reflexivity |]].
      constructor; [split; reflexivity | constructor].
    + intros Hrun. repeat bind_inv Hrun. injection Hrun as _ <- <- <-.
      eexists [_]. split; [reflexivity | split; [reflexivity |]].
      constructor; [split; reflexivity | constructor].
  - intros [= <- <- <- <-]. exists []. rewrite app_nil_r.
    split; [reflexivity | split; [reflexivity | constructor]].
Qed.

Lemma relocate_commands_record (status : string) (vaddress : Z)
    (l : list GeckoCommand) (d d' : dol) (blob blob' : list byte)
    (md md' : list command_metadata) (out : list event) :
  foldM (relocate_command status vaddress) (d, blob, md) l
    = (out, Ok (d', blob', md')) ->
  exists ms,
    md' = md ++ ms /\
    map gecko_command ms
      = filter (fun cmd => is_asm_insert (codetype cmd) = true) l /\
    Forall (fun cm => cmd_size cm = len (value (gecko_command cm)) /\
                      cmd_status cm = status) ms.
Proof.
  revert d blob md out. induction l as [| c l IH]; intros d blob md out;
    cbn [foldM].
  - intros [= <- <- <- <-]. exists []. rewrite app_nil_r.
    split; [reflexivity | split; [reflexivity | constructor]].
  - intros Hrun. bind_inv Hrun. destruct a as [[d1 blob1] md1].
    apply relocate_command_records in E as (ms1 & -> & Hc1 & Hf1).
    apply IH in Hrun as (ms2 & -> & Hc2 & Hf2).
    exists (ms1 ++ ms2). rewrite <- app_assoc.
    split; [reflexivity | split].
    + rewrite map_app, Hc1, Hc2, filter_cons.
      destruct (is_asm_insert (codetype c)) eqn:Hasm.
      * rewrite decide_True by reflexivity. reflexivity.
      * rewrite decide_False by discriminate. reflexivity.
    + apply Forall_app. auto.
Qed.

(** X11.  When the relocation of a code entry returns, the entry is
    recorded if and only if it holds an inline-assembly command.  The one
    record added carries the entry, its status, the address at which its
    fragment starts and the length of the fragment, and lists the
    inline-assembly commands of the entry in their order, each with the
    full length of its payload and the status of the entry.  An entry
    without such a command adds no record and no byte. *)
Theorem recorded_commands (base : Z) (c : GeckoCode) (d d' : dol)
    (blob blob' : list byte) (md md' : list code_metadata) (out : list event) :
  relocate_code base (d, blob, md) c = (out, Ok (d', blob', md')) ->
  match filter (fun cmd => is_asm_insert (codetype cmd) = true) (commands c) with
  | [] => md' = md /\ blob' = blob
  | inserts =>
      exists m,
        md' = md ++ [m] /\
        gecko_code m = c /\
        code_status m = status_of c /\
        code_vaddr m = base + len blob /\
        code_size m = len blob' - len blob /\
        map gecko_command (gecko_command_metadata m) = inserts /\
        Forall (fun cm => cmd_size cm = len (value (gecko_command cm)) /\
                          cmd_status cm = status_of c)
               (gecko_command_metadata m)
  end.
Proof.
  unfold relocate_code. intros Hrun.
  bind_inv Hrun. bind_inv Hrun. clear E0. bind_inv Hrun.
  destruct a1 as [[d1 frag] cmd_md].
  pose proof (relocate_commands_extend _ _ _ _ _ _ _ _ _ _ E0)
    as (bs & ms & Hfrag & Hms & Hempty).
  apply relocate_commands_record in E0 as (ms' & Hms' & Hcmds & Hall).
  simpl in Hfrag, Hms, Hms'. subst frag. subst cmd_md. subst ms'.
  injection Hrun as _ <- <- <-.
  destruct ms as [| m ms].
  - simpl in Hcmds. rewrite <- Hcmds. rewrite Hempty by reflexivity.
    rewrite app_nil_r. auto.
  - rewrite <- Hcmds. cbn [map].
    eexists. split; [reflexivity |]. cbn.
    rewrite len_app. repeat split; try assumption; try lia.
Qed.

End RelocationFrame.

(** * Further properties: the tool chain *)

Lemma sh_bind_ret_l {A B : Type} (a : A) (k : A -> sh B) :
  sh_bind (sh_ret a) k = k a.
Proof. unfold sh_bind, sh_ret. destruct (k a). reflexivity. Qed.

Lemma sh_bind_eval {A B : Type} (m : sh A) (k : A -> sh B) tr1 a tr2 r :
  m = (tr1, Ok a) -> k a = (tr2, r) -> sh_bind m k = (tr1 ++ tr2, r).
Proof. intros -> Hk. unfold sh_bind. rewrite Hk. reflexivity. Qed.

Lemma sh_bind_assoc {A B C : Type} (m : sh A) (f : A -> sh B) (g : B -> sh C) :
  sh_bind (sh_bind m f) g = sh_bind m (fun a => sh_bind (f a) g).
Proof.
  unfold sh_bind. destruct m as [tr [a | e]]; [| reflexivity].
  destruct (f a) as [tr1 [b | e1]]; [| reflexivity].
  destruct (g b) as [tr2 r]. rewrite app_assoc. reflexivity.
Qed.

Lemma sh_bind_ext {A B : Type} (m : sh A) (k k' : A -> sh B) :
  (forall a, k a = k' a) -> sh_bind m k = sh_bind m k'.
Proof.
  intros Hk. unfold sh_bind. destruct m as [tr [a | e]]; [| reflexivity].
  rewrite Hk. reflexivity.
Qed.

Lemma calls_app (tr1 tr2 : list action) : calls (tr1 ++ tr2) = calls tr1 ++ calls tr2.
Proof. unfold calls. apply flat_map_app. Qed.

Lemma set_obj_files_id (s : BuildSettings) : set_obj_files s (obj_files s) = s.
Proof. destruct s. reflexivity. Qed.

Lemma set_obj_files_twice (s : BuildSettings) (l l' : list (string * bool)) :
  set_obj_files (set_obj_files s l) l' = set_obj_files s l'.
Proof. reflexivity. Qed.

Section ToolChainProperties.
Context {HO : Host}.

Lemma calls_run_tool (verbose : bool) (args : list string) :
  calls (fst (run_tool verbose args)) = [args].
Proof. unfold run_tool. destruct verbose; reflexivity. Qed.

(** A loop of compile steps on a host where every tool runs: one call per
    file, in order, and one object recorded per file. *)
Lemma compile_loop
    (step : BuildSettings -> source_file -> sh (BuildSettings * bool))
    (argsf : BuildSettings -> source_file -> list string) (verbose : bool) :
  (forall a, subprocess_call a = Ok tt) ->
  (forall s f, step s f =
               let+ _ := run_tool verbose (argsf s f) in
               sh_ret (set_obj_files s (obj_files s ++ [object_of f]), true)) ->
  (forall s l f, argsf (set_obj_files s l) f = argsf s f) ->
  forall files s b,
  exists tr,
    sh_fold (built_step step) (s, b) files
      = (tr, Ok (set_obj_files s (obj_files s ++ map object_of files),
                 b || negb (bool_decide (files = [])))) /\
    calls tr = map (argsf s) files.
Proof.
  intros Hcall Hstep Hargs files.
  induction files as [| f files IH]; intros s b; cbn [sh_fold map].
  - exists []. rewrite app_nil_r, set_obj_files_id, orb_false_r. split; reflexivity.
  - destruct (IH (set_obj_files s (obj_files s ++ [object_of f])) (b || true))
      as (tr & Hrun & Hcalls).
    exists (fst (run_tool verbose (argsf s f)) ++ tr). split.
    + apply sh_bind_eval with (a := (set_obj_files s (obj_files s ++ [object_of f]), b || true)).
      * unfold built_step. cbn [fst snd]. rewrite Hstep.
        unfold run_tool. rewrite Hcall. unfold sh_bind, sh_ret.
        rewrite !app_nil_r. reflexivity.
      * rewrite Hrun. cbn [obj_files set_obj_files]. rewrite set_obj_files_twice.
        rewrite <- app_assoc. cbn [app].
        replace (bool_decide (f :: files = [])) with false
          by (symmetry; apply bool_decide_eq_false_2; intros Hd; discriminate Hd).
        cbn [negb]. rewrite !orb_true_r. reflexivity.
    + rewrite calls_app, calls_run_tool, Hcalls.
      cbn [app]. f_equal. apply map_ext. intros f'. apply Hargs.
Qed.

(** X12.  Without any source file, [__build_project] only creates the two
    directories: it runs no tool, does not link (so it does not ask for a
    base address), reads no object, leaves the compile-side members and
    the symbol table as they were, and returns [False]. *)
Theorem build_without_sources (verbose : bool) (base_addr : option Z)
    (sda_base sda2_base : pyval) (s : BuildSettings) (symbols : symbols_t) :
  c_files s = [] -> cpp_files s = [] -> asm_files s = [] ->
  makedirs ("./" +:+ src_dir s) = Ok tt ->
  makedirs ("./" +:+ obj_dir s) = Ok tt ->
  build_project_model verbose base_addr sda_base sda2_base s symbols
    = ([MakeDirs ("./" +:+ src_dir s); MakeDirs ("./" +:+ obj_dir s)],
       Ok (s, symbols, false, None)).
Proof.
  intros Hc Hcpp Hasm Hsrc Hobj. unfold build_project_model.
  rewrite Hc, Hcpp, Hasm, Hsrc, Hobj. reflexivity.
Qed.

(** The three loops of [__build_project] on a host where every tool
    runs. *)
Lemma compile_loops (verbose : bool) (s : BuildSettings) :
  (forall a, subprocess_call a = Ok tt) ->
  exists tr,
    (let+ st := sh_fold (built_step (compile verbose)) (s, false) (c_files s) in
     let+ st := sh_fold (built_step (compileplusplus verbose)) st (cpp_files s) in
     sh_fold (built_step (assemble verbose)) st (asm_files s))
    = (tr,
       Ok (set_obj_files s
             (obj_files s
              ++ map object_of (c_files s ++ cpp_files s ++ asm_files s)),
           negb (bool_decide (c_files s ++ cpp_files s ++ asm_files s = [])))) /\
    calls tr = map (compile_args s) (c_files s)
               ++ map (compileplusplus_args s) (cpp_files s)
               ++ map (assemble_args s) (asm_files s).
Proof.
  intros Hcall.
  destruct (compile_loop (compile verbose) compile_args verbose Hcall
              ltac:(reflexivity) ltac:(reflexivity) (c_files s) s false)
    as (tr1 & H1 & C1).
  match type of H1 with
  | _ = (_, Ok (?st, ?b)) =>
      destruct (compile_loop (compileplusplus verbose) compileplusplus_args
                  verbose Hcall ltac:(reflexivity) ltac:(reflexivity)
                  (cpp_files s) st b) as (tr2 & H2 & C2)
  end.
  match type of H2 with
  | _ = (_, Ok (?st, ?b)) =>
      destruct (compile_loop (assemble verbose) assemble_args
                  verbose Hcall ltac:(reflexivity) ltac:(reflexivity)
                  (asm_files s) st b) as (tr3 & H3 & C3)
  end.
  exists (tr1 ++ tr2 ++ tr3). split.
  - eapply sh_bind_eval; [exact H1 |].
    eapply sh_bind_eval; [exact H2 |].
    rewrite H3. f_equal. f_equal. f_equal.
    + rewrite !set_obj_files_twice. cbn [obj_files set_obj_files].
      rewrite !map_app, <- !app_assoc. reflexivity.
    + destruct (c_files s), (cpp_files s), (asm_files s); reflexivity.
  - rewrite !calls_app, C1, C2, C3. reflexivity.
Qed.

(** [__build_project] with its three loops taken together. *)
Lemma build_project_model_loops (verbose : bool) (base_addr : option Z)
    (sda_base sda2_base : pyval) (s : BuildSettings) (symbols : symbols_t) :
  build_project_model verbose base_addr sda_base sda2_base s symbols =
    let+ _ := ([MakeDirs ("./" +:+ src_dir s)], makedirs ("./" +:+ src_dir s)) in
    let+ _ := ([MakeDirs ("./" +:+ obj_dir s)], makedirs ("./" +:+ obj_dir s)) in
    let+ '(s, is_built) :=
      (let+ st := sh_fold (built_step (compile verbose)) (s, false) (c_files s) in
       let+ st := sh_fold (built_step (compileplusplus verbose)) st (cpp_files s) in
       sh_fold (built_step (assemble verbose)) st (asm_files s)) in
    let+ is_linked :=
      if is_built
      then let+ r := link_project verbose base_addr s in sh_ret (false || r)
      else sh_ret false in
    if is_linked
    then
      let+ '(bin, symbols', r) :=
        process_project base_addr sda_base sda2_base s symbols in
      sh_ret (s, symbols', false || r, Some bin)
    else sh_ret (s, symbols, false, None).
Proof.
  unfold build_project_model.
  apply sh_bind_ext. intros _. apply sh_bind_ext. intros _.
  rewrite sh_bind_assoc. apply sh_bind_ext. intros st.
  rewrite sh_bind_assoc. reflexivity.
Qed.

(** X13.  With at least one source file and no base address,
    [__build_project] raises the [RuntimeError] of [__link_project], and
    it does so only after it has run the compiler or assembler on every
    source file: the calls made are exactly the compile commands, in the
    order C, C++, assembly, and no link command. *)
Theorem build_needs_base_after_compiling (verbose : bool)
    (sda_base sda2_base : pyval) (s : BuildSettings) (symbols : symbols_t) :
  c_files s ++ cpp_files s ++ asm_files s <> [] ->
  (forall p, makedirs p = Ok tt) ->
  (forall a, subprocess_call a = Ok tt) ->
  exists tr,
    build_project_model verbose None sda_base sda2_base s symbols
      = (tr, Raise (RuntimeError base_error)) /\
    calls tr = map (compile_args s) (c_files s)
               ++ map (compileplusplus_args s) (cpp_files s)
               ++ map (assemble_args s) (asm_files s).
Proof.
  intros Hsrc Hdirs Hcall.
  destruct (compile_loops verbose s Hcall) as (tr & Hrun & Hcalls).
  exists ([MakeDirs ("./" +:+ src_dir s)] ++ [MakeDirs ("./" +:+ obj_dir s)]
          ++ tr ++ []).
  split.
  - rewrite build_project_model_loops, !Hdirs.
    eapply sh_bind_eval; [reflexivity |].
    eapply sh_bind_eval; [reflexivity |].
    eapply sh_bind_eval; [exact Hrun |].
    case_bool_decide; [contradiction |]. reflexivity.
  - rewrite app_nil_r. cbn [app calls flat_map]. exact Hcalls.
Qed.

End ToolChainProperties.

Section BuildCommands.
Context {HO : Host}.

(** X14.  With at least one source file and a base address, on a host
    where every tool runs and the linked object is read, [__build_project]
    returns [True]: it calls the compiler for each C file, then for each
    C++ file, then the assembler for each assembly file, and last the
    linker; it appends one object per source file to [self.obj_files], in
    that order, on top of what the list already held.  With the DevkitPPC
    linker the link command is the linker, [-o], the output path and the
    linker flags: it names none of the recorded objects. *)
Theorem build_runs_tools_in_order (verbose : bool) (base : Z)
    (sda_base sda2_base : pyval) (s : BuildSettings) (symbols symbols' : symbols_t)
    (bin : list byte) :
  let s' := set_obj_files s
              (obj_files s
               ++ map object_of (c_files s ++ cpp_files s ++ asm_files s)) in
  c_files s ++ cpp_files s ++ asm_files s <> [] ->
  (forall p, makedirs p = Ok tt) ->
  (forall a, subprocess_call a = Ok tt) ->
  process_project (Some base) sda_base sda2_base s' symbols
    = ([], Ok (bin, symbols', true)) ->
  exists tr,
    build_project_model verbose (Some base) sda_base sda2_base s symbols
      = (tr, Ok (s', symbols', true, Some bin)) /\
    calls tr = map (compile_args s) (c_files s)
               ++ map (compileplusplus_args s) (cpp_files s)
               ++ map (assemble_args s) (asm_files s)
               ++ [link_args s'] /\
    (linker s = Linker.DevkitPPC ->
     link_args s' =
       [devkitppc_path s +:+ "powerpc-eabi-ld"; "-o"%string;
        obj_dir s +:+ project_name s +:+ ".o"] ++ linker_flags s).
Proof.
  intros s' Hsrc Hdirs Hcall Hproc.
  destruct (compile_loops verbose s Hcall) as (tr & Hrun & Hcalls).
  fold s' in Hrun.
  exists ([MakeDirs ("./" +:+ src_dir s)] ++ [MakeDirs ("./" +:+ obj_dir s)]
          ++ tr ++ fst (run_tool verbose (link_args s')) ++ []).
  split; [| split].
  - rewrite build_project_model_loops, !Hdirs.
    eapply sh_bind_eval; [reflexivity |].
    eapply sh_bind_eval; [reflexivity |].
    eapply sh_bind_eval; [exact Hrun |].
    case_bool_decide; [contradiction |]. cbn [negb].
    eapply sh_bind_eval.
    + unfold link_project, run_tool. rewrite Hcall.
      unfold sh_bind, sh_ret. rewrite !app_nil_r. reflexivity.
    + cbn [orb]. rewrite Hproc. reflexivity.
  - rewrite !calls_app, calls_run_tool, Hcalls. cbn [calls flat_map app].
    rewrite <- !app_assoc. reflexivity.
  - intros Hld. unfold link_args. subst s'. cbn [linker set_obj_files].
    rewrite Hld. reflexivity.
Qed.

End BuildCommands.

(** * Further properties: the linked object *)

Lemma add_symbol_lookup (symbols : symbols_t) (sym : Elf.symbol) (n : string) :
  add_symbol symbols sym !! n =
    if String.eqb (Elf.name sym) n && negb (String.eqb (Elf.bind sym) "STB_LOCAL")
    then Some (mkSymbol (PyInt (Elf.st_value sym)))
    else symbols !! n.
Proof.
  unfold add_symbol.
  destruct (String.eqb (Elf.bind sym) "STB_LOCAL").
  - rewrite andb_false_r. reflexivity.
  - rewrite andb_true_r.
    destruct (String.eqb_spec (Elf.name sym) n) as [-> | Hne].
    + apply lookup_insert_eq.
    + apply lookup_insert_ne. exact Hne.
Qed.

Lemma fold_add_symbol_lookup (symtab : list Elf.symbol) (symbols : symbols_t)
    (n : string) :
  fold_left add_symbol symtab symbols !! n =
    match last_global n symtab with
    | Some sym => Some (mkSymbol (PyInt (Elf.st_value sym)))
    | None => symbols !! n
    end.
Proof.
  unfold last_global.
  induction symtab as [| sym symtab IH] using rev_ind; [reflexivity |].
  rewrite fold_left_app, rev_app_distr. cbn [fold_left rev app find].
  rewrite add_symbol_lookup.
  destruct (String.eqb (Elf.name sym) n
            && negb (String.eqb (Elf.bind sym) "STB_LOCAL")).
  - reflexivity.
  - exact IH.
Qed.

(** X15.  After [__process_project] the symbol table holds [_SDA_BASE_]
    and [_SDA2_BASE_] with the bases of the project (be they [None]),
    whatever the linked object defines under these names.  Under any other
    name it holds the last symbol of the object with that name that is not
    bound locally; when the object has none, the entry the table held
    before is kept, so local symbols never enter the table and symbols of
    earlier builds stay in it. *)
Theorem process_symbols_lookup (sda_base sda2_base : pyval) (symbols : symbols_t)
    (symtab : list Elf.symbol) :
  process_symbols sda_base sda2_base symbols symtab !! "_SDA_BASE_"%string
    = Some (mkSymbol sda_base) /\
  process_symbols sda_base sda2_base symbols symtab !! "_SDA2_BASE_"%string
    = Some (mkSymbol sda2_base) /\
  forall n : string,
    n <> "_SDA_BASE_"%string -> n <> "_SDA2_BASE_"%string ->
    process_symbols sda_base sda2_base symbols symtab !! n =
      match last_global n symtab with
      | Some sym => Some (mkSymbol (PyInt (Elf.st_value sym)))
      | None => symbols !! n
      end.
Proof.
  unfold process_symbols, symbols_t in *. split; [| split].
  - rewrite lookup_insert_ne by discriminate. apply lookup_insert_eq.
  - apply lookup_insert_eq.
  - intros n H1 H2.
    rewrite !lookup_insert_ne by congruence.
    apply fold_add_symbol_lookup.
Qed.

Lemma process_symbols_base_entries (sda_base sda2_base : pyval)
    (symbols : symbols_t) (symtab : list Elf.symbol) :
  process_symbols sda_base sda2_base symbols symtab !! "_SDA_BASE_"%string
    = Some (mkSymbol sda_base) /\
  process_symbols sda_base sda2_base symbols symtab !! "_SDA2_BASE_"%string
    = Some (mkSymbol sda2_base).
Proof.
  unfold process_symbols, symbols_t in *. split.
  - rewrite lookup_insert_ne by discriminate. apply lookup_insert_eq.
  - apply lookup_insert_eq.
Qed.

Section SdaAfterBuild.
Context {dol : Type} {DF : DolFile dol} {DT : DolTools dol} {RT : Runtime}.

(** X16.  A project whose small-data-area base was never set cannot
    resolve a hook with the matching modifier against the symbol table of a
    build: whenever the symbol of an Immediate16 or Immediate12 hook with
    [@sda] (or [@sda2]) is in the table that [__process_project] leaves,
    [resolve] raises [RuntimeError], never [KeyError], because the base
    entry is always there and holds [None]. *)
Theorem sda_hook_needs_bases (h : Hook) (s modifier : string)
    (sda_base sda2_base : pyval) (symbols : symbols_t)
    (symtab : list Elf.symbol) (e : Symbol) :
  (modifier = "@sda"%string /\ sda_base = PyNone) \/
  (modifier = "@sda2"%string /\ sda2_base = PyNone) ->
  (kind h = KImmediate16 s modifier \/
   exists w i, kind h = KImmediate12 w i s modifier) ->
  process_symbols sda_base sda2_base symbols symtab !! s = Some e ->
  exists msg,
    resolve h (process_symbols sda_base sda2_base symbols symtab)
      = raise (RuntimeError msg).
Proof.
  intros Hmod Hkind Hs.
  destruct (process_symbols_base_entries sda_base sda2_base symbols symtab)
    as [Hb1 Hb2].
  exists (if String.eqb modifier "@sda" then sda_error else sda2_error).
  assert (Hv : modifier_value (data h)
                 (process_symbols sda_base sda2_base symbols symtab) e modifier
               = raise (RuntimeError
                          (if String.eqb modifier "@sda" then sda_error
                           else sda2_error))).
  { destruct Hmod as [[-> ->] | [-> ->]].
    - rewrite (modifier_value_sda _ _ _ (mkSymbol PyNone) "@sda" "_SDA_BASE_")
        by (auto; exact Hb1). reflexivity.
    - rewrite (modifier_value_sda _ _ _ (mkSymbol PyNone) "@sda2" "_SDA2_BASE_")
        by (auto; exact Hb2). reflexivity. }
  unfold resolve.
  destruct Hkind as [Hk | (w & i & Hk)]; rewrite Hk, Hs, Hv; reflexivity.
Qed.

End SdaAfterBuild.

Lemma write_sections_app (base_addr : option Z) (bin : list byte)
    (l1 l2 : list Elf.section) :
  write_sections base_addr bin (l1 ++ l2) =
    match write_sections base_addr bin l1 with
    | Ok bin' => write_sections base_addr bin' l2
    | Raise e => Raise e
    end.
Proof.
  revert bin. induction l1 as [| s l1 IH]; intros bin; cbn [write_sections app].
  - reflexivity.
  - destruct (write_section base_addr bin s); [apply IH | reflexivity].
Qed.

(** Writing at a position: the bytes written are read back there, and the
    file is as long as it was or ends with the bytes written. *)
Lemma write_at_read_back (content : list byte) (pos : Z) (data : list byte) :
  0 <= pos -> data <> [] ->
  take (length data) (drop (Z.to_nat pos) (write_at content pos data)) = data /\
  len (write_at content pos data) = Z.max (len content) (pos + len data) /\
  take (Z.to_nat pos) (write_at content pos data)
    = take (Z.to_nat pos)
        (content ++ replicate (Z.to_nat (pos - len content)) x00).
Proof.
  intros Hpos Hdata. unfold write_at.
  destruct data as [| x data]; [contradiction |].
  set (new := x :: data) in *.
  set (head := take (Z.to_nat pos) content
               ++ replicate (Z.to_nat (pos - len content)) x00).
  assert (Hhead : length head = Z.to_nat pos).
  { subst head. rewrite length_app, length_take, length_replicate.
    unfold len. lia. }
  rewrite (app_assoc (take _ content)). fold head.
  split; [| split].
  - rewrite <- Hhead, drop_app_length. apply take_app_length.
  - rewrite !len_app. unfold len in *. rewrite Hhead, length_drop. lia.
  - rewrite <- Hhead at 1. rewrite take_app_length. subst head.
    destruct (Z.le_gt_cases pos (len content)) as [Hle | Hgt].
    + replace (Z.to_nat (pos - len content)) with 0%nat by lia.
      simpl. rewrite !app_nil_r. reflexivity.
    + unfold len in *. rewrite take_ge by lia.
      rewrite take_app_ge by lia. rewrite take_ge; [reflexivity |].
      rewrite length_replicate. lia.
Qed.

(** X17.  [__process_project] lays the [.bin] file out relative to the
    base address: after the allocated section processed last, with data
    that is not empty and an address at or above the base address, the
    file holds that data at the offset of the section from the base
    address, whatever earlier sections wrote there; the file is as long as
    before or ends with that data, and below the offset it is what it was,
    with zero bytes filling a gap up to the offset. *)
Theorem last_section_in_bin (base : Z) (earlier : list Elf.section)
    (s : Elf.section) (bin0 : list byte) :
  let off := Elf.sh_addr s - base in
  write_sections (Some base) [] earlier = Ok bin0 ->
  Z.land (Elf.sh_flags s) 2 <> 0 ->
  0 <= off ->
  Elf.data s <> [] ->
  exists bin,
    write_sections (Some base) [] (earlier ++ [s]) = Ok bin /\
    take (length (Elf.data s)) (drop (Z.to_nat off) bin) = Elf.data s /\
    len bin = Z.max (len bin0) (off + len (Elf.data s)) /\
    take (Z.to_nat off) bin
      = take (Z.to_nat off) (bin0 ++ replicate (Z.to_nat (off - len bin0)) x00).
Proof.
  intros off Hpre Halloc Hoff Hdata.
  exists (write_at bin0 off (Elf.data s)). split.
  - rewrite write_sections_app, Hpre. cbn [write_sections].
    unfold write_section.
    destruct (Z.eqb_spec (Z.land (Elf.sh_flags s) 2) 0); [contradiction |].
    fold off. destruct (Z.ltb_spec off 0); [lia | reflexivity].
  - apply write_at_read_back; assumption.
Qed.

(** A section without [SHF_ALLOC] leaves the [.bin] file alone. *)
Lemma unallocated_section_skipped (base_addr : option Z) (bin : list byte)
    (s : Elf.section) :
  Z.land (Elf.sh_flags s) 2 = 0 ->
  write_section base_addr bin s = Ok bin.
Proof. intros H0. unfold write_section. rewrite H0. reflexivity. Qed.

(** * Further properties of [build_dol] *)

Section BuildInvariants.
Context {dol : Type} {DF : DolFile dol} {DT : DolTools dol} {RT : Runtime}
        {GL : GeckoLib dol} {TC : Toolchain dol}.

Lemma choose_base_addr_configured (b base : Z) (d : dol) (out : list event) :
  choose_base_addr (Some b) d = (out, Ok base) -> base = b.
Proof.
  unfold choose_base_addr. rewrite bind_ret_l. intros Hrun.
  bind_inv Hrun. injection Hrun as _ <-. reflexivity.
Qed.

Lemma apply_dol_hook (h h' : Hook) (d d' : dol) (out : list event) :
  apply_dol h d = (out, Ok (h', d')) -> h' = h \/ h' = set_good h.
Proof.
  unfold apply_dol.
  destruct (kind h);
    (destruct (truthy (data h)); cbn [andb]);
    (destruct (is_mapped d (addr h)); cbn [andb]);
    intros Hrun;
    try (injection Hrun as _ <- _; left; reflexivity);
    repeat bind_inv Hrun;
    injection Hrun as _ <- _; right; reflexivity.
Qed.

Lemma apply_hooks_identity (verbose : bool) (symbols : symbols_t)
    (l done done' : list Hook) (d d' : dol) (out : list event) :
  foldM (apply_hook verbose symbols) (done, d) l = (out, Ok (done', d')) ->
  map addr done' = map addr done ++ map addr l /\
  map kind done' = map kind done ++ map kind l.
Proof.
  revert done d out. induction l as [| h l IH]; intros done d out; cbn [foldM].
  - intros [= <- <- <-]. rewrite !app_nil_r. auto.
  - intros Hrun. bind_inv Hrun. destruct a as [done1 d1].
    apply IH in Hrun as [Ha Hk]. rewrite Ha, Hk. clear Ha Hk IH.
    unfold apply_hook in E.
    bind_inv E. bind_inv E. destruct a0 as [h2 d2].
    bind_inv E. injection E as <- <-.
    apply resolve_sets_data in E0. apply apply_dol_hook in E1.
    assert (Hsame : addr h2 = addr h /\ kind h2 = kind h).
    { destruct E1 as [-> | ->]; rewrite E0; auto. }
    destruct Hsame as [Ha Hk].
    rewrite !map_app. cbn [map]. rewrite Ha, Hk, <- !app_assoc. auto.
Qed.

(** X18.  A call of [build_dol] that returns leaves the verbosity, the
    small-data-area bases, the code table and the arena patcher of the
    project as they were.  The base address is set afterwards, and it is
    the configured one when one was configured.  The hooks are the same in
    number and order, each with the address and variant it had.  The
    records of relocated code are added after those the project already
    held, which are kept. *)
Theorem build_dol_keeps_configuration (p p' : Project dol) (d d' : dol)
    (out : list event) :
  build_dol p d = (out, Ok (p', d')) ->
  verbose p' = verbose p /\
  sda_base p' = sda_base p /\ sda2_base p' = sda2_base p /\
  gecko_codetable p' = gecko_codetable p /\
  osarena_patcher p' = osarena_patcher p /\
  (exists base, base_addr p' = Some base /\
                (forall b, base_addr p = Some b -> base = b)) /\
  map addr (hooks p') = map addr (hooks p) /\
  map kind (hooks p') = map kind (hooks p) /\
  exists new, gecko_code_metadata p' = gecko_code_metadata p ++ new.
Proof.
  intros Hrun.
  apply build_dol_stages in Hrun
    as (base & symbols' & built & d1 & blob & md & d2 & hooks' & d3
        & o1 & o2 & o3 & o4 & Hbase & _ & Hreloc & _ & Hhooks & _ & -> & _).
  apply relocate_codes_extend in Hreloc as (frags & new & _ & -> & _ & _).
  apply apply_hooks_identity in Hhooks as [Ha Hk].
  cbn. repeat split; try assumption.
  - exists base. split; [reflexivity |].
    intros b Hb. rewrite Hb in Hbase.
    apply choose_base_addr_configured in Hbase. exact Hbase.
  - exists new. reflexivity.
Qed.

(** Relocating a code table none of whose entries holds an inline-assembly
    command. *)
Lemma relocate_codetable_skip (base : Z) (codes : list GeckoCode) (d : dol)
    (blob : list byte) (md : list code_metadata) :
  Forall (fun c => forallb (fun cmd => negb (is_asm_insert (codetype cmd)))
                           (commands c) = true) codes ->
  exists out,
    relocate_codetable base blob md codes d = (out, Ok (d, blob, md)).
Proof.
  unfold relocate_codetable.
  induction 1 as [| c codes Hc _ IH]; cbn [foldM].
  - exists []. reflexivity.
  - destruct IH as [out2 IH].
    assert (H1 : exists out1,
               relocate_code base (d, blob, md) c = (out1, Ok (d, blob, md))).
    { unfold relocate_code.
      rewrite relocate_commands_skip by exact Hc.
      rewrite bind_ret_l, app_nil_r. unfold bind, print, ret.
      destruct (String.eqb (status_of c) "OMITTED"); eexists; reflexivity. }
    destruct H1 as [out1 H1]. exists (out1 ++ out2).
    apply (bind_eval _ _ _ _ _ _ H1). exact IH.
Qed.

(** X19.  When the tool chain builds nothing and no entry of the code
    table holds an inline-assembly command, the blob is empty and a call of
    [build_dol] that returns has appended no section: the image saved is
    the image that [GeckoCodeTable.apply] and then the hooks, resolved
    against the symbol table the tool chain left, produced from the base
    image; [append_section] and the arena patcher are not called, and no
    record of relocated code is added. *)
Theorem build_dol_without_blob (p p' : Project dol) (d d' : dol)
    (out : list event) :
  (forall q, build_project q = Ok (symbols q, None)) ->
  Forall (fun c => forallb (fun cmd => negb (is_asm_insert (codetype cmd)))
                           (commands c) = true) (gecko_codetable p) ->
  build_dol p d = (out, Ok (p', d')) ->
  gecko_code_metadata p' = gecko_code_metadata p /\
  exists d2 o3,
    codetable_apply (gecko_codetable p) d = Ok d2 /\
    foldM (apply_hook (verbose p) (symbols p)) ([], d2) (hooks p)
      = (o3, Ok (hooks p', d')).
Proof.
  intros Hbuild Hcodes Hrun.
  apply build_dol_stages in Hrun
    as (base & symbols' & built & d1 & blob & md & d2 & hooks' & d3
        & o1 & o2 & o3 & o4 & _ & Hb & Hreloc & Happly & Hhooks & Happend
        & -> & _).
  rewrite Hbuild in Hb. cbn [symbols] in Hb. injection Hb as <- <-.
  destruct (relocate_codetable_skip base (gecko_codetable p) d (initial_blob None)
              (gecko_code_metadata p) Hcodes) as [o2' Hskip].
  rewrite Hskip in Hreloc. injection Hreloc as _ <- <- <-.
  unfold append_blob, initial_blob in Happend. cbn in Happend.
  injection Happend as _ <-.
  split; [reflexivity |]. exists d2, o3. split; assumption.
Qed.

End BuildInvariants.

Section RomEnd.
Context {dol : Type} {DF : DolFile dol}.

(** X20.  When the base address was computed from the end of the image
    and the blob becomes a new section at that address, [find_rom_end] of
    the new image is the base address plus the length of the blob: the
    appended section is the highest one. *)
Theorem rom_end_after_append (d d' : dol) (base : Z) (blob : list byte)
    (out : list event) :
  find_rom_end d <= 0xFFFFFFE0 ->
  choose_base_addr None d = (out, Ok base) ->
  sections d' = sections d ++ [mkSection base (len blob)] ->
  find_rom_end d' = base + len blob.
Proof.
  intros Hmax Hbase Hsec.
  rewrite choose_base_addr_auto in Hbase. injection Hbase as _ <-.
  pose proof (find_rom_end_spec d) as (Hlow & _ & _).
  destruct (align32_bounds (find_rom_end d)) as [_ Hrange]; [lia |].
  unfold find_rom_end at 1. rewrite Hsec, fold_left_app.
  fold (find_rom_end d). cbn [fold_left]. unfold rom_step. cbn [address size].
  assert (0 <= len blob) by (unfold len; lia).
  destruct (Z.ltb_spec (find_rom_end d)
              (Z.land (find_rom_end d + 31) 0xFFFFFFE0 + len blob)); lia.
Qed.

End RomEnd.

(** * Further properties: [build_gecko] *)

Lemma script_codes (codes : list GeckoCode) (f : list gecko_line) :
  exists out,
    foldM script_code f codes =
      (out,
       Ok (f ++ flat_map (fun c => [CodeTitle (name c); CodeText c])
                         (filter (fun c => is_enabled c = true) codes))).
Proof.
  revert f. induction codes as [| c codes IH]; intros f; cbn [foldM].
  - exists []. rewrite app_nil_r. reflexivity.
  - unfold script_code at 1. rewrite filter_cons.
    destruct (is_enabled c).
    + destruct (IH (f ++ [CodeTitle (name c); CodeText c])) as [out Hrun].
      eexists. unfold bind at 1. cbn [print bind ret].
      rewrite Hrun, decide_True by reflexivity.
      apply f_equal2; [reflexivity |]. apply f_equal.
      cbn [flat_map]. rewrite <- app_assoc. reflexivity.
    + destruct (IH f) as [out Hrun].
      eexists. unfold bind at 1. cbn [print bind ret].
      rewrite Hrun, decide_False by discriminate. reflexivity.
Qed.

Lemma write_geckocommand_cases (h : Hook) :
  (writes_command h = false /\ write_geckocommand h [] = (h, [])) \/
  exists line,
    writes_command h = true /\
    write_geckocommand h [] = (set_good h, [line]) /\
    line_address line = addr h /\ line_value line = data h.
Proof.
  unfold write_geckocommand, writes_command, referenced_name.
  destruct (kind h); destruct (truthy (data h));
    solve [ left; split; reflexivity
          | right; eexists; split; [reflexivity |];
            split; [reflexivity | split; reflexivity] ].
Qed.

Section GeckoScript.
Context {dol : Type} {DT : DolTools dol} {RT : Runtime} {TC : Toolchain dol}.

(** The loop over the hooks of lines 510-514: every hook is resolved, in
    order, and what [write_geckocommand] writes for the resolved hook is
    appended to the script. *)
Lemma script_hooks (verbose : bool) (symbols : symbols_t) (l done done' : list Hook)
    (f f' : list gecko_line) (out : list event) :
  foldM (script_hook verbose symbols) (done, f) l = (out, Ok (done', f')) ->
  exists resolved,
    Forall2 (fun h r => exists o, resolve h symbols = (o, Ok r)) l resolved /\
    done' = done ++ map (fun r => fst (write_geckocommand r [])) resolved /\
    f' = f ++ map HookCommand
                (flat_map (fun r => snd (write_geckocommand r [])) resolved).
Proof.
  revert done f out. induction l as [| h l IH]; intros done f out; cbn [foldM].
  - intros [= <- <- <-]. exists []. rewrite !app_nil_r.
    split; [constructor | split; reflexivity].
  - intros Hrun. bind_inv Hrun. destruct a as [done1 f1].
    apply IH in Hrun as (resolved & Hall & -> & ->). clear IH.
    unfold script_hook in E. bind_inv E.
    destruct (write_geckocommand a []) as [h1 written] eqn:Hw.
    bind_inv E. injection E as Hd Hf. subst done1 f1.
    exists (a :: resolved). cbn [map flat_map]. rewrite Hw. cbn [fst snd].
    rewrite map_app, <- !app_assoc.
    split; [| split; reflexivity].
    constructor; [| exact Hall]. eexists. eassumption.
Qed.

(** The commands of resolved hooks: one for each hook that writes one, in
    the order of the hooks, with the address and the payload of the
    hook. *)
Lemma script_commands (resolved : list Hook) :
  map (fun c => (line_address c, line_value c))
      (flat_map (fun r => snd (write_geckocommand r [])) resolved)
  = map (fun r => (addr r, data r))
        (filter (fun r => writes_command r = true) resolved) /\
  Forall (fun c => exists h,
              h ∈ map (fun r => fst (write_geckocommand r [])) resolved /\
              good h = true /\
              line_address c = addr h /\ line_value c = data h)
         (flat_map (fun r => snd (write_geckocommand r [])) resolved).
Proof.
  induction resolved as [| r resolved [IHm IHf]]; cbn [flat_map map].
  - split; [reflexivity | constructor].
  - rewrite filter_cons.
    destruct (write_geckocommand_cases r) as [[Hno Hw] | (line & Hyes & Hw & Ha & Hv)];
      rewrite Hw; cbn [fst snd app map].
    + rewrite decide_False by (rewrite Hno; discriminate).
      split; [exact IHm |].
      eapply Forall_impl; [exact IHf |].
      intros c (h & Hin & Hrest). exists h. split; [right; exact Hin | exact Hrest].
    + rewrite decide_True by exact Hyes. cbn [map]. rewrite Ha, Hv, IHm.
      split; [reflexivity |].
      constructor.
      * exists (set_good r). split; [left | auto].
      * eapply Forall_impl; [exact IHf |].
        intros c (h & Hin & Hrest). exists h.
        split; [right; exact Hin | exact Hrest].
Qed.

(** X21.  The script that a returning [build_gecko] writes is: the header
    and the title of the project; then, in the order of the code table,
    the title and the text form of each enabled code entry, and nothing
    for a disabled one; then, only when the build produced bytes, the
    program data, which are those bytes as they are (not padded) at the
    base address of the project; then the title of the hooks and the
    commands of the hooks.  These commands are exactly what
    [write_geckocommand] writes for the hooks of the project, each
    resolved against the symbol table that the build left, in the order
    of the hooks: one command, with the address and the payload of the
    resolved hook, for each String or File hook and for each other hook
    whose payload is truthy, and none for the others.  The project keeps
    the resolved hooks, marked as applied where a command was written, so
    every command carries the address and the payload of a hook of the
    project that is marked as applied.  No code entry is relocated: the
    records of relocated code and the base address are as before. *)
Theorem gecko_script_layout (project_name : string) (p p' : Project dol)
    (lines : list gecko_line) (out : list event) :
  build_gecko project_name p = (out, Ok (p', lines)) ->
  exists symbols' built resolved cmds,
    build_project p = Ok (symbols', built) /\
    lines =
      [GeckoHeader; ProjectTitle project_name]
      ++ flat_map (fun c => [CodeTitle (name c); CodeText c])
                  (filter (fun c => is_enabled c = true) (gecko_codetable p))
      ++ match built with
         | Some (b :: bin) => [ProgramDataTitle; ProgramData (b :: bin) (base_addr p)]
         | _ => []
         end
      ++ [HooksTitle] ++ map HookCommand cmds /\
    Forall2 (fun h r => exists o, resolve h symbols' = (o, Ok r))
            (hooks p) resolved /\
    cmds = flat_map (fun r => snd (write_geckocommand r [])) resolved /\
    hooks p' = map (fun r => fst (write_geckocommand r [])) resolved /\
    map (fun c => (line_address c, line_value c)) cmds
      = map (fun r => (addr r, data r))
            (filter (fun r => writes_command r = true) resolved) /\
    Forall (fun c => exists h, h ∈ hooks p' /\ good h = true /\
                               line_address c = addr h /\ line_value c = data h)
           cmds /\
    gecko_code_metadata p' = gecko_code_metadata p /\
    base_addr p' = base_addr p.
Proof.
  unfold build_gecko. intros Hrun.
  apply bind_ok_inv in Hrun as (ob & [symbols' built] & r1 & Hbuild & Hrun & ->).
  injection Hbuild as <- Hbuild.
  apply bind_ok_inv in Hrun as (oc & f1 & r2 & Hcodes & Hrun & ->).
  destruct (script_codes (gecko_codetable p) [GeckoHeader; ProjectTitle project_name])
    as [oc' Hcodes'].
  rewrite Hcodes' in Hcodes. injection Hcodes as _ <-.
  apply bind_ok_inv in Hrun as (oh & [hooks' f2] & r3 & Hhooks & Hrun & ->).
  injection Hrun as _ <- <-.
  apply script_hooks in Hhooks as (resolved & Hres & Hadded & ->).
  cbn [app] in Hadded. subst hooks'.
  destruct (script_commands resolved) as [Hmap Hall].
  exists symbols', built, resolved,
         (flat_map (fun r => snd (write_geckocommand r [])) resolved).
  cbn [hooks gecko_code_metadata base_addr].
  split; [exact Hbuild | split].
  - destruct built as [[| b bin] |]; cbn [app]; rewrite <- ?app_assoc;
      cbn [app]; reflexivity.
  - split; [exact Hres | split; [reflexivity | split; [reflexivity |]]].
    split; [exact Hmap | split; [exact Hall | split; reflexivity]].
Qed.

End GeckoScript.

(** * Further properties: [save_map] *)

Lemma insert_by_value_perm (x : Elf.symbol) (l : list Elf.symbol) :
  Permutation (insert_by_value x l) (x :: l).
Proof.
  induction l as [| y l IH]; cbn [insert_by_value]; [reflexivity |].
  destruct (Elf.st_value x <=? Elf.st_value y); [reflexivity |].
  rewrite IH. apply perm_swap.
Qed.

Lemma insert_by_value_sorted (x : Elf.symbol) (l : list Elf.symbol) :
  Sorted Z.le (map Elf.st_value l) ->
  Sorted Z.le (map Elf.st_value (insert_by_value x l)).
Proof.
  induction l as [| y l IH]; cbn [insert_by_value map]; intros Hs.
  - repeat constructor.
  - destruct (Z.leb_spec (Elf.st_value x) (Elf.st_value y)) as [Hle | Hgt];
      cbn [map].
    + constructor; [exact Hs | constructor; exact Hle].
    + inversion Hs as [| ? ? Hs' Hhd]; subst.
      constructor; [apply IH; exact Hs' |].
      destruct l as [| z l]; cbn [insert_by_value map].
      * constructor. lia.
      * destruct (Z.leb_spec (Elf.st_value x) (Elf.st_value z)); cbn [map];
          constructor; [lia |].
        inversion Hhd; subst. assumption.
Qed.

Lemma sort_by_value_sorted (l : list Elf.symbol) :
  Sorted Z.le (map Elf.st_value (sort_by_value l)) /\
  Permutation (sort_by_value l) l.
Proof.
  unfold sort_by_value. induction l as [| x l [IHs IHp]]; cbn [fold_right].
  - split; [constructor | reflexivity].
  - split.
    + apply insert_by_value_sorted, IHs.
    + rewrite insert_by_value_perm. constructor. exact IHp.
Qed.

Lemma symbol_rows_loop_data (base : Z) (elf : Elf.file) (l : list Elf.symbol)
    (st st' : string * list map_line) :
  symbol_rows_loop (Some base) elf st l = Ok st' ->
  flat_map symbol_row_data (snd st') =
    flat_map symbol_row_data (snd st)
    ++ map (fun sym => (Elf.st_value sym - base, Elf.st_size sym,
                        Elf.st_value sym, Elf.name sym)) l.
Proof.
  revert st. induction l as [| sym l IH]; intros st; cbn [symbol_rows_loop map].
  - intros [= <-]. rewrite app_nil_r. reflexivity.
  - destruct (symbol_rows_step (Some base) elf st sym) as [st1 |] eqn:Hstep;
      [| discriminate].
    intros Hrun. rewrite (IH _ Hrun). clear IH Hrun.
    unfold symbol_rows_step in Hstep. destruct st as [curr rows].
    destruct (parent_section_name elf sym) as [parent |]; [| discriminate].
    injection Hstep as <-. cbn [snd].
    destruct (String.eqb curr parent); cbn [snd];
      rewrite !flat_map_app; cbn [flat_map symbol_row_data app];
      rewrite <- ?app_assoc; reflexivity.
Qed.

(** X22.  When the rows of the linked object are written, the rows of
    symbols are those of the symbols that are neither bound locally nor
    absolute nor undefined, each with its offset from the base address,
    its size, its address and its name; they come in ascending order of
    address, and each such symbol has exactly one row. *)
Theorem map_symbols_sorted (base : Z) (elf : Elf.file) (symtab : list Elf.symbol)
    (rows : list map_line) :
  Elf.symtab elf = Some symtab ->
  symbol_rows (Some base) elf = Ok rows ->
  exists sorted,
    flat_map symbol_row_data rows =
      map (fun sym => (Elf.st_value sym - base, Elf.st_size sym,
                       Elf.st_value sym, Elf.name sym)) sorted /\
    Sorted Z.le (map Elf.st_value sorted) /\
    Permutation sorted (filter (fun sym => listed sym = true) symtab).
Proof.
  intros Htab. unfold symbol_rows. rewrite Htab.
  set (l := filter _ symtab).
  destruct (symbol_rows_loop (Some base) elf (EmptyString, []) (sort_by_value l))
    as [[curr rows'] |] eqn:Hloop; [| discriminate].
  intros [= <-]. exists (sort_by_value l).
  apply symbol_rows_loop_data in Hloop. cbn [snd flat_map app] in Hloop.
  split; [exact Hloop | apply sort_by_value_sorted].
Qed.

Lemma gecko_rows_of_spec (base : Z) (code_name : string)
    (l : list command_metadata) (i : nat) :
  Forall (fun cm => is_asm_insert (codetype (gecko_command cm)) = true) l ->
  gecko_rows_of (Some base) code_name (Z.of_nat i) l
    = Ok (imap (fun j => gecko_row base code_name (i + j)) l).
Proof.
  intros Hall. revert i.
  induction Hall as [| cm l Hasm _ IH]; intros i; cbn [gecko_rows_of imap].
  - reflexivity.
  - rewrite Hasm.
    replace (Z.of_nat i + 1) with (Z.of_nat (S i)) by lia.
    rewrite IH. unfold gecko_row at 2. rewrite Nat.add_0_r.
    destruct (String.eqb (cmd_status cm) "OMITTED"); cbn [app];
      (f_equal; f_equal; apply imap_ext; intros j cm' _; cbn;
       f_equal; lia).
Qed.

(** X23.  With a base address, the rows that [save_map] writes for the
    records of relocated code (all of inline-assembly commands, as
    [build_dol] records them) are: nothing at all without records;
    otherwise the header of a [.text] layout and, for each entry in turn,
    one row per recorded command, numbered from 0 within the entry.  The
    row of a command with status ["OMITTED"] shows no address; the row of
    any other command, of a disabled entry too, shows its placement
    address and its offset from the base address. *)
Theorem map_gecko_rows (base : Z) (md : list code_metadata) :
  Forall (fun m => Forall (fun cm => is_asm_insert (codetype (gecko_command cm)) = true)
                          (gecko_command_metadata m)) md ->
  gecko_rows (Some base) md =
    Ok (match md with
        | [] => []
        | _ => LayoutHeader ".text"
               :: flat_map (fun m => imap (gecko_row base (name (gecko_code m)))
                                          (gecko_command_metadata m)) md
        end).
Proof.
  intros Hall.
  assert (Hloop : gecko_rows_loop (Some base) md =
                  Ok (flat_map (fun m => imap (gecko_row base (name (gecko_code m)))
                                              (gecko_command_metadata m)) md)).
  { induction Hall as [| m md Hm _ IH]; cbn [gecko_rows_loop flat_map].
    - reflexivity.
    - change 0 with (Z.of_nat 0). rewrite (gecko_rows_of_spec base _ _ 0 Hm), IH.
      reflexivity. }
  unfold gecko_rows. destruct md as [| m md]; [reflexivity |].
  rewrite Hloop. reflexivity.
Qed.

Section MapFile.
Context {HO : Host}.

(** X24.  Whenever [save_map] returns, the map ends with the fixed
    [.dummy] group and its one row at address [0x81200000].  When the
    linked object cannot be opened, the [OSError] is swallowed and the map
    consists of the rows of the relocated code followed by that group. *)
Theorem map_ends_with_dummy (base_addr : option Z) (dir project : string)
    (md : list code_metadata) (lines : list map_line) :
  save_map base_addr dir project md = Ok lines ->
  (exists front, lines = front ++ dummy_layout) /\
  (forall e, open_elf (dir +:+ project +:+ ".o") = Raise e ->
             is_os_error e = true ->
             exists grows, gecko_rows base_addr md = Ok grows /\
                           lines = grows ++ dummy_layout).
Proof.
  unfold save_map. intros Hrun. split.
  - destruct (match open_elf _ with Ok _ => _ | Raise _ => _ end) as [rows |];
      [| discriminate].
    destruct (gecko_rows base_addr md) as [grows |]; [| discriminate].
    injection Hrun as <-. exists (rows ++ grows). rewrite app_assoc. reflexivity.
  - intros e He Hos. rewrite He, Hos in Hrun.
    destruct (gecko_rows base_addr md) as [grows |]; [| discriminate].
    injection Hrun as <-. exists grows. split; reflexivity.
Qed.

End MapFile.

(** * Further properties: [cleanup] and the deprecated methods *)

Lemma try_remove_fs (fs : gset string) (path : string) :
  snd (try_remove fs path) = fs ∖ {[path]}.
Proof.
  unfold try_remove. case_decide; cbn [snd]; [reflexivity |]. set_solver.
Qed.

Lemma remove_objects_fs (dir : string) (l : list (string * bool)) (fs : gset string) :
  remove_objects dir fs l =
    fs ∖ list_to_set (map (fun o => dir +:+ fst o)
                          (filter (fun o => snd o = true) l)).
Proof.
  unfold remove_objects. revert fs.
  induction l as [| o l IH]; intros fs; cbn [fold_left].
  - cbn. set_solver.
  - rewrite IH, filter_cons. destruct (snd o).
    + rewrite decide_True by reflexivity. rewrite try_remove_fs.
      cbn [map list_to_set]. set_solver.
    + rewrite decide_False by discriminate. reflexivity.
Qed.

(** X25.  [cleanup] removes from the file system exactly the files it
    names that exist (the objects recorded with [do_cleanup], the linked
    object, the [.bin] and the [.map] file), a missing one being no error;
    it empties the list of objects, the symbol table and the records of
    relocated code; the hooks, the base address and the code table of the
    project are left as they are. *)
Theorem cleanup_effects {dol : Type} (s : BuildSettings) (p : Project dol)
    (fs : gset string) :
  let '(s', p', fs') := cleanup s p fs in
  fs' = fs ∖ cleanup_targets s /\
  obj_files s' = [] /\
  symbols p' = ∅ /\
  gecko_code_metadata p' = [] /\
  hooks p' = hooks p /\
  base_addr p' = base_addr p /\
  gecko_codetable p' = gecko_codetable p.
Proof.
  unfold cleanup. rewrite !try_remove_fs, remove_objects_fs.
  unfold cleanup_targets. cbn.
  split; [set_solver | auto 10].
Qed.

Section AfterCleanup.
Context {dol : Type} {DT : DolTools dol} {RT : Runtime}.

(** X26.  [cleanup] does not reset the hooks: a Branch, Pointer,
    Immediate16 or Immediate12 hook of the project resolved against the
    symbol table that [cleanup] leaves comes back as it is, with the
    payload and the applied flag of the build before. *)
Theorem hooks_survive_cleanup (s : BuildSettings) (p : Project dol)
    (fs : gset string) (h : Hook) (n : string) :
  h ∈ hooks p ->
  referenced_name h = Some n ->
  h ∈ hooks (snd (fst (cleanup s p fs))) /\
  resolve h (symbols (snd (fst (cleanup s p fs)))) = ret h.
Proof.
  intros Hin Hname. cbn. split; [exact Hin |].
  unfold resolve, referenced_name in *.
  destruct (kind h); inversion Hname; subst;
    unfold symbols_t; rewrite lookup_empty; reflexivity.
Qed.

(** X27.  A String hook added through the deprecated [add_string] with its
    default maximum length, which is [-1] and not [None], is never padded
    and gives a size warning for every text: it resolves to the encoded
    text and one zero byte, and prints that the text exceeds [-1] bytes.
    The same hook added through [hook_string] with its default resolves to
    the same payload without a warning. *)
Theorem add_string_default_warns (flags : list bool) (hooks : list Hook) (a : Z)
    (text enc : string) (symbols : symbols_t) (b : list byte) :
  str_encode text enc = Ok b ->
  snd (add_string flags hooks a text enc (Some (-1)))
    = hooks ++ [StringHook a text enc (Some (-1))] /\
  resolve (StringHook a text enc (Some (-1))) symbols
    = ([WarnExceeds text (-1)],
       Ok (set_data (StringHook a text enc (Some (-1))) (PyBytes (b ++ [x00])))) /\
  resolve (StringHook a text enc None) symbols
    = ([], Ok (set_data (StringHook a text enc None) (PyBytes (b ++ [x00])))).
Proof.
  intros Henc. split; [| split].
  - unfold add_string. destruct (notify flags 9 _). reflexivity.
  - unfold resolve. cbn [kind StringHook]. rewrite Henc, bind_lift_ok.
    unfold limit_payload.
    destruct (Z.ltb_spec (-1) (Z.of_nat (length (b ++ [x00])))); [reflexivity | lia].
  - unfold resolve. cbn [kind StringHook]. rewrite Henc, bind_lift_ok.
    reflexivity.
Qed.

End AfterCleanup.

(** X28.  The message of a deprecated method is printed once: of two
    calls of [branchlink] on a project that has not used it, the first
    prints the notice and the second prints nothing.  Both calls add a
    Branch hook with the link bit set, as [hook_branchlink] does, and the
    flags of the other deprecated methods are untouched. *)
Theorem branchlink_notice_once (flags : list bool) (hooks : list Hook) (a1 a2 : Z)
    (f1 f2 : string) :
  flags !! 2%nat = Some false ->
  let '(printed1, flags1, hooks1) := branchlink flags hooks a1 f1 in
  let '(printed2, flags2, hooks2) := branchlink flags1 hooks1 a2 f2 in
  printed1 = [Deprecated "branchlink" "hook_branchlink"] /\
  printed2 = [] /\
  flags2 = flags1 /\
  hooks2 = hooks ++ [BranchHook a1 f1 true; BranchHook a2 f2 true] /\
  length flags1 = length flags /\
  forall j, j <> 2%nat -> flags1 !! j = flags !! j.
Proof.
  intros Hflag. unfold branchlink, notify. rewrite Hflag.
  rewrite list_lookup_insert_eq by (apply lookup_lt_Some in Hflag; exact Hflag).
  unfold hook_branchlink, hook_branch. rewrite <- app_assoc.
  split; [reflexivity | split; [reflexivity | split; [reflexivity |]]].
  split; [reflexivity | split; [apply length_insert |]].
  intros j Hj. apply list_lookup_insert_ne. congruence.
Qed.

(** * Further properties: the end of [build_dol] *)

Section AppendBlob.
Context {dol : Type} {DF : DolFile dol}.

(** X29.  The last step of [build_dol], when it returns, prints nothing
    and: with an empty blob leaves the image as it is, calling neither
    [append_section] nor the arena patcher; with a non-empty blob appends
    one section that starts at the base address and holds the blob, a data
    section only when the text sections outnumber the maximum, and then,
    if a patcher is set, calls it on the image with the new section and
    with the end address of the blob. *)
Theorem append_blob_cases (patcher : option (dol -> Z -> result dol))
    (d d' : dol) (base : Z) (blob : list byte) (out : list event) :
  append_blob patcher d base blob = (out, Ok d') ->
  out = [] /\
  match blob with
  | [] => d' = d
  | _ =>
      exists sec d1,
        append_section d sec = Ok d1 /\
        ((sec = TextSection base blob /\
          len (textSections d) <= MaxTextSections) \/
         (sec = DataSection base blob /\
          MaxTextSections < len (textSections d) /\
          len (dataSections d) <= MaxDataSections)) /\
        match patcher with
        | Some f => f d1 (base + len blob) = Ok d'
        | None => d' = d1
        end
  end.
Proof.
  unfold append_blob. destruct blob as [| b blob].
  - cbn. intros [= <- <-]. split; reflexivity.
  - replace (0 <? len (b :: blob)) with true
      by (symmetry; apply Z.ltb_lt; unfold len; cbn [length]; lia).
    set (bl := b :: blob). unfold new_section.
    destruct (Z.leb_spec (len (textSections d)) MaxTextSections) as [Ht | Ht].
    + rewrite bind_ret_l.
      destruct (append_section d (TextSection base bl)) as [d1 |] eqn:Happ;
        [rewrite bind_lift_ok | intros [=]].
      destruct patcher as [f |].
      * unfold lift. intros [= <- Hf]. split; [reflexivity |].
        exists (TextSection base bl), d1. auto.
      * intros [= <- <-]. split; [reflexivity |].
        exists (TextSection base bl), d1. auto.
    + destruct (Z.leb_spec (len (dataSections d)) MaxDataSections) as [Hd | Hd].
      * rewrite bind_ret_l.
        destruct (append_section d (DataSection base bl)) as [d1 |] eqn:Happ;
          [rewrite bind_lift_ok | intros [=]].
        destruct patcher as [f |].
        -- unfold lift. intros [= <- Hf]. split; [reflexivity |].
           exists (DataSection base bl), d1. auto 6.
        -- intros [= <- <-]. split; [reflexivity |].
           exists (DataSection base bl), d1. auto 6.
      * intros [=].
Qed.

End AppendBlob.

(** * The further properties at sample inputs *)

Lemma apply_dol_unmapped_witness :
  apply_dol (DF := Ref.dolfile) (DT := Ref.doltools)
    (set_data (PointerHook 0x1000 "Foo") (PyInt 0x80005010)) Sample.image
    = ret (set_data (PointerHook 0x1000 "Foo") (PyInt 0x80005010), Sample.image).
Proof.
  apply (apply_dol_unmapped (DF := Ref.dolfile) (DT := Ref.doltools)).
  reflexivity.
Defined.

Lemma apply_dol_marks_only_mapped_witness :
  let h := set_data (PointerHook 0x80003008 "Foo") (PyInt 0x80005010) in
  apply_dol (DF := Ref.dolfile) (DT := Ref.doltools) h Sample.image
    = ([], Ok (set_good h, DemoProject.image_hooked)) /\
  is_mapped (DolFile := Ref.dolfile) Sample.image (addr h) = true.
Proof.
  split; [reflexivity |].
  destruct (apply_dol_marks_only_mapped (DF := Ref.dolfile) (DT := Ref.doltools)
              (set_data (PointerHook 0x80003008 "Foo") (PyInt 0x80005010))
              (set_good (set_data (PointerHook 0x80003008 "Foo") (PyInt 0x80005010)))
              Sample.image DemoProject.image_hooked [] eq_refl)
    as [_ [[Hsame _] | (_ & Hmapped & _)]].
  - discriminate Hsame.
  - exact Hmapped.
Defined.

Lemma resolve_keeps_identity_witness :
  let h := Immediate16Hook 0x80003000 "Foo" "@l" in
  let h' := set_data h (PyInt 0x5010) in
  resolve (DT := Ref.doltools) (RT := Ref.runtime) h Sample.symbols = ret h' /\
  addr h' = addr h /\ kind h' = kind h /\ good h' = good h.
Proof.
  split; [reflexivity |].
  apply (resolve_keeps_identity (DT := Ref.doltools) (RT := Ref.runtime)
           (Immediate16Hook 0x80003000 "Foo" "@l") _ Sample.symbols []).
  reflexivity.
Defined.

Lemma resolve_idempotent_witness :
  let h := Immediate12Hook 0x80003000 5 1 "Foo" "@l" in
  let h' := set_data h (PyInt 0xB010) in
  resolve (DT := Ref.doltools) (RT := Ref.runtime) h Sample.symbols = ([], Ok h') /\
  resolve (DT := Ref.doltools) (RT := Ref.runtime) h' Sample.symbols = ([], Ok h').
Proof.
  split; [reflexivity |].
  apply (resolve_idempotent (DT := Ref.doltools) (RT := Ref.runtime)
           (Immediate12Hook 0x80003000 5 1 "Foo" "@l"));
    reflexivity.
Defined.

Lemma string_payload_never_truncated_witness :
  exists pad,
    resolve (DT := Ref.doltools) (RT := Ref.runtime)
      (StringHook 0x80003000 "AB" "ascii" (Some 2)) ∅
    = ([WarnExceeds "AB" 2],
       Ok (set_data (StringHook 0x80003000 "AB" "ascii" (Some 2))
             (PyBytes ([x41; x42] ++ [x00] ++ replicate pad x00)))) /\
    len ([x41; x42] ++ [x00] ++ replicate pad x00) = 3.
Proof.
  apply (string_payload_never_truncated (DT := Ref.doltools) (RT := Ref.runtime)
           (StringHook 0x80003000 "AB" "ascii" (Some 2)) "AB" "ascii" (Some 2)
           ∅ [x41; x42]);
    reflexivity.
Defined.

Lemma file_payload_witness :
  exists skipped part rest pad,
    [x01; x02; x03; x04; x05] = skipped ++ part ++ rest /\
    part = [x02; x03] /\
    resolve (DT := Ref.doltools) (RT := Demo.runtime)
      (FileHook 0x80003000 "data.bin" 1 (Some 3) (Some 4)) ∅
    = (if 4 <? len part then [WarnExceeds "data.bin" 4] else [],
       Ok (set_data (FileHook 0x80003000 "data.bin" 1 (Some 3) (Some 4))
             (PyBytes (part ++ replicate pad x00)))) /\
    len (part ++ replicate pad x00) = Z.max (len part) 4.
Proof.
  destruct (file_payload (DT := Ref.doltools) (RT := Demo.runtime)
              (FileHook 0x80003000 "data.bin" 1 (Some 3) (Some 4))
              "data.bin" 1 (Some 3) (Some 4) ∅ eq_refl)
    as (skipped & part & rest & pad & Hsplit & Hpart & _ & Hrun & Hlen).
  exists skipped, part, rest, pad. auto.
Defined.

Lemma entry_without_inserts_untouched_witness :
  exists out,
    relocate_code (DF := Ref.dolfile) (DT := Ref.doltools) 0x80004000
      (Sample.image, [x01], []) Demo.write_code
    = (out, Ok (Sample.image, [x01], [])).
Proof.
  apply (entry_without_inserts_untouched (DF := Ref.dolfile) (DT := Ref.doltools)).
  reflexivity.
Defined.

Lemma recorded_commands_witness :
  exists m,
    [mkCodeMetadata 0x80004000 8 "ENABLED" Sample.enabled_code
       [mkCommandMetadata 0x80004000 8 "ENABLED" Sample.insert]] = [] ++ [m] /\
    gecko_code m = Sample.enabled_code /\
    code_status m = status_of Sample.enabled_code /\
    code_vaddr m = 0x80004000 + len (@nil byte) /\
    code_size m = len Sample.fragment - len (@nil byte) /\
    map gecko_command (gecko_command_metadata m) = [Sample.insert] /\
    Forall (fun cm => cmd_size cm = len (value (gecko_command cm)) /\
                      cmd_status cm = status_of Sample.enabled_code)
           (gecko_command_metadata m).
Proof.
  exact (recorded_commands (DF := Ref.dolfile) (DT := Ref.doltools) 0x80004000
           Sample.enabled_code Sample.image Sample.image_patched [] Sample.fragment
           [] _ [GeckoCodeStatus "ENABLED" "on"] eq_refl).
Defined.

Lemma build_without_sources_witness :
  build_project_model (HO := DemoBuild.host) false None PyNone PyNone
    DemoBuild.no_sources ∅
  = ([MakeDirs "./"; MakeDirs "./"], Ok (DemoBuild.no_sources, ∅, false, None)).
Proof.
  apply (build_without_sources (HO := DemoBuild.host) false None PyNone PyNone
           DemoBuild.no_sources ∅);
    reflexivity.
Defined.

Lemma build_needs_base_after_compiling_witness :
  exists tr,
    build_project_model (HO := DemoBuild.host) false None PyNone PyNone
      DemoBuild.settings ∅
    = (tr, Raise (RuntimeError base_error)) /\
    calls tr =
      [["/opt/devkitpro/devkitPPC/bin/powerpc-eabi-gcc"; "-c"; "main.c"; "-o";
        "main.c.o"; "-I"; EmptyString; "-w"; "-std=c99"; "-O1";
        "-fno-asynchronous-unwind-tables"; "-g"]%string].
Proof.
  apply (build_needs_base_after_compiling (HO := DemoBuild.host) false PyNone PyNone
           DemoBuild.settings ∅).
  - discriminate.
  - reflexivity.
  - reflexivity.
Defined.

Lemma build_runs_tools_in_order_witness :
  exists tr,
    build_project_model (HO := DemoBuild.host) false (Some 0x80004000)
      PyNone PyNone DemoBuild.settings ∅
    = (tr,
       Ok (set_obj_files DemoBuild.settings [("main.c.o"%string, true)],
           process_symbols PyNone PyNone ∅ DemoMap.symtab, true,
           Some (replicate 16 x00 ++ [x60; x00; x00; x00]))) /\
    calls tr =
      [["/opt/devkitpro/devkitPPC/bin/powerpc-eabi-gcc"; "-c"; "main.c"; "-o";
        "main.c.o"; "-I"; EmptyString; "-w"; "-std=c99"; "-O1";
        "-fno-asynchronous-unwind-tables"; "-g"];
       ["/opt/devkitpro/devkitPPC/bin/powerpc-eabi-ld"; "-o"; "project.o"]]%string.
Proof.
  destruct (build_runs_tools_in_order (HO := DemoBuild.host) false 0x80004000
              PyNone PyNone DemoBuild.settings ∅
              (process_symbols PyNone PyNone ∅ DemoMap.symtab)
              (replicate 16 x00 ++ [x60; x00; x00; x00]))
    as (tr & Hrun & Hcalls & _).
  - discriminate.
  - reflexivity.
  - reflexivity.
  - reflexivity.
  - exists tr. split; [exact Hrun | exact Hcalls].
Defined.

Lemma sda_hook_needs_bases_witness :
  last_global "_SDA_BASE_" DemoMap.symtab
    = Some (Elf.mkSymbol "_SDA_BASE_" "STB_GLOBAL" (Elf.ShnName "SHN_ABS") 0x1234 0) /\
  exists msg,
    resolve (DT := Ref.doltools) (RT := Ref.runtime)
      (Immediate16Hook 0x80003000 "Foo" "@sda")
      (process_symbols PyNone PyNone ∅ DemoMap.symtab)
    = raise (RuntimeError msg).
Proof.
  split; [reflexivity |].
  apply (sda_hook_needs_bases (DT := Ref.doltools) (RT := Ref.runtime)
           (Immediate16Hook 0x80003000 "Foo" "@sda") "Foo" "@sda" PyNone PyNone ∅
           DemoMap.symtab (mkSymbol (PyInt 0x80004012))).
  - left. split; reflexivity.
  - left. reflexivity.
  - reflexivity.
Defined.

Lemma last_section_in_bin_witness :
  let s := Elf.mkSection ".text" 6 0x80004010 [x60; x00; x00; x00] in
  exists bin,
    write_sections (Some 0x80004000) []
      ([Elf.mkSection ".init" 2 0x80004000 [x01; x02]] ++ [s]) = Ok bin /\
    take 4 (drop 16 bin) = [x60; x00; x00; x00] /\
    len bin = 20 /\
    take 16 bin = [x01; x02] ++ replicate 14 x00.
Proof.
  apply (last_section_in_bin 0x80004000
           [Elf.mkSection ".init" 2 0x80004000 [x01; x02]]
           (Elf.mkSection ".text" 6 0x80004010 [x60; x00; x00; x00]) [x01; x02]).
  - reflexivity.
  - discriminate.
  - discriminate.
  - discriminate.
Defined.

Lemma build_dol_keeps_configuration_witness :
  build_dol (DF := Ref.dolfile) (DT := Ref.doltools) (RT := Ref.runtime)
    (GL := DemoProject.geckolib)
    (TC := toolchain_of (HO := DemoBuild.host) DemoBuild.no_sources)
    DemoProject.patch_off Sample.image
  = ([BaseAutoSet 0x80003020; GeckoCodeStatus "DISABLED" "poke"],
     Ok (DemoMap.after_build_dol, DemoProject.image_hooked)) /\
  map addr (hooks DemoMap.after_build_dol) = map addr (hooks DemoProject.patch_off) /\
  map kind (hooks DemoMap.after_build_dol) = map kind (hooks DemoProject.patch_off) /\
  gecko_codetable DemoMap.after_build_dol = gecko_codetable DemoProject.patch_off.
Proof.
  split; [reflexivity |].
  destruct (build_dol_keeps_configuration (DF := Ref.dolfile) (DT := Ref.doltools)
              (RT := Ref.runtime) (GL := DemoProject.geckolib)
              (TC := toolchain_of (HO := DemoBuild.host) DemoBuild.no_sources)
              DemoProject.patch_off DemoMap.after_build_dol Sample.image
              DemoProject.image_hooked
              [BaseAutoSet 0x80003020; GeckoCodeStatus "DISABLED" "poke"] eq_refl)
    as (_ & _ & _ & Htable & _ & _ & Haddr & Hkind & _).
  split; [exact Haddr |]. split; [exact Hkind | exact Htable].
Defined.

Lemma build_dol_without_blob_witness :
  gecko_code_metadata DemoMap.after_build_dol = [] /\
  exists d2 o3,
    codetable_apply (GeckoLib := DemoProject.geckolib) [Demo.write_code_off] Sample.image
      = Ok d2 /\
    foldM (apply_hook (DF := Ref.dolfile) (DT := Ref.doltools) (RT := Ref.runtime)
             false Sample.symbols)
          ([], d2) [PointerHook 0x80003008 "Foo"]
      = (o3, Ok (hooks DemoMap.after_build_dol, DemoProject.image_hooked)).
Proof.
  apply (build_dol_without_blob (DF := Ref.dolfile) (DT := Ref.doltools)
           (RT := Ref.runtime) (GL := DemoProject.geckolib)
           (TC := toolchain_of (HO := DemoBuild.host) DemoBuild.no_sources)
           DemoProject.patch_off DemoMap.after_build_dol Sample.image
           DemoProject.image_hooked
           [BaseAutoSet 0x80003020; GeckoCodeStatus "DISABLED" "poke"]).
  - intros q. reflexivity.
  - repeat constructor.
  - reflexivity.
Defined.

Lemma rom_end_after_append_witness :
  find_rom_end (DF := Ref.dolfile)
    (Ref.mkImage (Ref.secs Sample.image_4k ++ [Ref.mkSec true 0x80004000 Sample.fragment])
       0)
  = 0x80004000 + len Sample.fragment.
Proof.
  apply (rom_end_after_append (DF := Ref.dolfile) Sample.image_4k _ 0x80004000
           Sample.fragment [BaseAutoSet 0x80004000]).
  - discriminate.
  - reflexivity.
  - reflexivity.
Defined.

Lemma gecko_script_layout_witness :
  build_gecko (DT := Ref.doltools) (RT := Ref.runtime)
    (TC := toolchain_of (HO := DemoBuild.host) DemoBuild.no_sources)
    "demo" DemoProject.patch_only
  = ([GeckoCodeStatus "ENABLED" "poke"],
     Ok (DemoMap.after_build_gecko,
         [GeckoHeader; ProjectTitle "demo"; CodeTitle "poke"; CodeText Demo.write_code;
          HooksTitle; HookCommand (Write32 (PyInt 0x80005010) 0x80003008)])) /\
  exists resolved cmds,
    [GeckoHeader; ProjectTitle "demo"; CodeTitle "poke"; CodeText Demo.write_code;
     HooksTitle; HookCommand (Write32 (PyInt 0x80005010) 0x80003008)]
    = [GeckoHeader; ProjectTitle "demo"; CodeTitle "poke"; CodeText Demo.write_code;
       HooksTitle] ++ map HookCommand cmds /\
    Forall2 (fun h r => exists o,
                 resolve (DT := Ref.doltools) (RT := Ref.runtime) h Sample.symbols
                   = (o, Ok r))
            (hooks DemoProject.patch_only) resolved /\
    cmds = flat_map (fun r => snd (write_geckocommand r [])) resolved /\
    hooks DemoMap.after_build_gecko
      = map (fun r => fst (write_geckocommand r [])) resolved /\
    map (fun c => (line_address c, line_value c)) cmds
      = map (fun r => (addr r, data r))
            (filter (fun r => writes_command r = true) resolved).
Proof.
  split; [reflexivity |].
  destruct (gecko_script_layout (DT := Ref.doltools) (RT := Ref.runtime)
              (TC := toolchain_of (HO := DemoBuild.host) DemoBuild.no_sources)
              "demo" DemoProject.patch_only DemoMap.after_build_gecko
              [GeckoHeader; ProjectTitle "demo"; CodeTitle "poke";
               CodeText Demo.write_code; HooksTitle;
               HookCommand (Write32 (PyInt 0x80005010) 0x80003008)]
              [GeckoCodeStatus "ENABLED" "poke"] eq_refl)
    as (symbols' & built & resolved & cmds & Hbuilt & Hlines & Hres & Hcmds
        & Hhooks & Hmap & _).
  injection Hbuilt as <- <-.
  exists resolved, cmds.
  split; [exact Hlines | split; [exact Hres | split; [exact Hcmds |]]].
  split; [exact Hhooks | exact Hmap].
Defined.

Lemma map_symbols_sorted_witness :
  symbol_rows (Some 0x80004000) DemoBuild.elf
    = Ok [LayoutHeader ".text";
          SymbolRow 0x10 4 0x80004010 "Foo"; SymbolRow 0x12 2 0x80004012 "Foo"] /\
  exists sorted,
    [(0x10, 4, 0x80004010, "Foo"%string); (0x12, 2, 0x80004012, "Foo"%string)] =
      map (fun sym => (Elf.st_value sym - 0x80004000, Elf.st_size sym,
                       Elf.st_value sym, Elf.name sym)) sorted /\
    Sorted Z.le (map Elf.st_value sorted) /\
    Permutation sorted (filter (fun sym => listed sym = true) DemoMap.symtab).
Proof.
  split; [reflexivity |].
  apply (map_symbols_sorted 0x80004000 DemoBuild.elf DemoMap.symtab
           [LayoutHeader ".text";
            SymbolRow 0x10 4 0x80004010 "Foo"; SymbolRow 0x12 2 0x80004012 "Foo"]);
    reflexivity.
Defined.

Lemma map_gecko_rows_witness :
  gecko_rows (Some 0x80004000) DemoMap.metadata
  = Ok [LayoutHeader ".text";
        GeckoRow 0 8 0x80004000 "on" 0;
        UnusedRow 8 "mixed" 0].
Proof.
  apply (map_gecko_rows 0x80004000 DemoMap.metadata).
  repeat constructor.
Defined.

Lemma map_ends_with_dummy_witness :
  exists grows,
    gecko_rows (Some 0x80004000) DemoMap.metadata = Ok grows /\
    save_map (HO := DemoMap.host_without_object) (Some 0x80004000)
      EmptyString "project" DemoMap.metadata
    = Ok (grows ++ dummy_layout).
Proof.
  destruct (map_ends_with_dummy (HO := DemoMap.host_without_object)
              (Some 0x80004000) EmptyString "project" DemoMap.metadata _ eq_refl)
    as [_ Hos].
  destruct (Hos (LibraryError "OSError") eq_refl eq_refl) as (grows & Hrows & Hlines).
  exists grows. split; [exact Hrows |]. rewrite <- Hlines. reflexivity.
Defined.

Lemma hooks_survive_cleanup_witness :
  let h := set_good (set_data (PointerHook 0x80003008 "Foo") (PyInt 0x80005010)) in
  let p' := snd (fst (cleanup DemoBuild.settings DemoMap.built ∅)) in
  h ∈ hooks p' /\
  resolve (DT := Ref.doltools) (RT := Ref.runtime) h (symbols p') = ret h.
Proof.
  apply (hooks_survive_cleanup (DT := Ref.doltools) (RT := Ref.runtime)
           DemoBuild.settings DemoMap.built ∅
           (set_good (set_data (PointerHook 0x80003008 "Foo") (PyInt 0x80005010)))
           "Foo").
  - apply list_elem_of_here.
  - reflexivity.
Defined.

Lemma add_string_default_warns_witness :
  snd (add_string (replicate 12 false) [] 0x80003000 "AB" "ascii" (Some (-1)))
    = [] ++ [StringHook 0x80003000 "AB" "ascii" (Some (-1))] /\
  resolve (DT := Ref.doltools) (RT := Ref.runtime)
    (StringHook 0x80003000 "AB" "ascii" (Some (-1))) ∅
    = ([WarnExceeds "AB" (-1)],
       Ok (set_data (StringHook 0x80003000 "AB" "ascii" (Some (-1)))
             (PyBytes ([x41; x42] ++ [x00])))) /\
  resolve (DT := Ref.doltools) (RT := Ref.runtime)
    (StringHook 0x80003000 "AB" "ascii" None) ∅
    = ([], Ok (set_data (StringHook 0x80003000 "AB" "ascii" None)
                 (PyBytes ([x41; x42] ++ [x00])))).
Proof.
  apply (add_string_default_warns (DT := Ref.doltools) (RT := Ref.runtime)
           (replicate 12 false) [] 0x80003000 "AB" "ascii" ∅ [x41; x42]).
  reflexivity.
Defined.

Lemma branchlink_notice_once_witness :
  let '(printed1, flags1, hooks1) :=
    branchlink (replicate 12 false) [] 0x80003000 "Foo" in
  let '(printed2, flags2, hooks2) := branchlink flags1 hooks1 0x80003004 "Bar" in
  printed1 = [Deprecated "branchlink" "hook_branchlink"] /\
  printed2 = [] /\
  flags2 = flags1 /\
  hooks2 = [] ++ [BranchHook 0x80003000 "Foo" true; BranchHook 0x80003004 "Bar" true] /\
  length flags1 = length (replicate 12 false) /\
  forall j, j <> 2%nat -> flags1 !! j = replicate 12 false !! j.
Proof.
  apply (branchlink_notice_once (replicate 12 false) [] 0x80003000 0x80003004
           "Foo" "Bar").
  reflexivity.
Defined.

Lemma append_blob_cases_witness :
  let d1 := Ref.mkImage (Ref.secs Sample.image ++ [Ref.mkSec true 0x80004000 [x01]]) 0 in
  append_blob (DF := Ref.dolfile) (Some DemoMap.patcher) Sample.image 0x80004000 [x01]
    = ([], Ok (Ref.mkImage (Ref.secs d1) 0x80004001)) /\
  exists sec d1',
    append_section (DolFile := Ref.dolfile) Sample.image sec = Ok d1' /\
    DemoMap.patcher d1' (0x80004000 + len [x01]) = Ok (Ref.mkImage (Ref.secs d1) 0x80004001).
Proof.
  split; [reflexivity |].
  destruct (append_blob_cases (DF := Ref.dolfile) (Some DemoMap.patcher) Sample.image
              (Ref.mkImage (Ref.secs Sample.image ++ [Ref.mkSec true 0x80004000 [x01]])
                 0x80004001)
              0x80004000 [x01] [] eq_refl)
    as (_ & sec & d1' & Happ & _ & Hpatch).
  exists sec, d1'. split; [exact Happ | exact Hpatch].
Defined.
